(** * PyCosworth: the acquisition loop and the coordinator

    A shallow embedding of [iomodules/SerialIO.py] (demo data generator and
    the per-sensor polling loop) and of the [__main__] block of
    [PyCosworth.py] (worker start-up, the control-queue broadcast and the
    hand-over of samples into the shared ECU data), followed by the
    properties of both.

    Conventions.
    - Python floats are taken as exact rationals ([Qc]); Python ints as [Z].
    - A Python exception is a [Raise]; the state reached when it is raised is
      kept, as the statements executed before it have taken effect.
    - [timeit.default_timer()] is an input: the n-th call of a run returns
      [default_timer n].
    - [multiprocessing.Queue] objects are FIFO lists, [put] appends at the
      tail, [get] removes the head.
    - [time.sleep] only lets the clock advance and has no statement here.
    - Calls of the logger are kept in the coordinator (where a property
      speaks about them) and left out of the acquisition loop, except for
      the one whose argument can raise.
    - [while True] is run for a given number of iterations. *)

From Stdlib Require Import QArith Qcanon.
From stdpp Require Import gmap strings list fin_maps numbers functions.

Local Open Scope Z_scope.

(** ** Exceptions and the state-and-exception monad *)

Inductive exn :=
| KeyError
| IndexError
| ZeroDivisionError
| NameError (name : string).

Inductive Res (A : Type) :=
| Ok (a : A)
| Raise (e : exn).
Arguments Ok {A} a.
Arguments Raise {A} e.

Definition M (S A : Type) : Type := S → Res A * S.

Definition ret {S A} (a : A) : M S A := λ s, (Ok a, s).
Definition raise {S A} (e : exn) : M S A := λ s, (Raise e, s).
Definition bind {S A B} (m : M S A) (f : A → M S B) : M S B :=
  λ s, match m s with
       | (Ok a, s') => f a s'
       | (Raise e, s') => (Raise e, s')
       end.
Definition get {S} : M S S := λ s, (Ok s, s).
Definition modify {S} (f : S → S) : M S unit := λ s, (Ok tt, f s).
Definition lift {S A} (r : Res A) : M S A := λ s, (r, s).

Global Instance M_ret {S} : MRet (M S) := λ A, @ret S A.
Global Instance M_bind {S} : MBind (M S) := λ A B f m, @bind S A B m f.

(** [for x in l: body x] *)
Fixpoint for_each {S A} (l : list A) (body : A → M S unit) : M S unit :=
  match l with
  | [] => ret tt
  | x :: l' => body x ;; for_each l' body
  end.

(** [l[i]] on a Python list: negative indices count from the end. *)
Definition py_getitem {A} (l : list A) (i : Z) : Res A :=
  let n := Z.of_nat (length l) in
  let j := if decide (i < 0) then i + n else i in
  if decide (0 ≤ j < n) then
    match l !! Z.to_nat j with Some x => Ok x | None => Raise IndexError end
  else Raise IndexError.

(** [range(0, n)] *)
Definition py_range (n : Z) : list Z := Z.of_nat <$> seq 0 (Z.to_nat n).

(** ** Data shared by both programs *)

(** An entry of [settings.SENSORS] (the keys the two programs read). *)
Record Sensor := {
  sensorId : string;
  refresh : Qc;
  minValue : Qc;
  maxValue : Qc
}.

(** What a sensor value can be: the null of a registered but unsampled
    sensor, a demo value (a float), or the placeholder string the live
    branch sends. *)
Inductive Value :=
| VNone
| VFloat (q : Qc)
| VStr (s : string).

Global Instance Value_eq_dec : EqDecision Value.
Proof. solve_decision. Defined.

(** The tuple put on the receive queue; the fields are named after the
    positions the coordinator reads ([d[0]] .. [d[4]]). *)
Record Sample := {
  d0 : Z;        (* message type *)
  d1 : string;   (* sensorId *)
  d2 : Value;    (* sensor value *)
  d3 : Z;        (* sample count *)
  d4 : Qc        (* time taken for last data collection cycle *)
}.

(** Modelled from the spec: the class [libs.ControlData] is not part of the
    sources at hand.  A control message carries a target worker, whether a
    button is pressed, and the duration class of the press.  Its method
    [isMine] is a parameter of the development. *)
Record ControlData := {
  targetWorkerId : Z;
  button : bool;
  duration : Z
}.

(** The constants of [libs/settings.py] that the two programs read. *)
Module settings.
Record t := {
  SENSORS : list Sensor;
  DEMO_STEPS : Z;
  SERIALIO_DEMO : bool;
  BUTTON_DEST_SERIALIO : Z;
  BUTTON_LONG : Z;
  BUTTON_SHORT : Z;
  TYPE_DATA : Z;
  TYPE_ERROR : Z;
  USE_CONSOLE : bool;
  USE_MATRIX : bool;
  USE_BUTTONS : bool;
  USE_GRAPHICS : bool;
  MAX_ERRORS : Z
}.
End settings.

(** ** iomodules/SerialIO.py *)

Module SerialIO.

(** [demo_sensor[id]] *)
Record demo_entry := {
  demo_data_idx : Z;
  demo_data : list Qc
}.

Definition append_demo_data (v : Qc) (e : demo_entry) : demo_entry :=
  {| demo_data_idx := demo_data_idx e; demo_data := demo_data e ++ [v] |}.

Definition set_demo_data_idx (i : Z) (e : demo_entry) : demo_entry :=
  {| demo_data_idx := i; demo_data := demo_data e |}.

(** The local variables of [SerialIO], its three queues, and the number of
    timer readings taken so far. *)
Record State := {
  SERIALIO_DEMO : bool;
  demo_sensor : option (gmap string demo_entry);   (* None: not yet bound *)
  connected : bool;
  highest_sample_rate : Qc;
  sample_counter_id : string;
  sensor_timer : gmap string Qc;
  counter : Z;
  sample_time : Qc;
  sample_start : Qc;
  transmitQueue : list string;
  receiveQueue : list Sample;
  controlQueue : list ControlData;
  timer_reads : nat
}.

Definition set_SERIALIO_DEMO (b : bool) (s : State) : State :=
  {| SERIALIO_DEMO := b; demo_sensor := demo_sensor s;
     connected := connected s; highest_sample_rate := highest_sample_rate s;
     sample_counter_id := sample_counter_id s; sensor_timer := sensor_timer s;
     counter := counter s; sample_time := sample_time s;
     sample_start := sample_start s; transmitQueue := transmitQueue s;
     receiveQueue := receiveQueue s; controlQueue := controlQueue s;
     timer_reads := timer_reads s |}.
Definition set_demo_sensor (d : option (gmap string demo_entry)) (s : State) : State :=
  {| SERIALIO_DEMO := SERIALIO_DEMO s; demo_sensor := d;
     connected := connected s; highest_sample_rate := highest_sample_rate s;
     sample_counter_id := sample_counter_id s; sensor_timer := sensor_timer s;
     counter := counter s; sample_time := sample_time s;
     sample_start := sample_start s; transmitQueue := transmitQueue s;
     receiveQueue := receiveQueue s; controlQueue := controlQueue s;
     timer_reads := timer_reads s |}.
Definition set_connected (b : bool) (s : State) : State :=
  {| SERIALIO_DEMO := SERIALIO_DEMO s; demo_sensor := demo_sensor s;
     connected := b; highest_sample_rate := highest_sample_rate s;
     sample_counter_id := sample_counter_id s; sensor_timer := sensor_timer s;
     counter := counter s; sample_time := sample_time s;
     sample_start := sample_start s; transmitQueue := transmitQueue s;
     receiveQueue := receiveQueue s; controlQueue := controlQueue s;
     timer_reads := timer_reads s |}.
Definition set_highest_sample_rate (r : Qc) (s : State) : State :=
  {| SERIALIO_DEMO := SERIALIO_DEMO s; demo_sensor := demo_sensor s;
     connected := connected s; highest_sample_rate := r;
     sample_counter_id := sample_counter_id s; sensor_timer := sensor_timer s;
     counter := counter s; sample_time := sample_time s;
     sample_start := sample_start s; transmitQueue := transmitQueue s;
     receiveQueue := receiveQueue s; controlQueue := controlQueue s;
     timer_reads := timer_reads s |}.
Definition set_sample_counter_id (i : string) (s : State) : State :=
  {| SERIALIO_DEMO := SERIALIO_DEMO s; demo_sensor := demo_sensor s;
     connected := connected s; highest_sample_rate := highest_sample_rate s;
     sample_counter_id := i; sensor_timer := sensor_timer s;
     counter := counter s; sample_time := sample_time s;
     sample_start := sample_start s; transmitQueue := transmitQueue s;
     receiveQueue := receiveQueue s; controlQueue := controlQueue s;
     timer_reads := timer_reads s |}.
Definition set_sensor_timer (m : gmap string Qc) (s : State) : State :=
  {| SERIALIO_DEMO := SERIALIO_DEMO s; demo_sensor := demo_sensor s;
     connected := connected s; highest_sample_rate := highest_sample_rate s;
     sample_counter_id := sample_counter_id s; sensor_timer := m;
     counter := counter s; sample_time := sample_time s;
     sample_start := sample_start s; transmitQueue := transmitQueue s;
     receiveQueue := receiveQueue s; controlQueue := controlQueue s;
     timer_reads := timer_reads s |}.
Definition set_counter (c : Z) (s : State) : State :=
  {| SERIALIO_DEMO := SERIALIO_DEMO s; demo_sensor := demo_sensor s;
     connected := connected s; highest_sample_rate := highest_sample_rate s;
     sample_counter_id := sample_counter_id s; sensor_timer := sensor_timer s;
     counter := c; sample_time := sample_time s;
     sample_start := sample_start s; transmitQueue := transmitQueue s;
     receiveQueue := receiveQueue s; controlQueue := controlQueue s;
     timer_reads := timer_reads s |}.
Definition set_sample_time (x : Qc) (s : State) : State :=
  {| SERIALIO_DEMO := SERIALIO_DEMO s; demo_sensor := demo_sensor s;
     connected := connected s; highest_sample_rate := highest_sample_rate s;
     sample_counter_id := sample_counter_id s; sensor_timer := sensor_timer s;
     counter := counter s; sample_time := x;
     sample_start := sample_start s; transmitQueue := transmitQueue s;
     receiveQueue := receiveQueue s; controlQueue := controlQueue s;
     timer_reads := timer_reads s |}.
Definition set_sample_start (x : Qc) (s : State) : State :=
  {| SERIALIO_DEMO := SERIALIO_DEMO s; demo_sensor := demo_sensor s;
     connected := connected s; highest_sample_rate := highest_sample_rate s;
     sample_counter_id := sample_counter_id s; sensor_timer := sensor_timer s;
     counter := counter s; sample_time := sample_time s;
     sample_start := x; transmitQueue := transmitQueue s;
     receiveQueue := receiveQueue s; controlQueue := controlQueue s;
     timer_reads := timer_reads s |}.
Definition set_transmitQueue (q : list string) (s : State) : State :=
  {| SERIALIO_DEMO := SERIALIO_DEMO s; demo_sensor := demo_sensor s;
     connected := connected s; highest_sample_rate := highest_sample_rate s;
     sample_counter_id := sample_counter_id s; sensor_timer := sensor_timer s;
     counter := counter s; sample_time := sample_time s;
     sample_start := sample_start s; transmitQueue := q;
     receiveQueue := receiveQueue s; controlQueue := controlQueue s;
     timer_reads := timer_reads s |}.
Definition set_receiveQueue (q : list Sample) (s : State) : State :=
  {| SERIALIO_DEMO := SERIALIO_DEMO s; demo_sensor := demo_sensor s;
     connected := connected s; highest_sample_rate := highest_sample_rate s;
     sample_counter_id := sample_counter_id s; sensor_timer := sensor_timer s;
     counter := counter s; sample_time := sample_time s;
     sample_start := sample_start s; transmitQueue := transmitQueue s;
     receiveQueue := q; controlQueue := controlQueue s;
     timer_reads := timer_reads s |}.
Definition set_controlQueue (q : list ControlData) (s : State) : State :=
  {| SERIALIO_DEMO := SERIALIO_DEMO s; demo_sensor := demo_sensor s;
     connected := connected s; highest_sample_rate := highest_sample_rate s;
     sample_counter_id := sample_counter_id s; sensor_timer := sensor_timer s;
     counter := counter s; sample_time := sample_time s;
     sample_start := sample_start s; transmitQueue := transmitQueue s;
     receiveQueue := receiveQueue s; controlQueue := q;
     timer_reads := timer_reads s |}.
Definition set_timer_reads (n : nat) (s : State) : State :=
  {| SERIALIO_DEMO := SERIALIO_DEMO s; demo_sensor := demo_sensor s;
     connected := connected s; highest_sample_rate := highest_sample_rate s;
     sample_counter_id := sample_counter_id s; sensor_timer := sensor_timer s;
     counter := counter s; sample_time := sample_time s;
     sample_start := sample_start s; transmitQueue := transmitQueue s;
     receiveQueue := receiveQueue s; controlQueue := controlQueue s;
     timer_reads := n |}.

Section Program.

Context (cfg : settings.t).
(** [cdata.isMine(id)] of the class [libs.ControlData]. *)
Context (isMine : ControlData → Z → bool).
(** The successive readings of [timeit.default_timer()]. *)
Context (default_timer : nat → Qc).

(** *** setupDemoSensors (lines 35-55) *)

(** [demo_step_size = (sensor['maxValue'] * 1.0) / settings.DEMO_STEPS] *)
Definition demo_step_size (sensor : Sensor) : Res Qc :=
  if decide (settings.DEMO_STEPS cfg = 0) then Raise ZeroDivisionError
  else Ok ((maxValue sensor * 1) / Qc_of_Z (settings.DEMO_STEPS cfg))%Qc.

(** First inner loop: append [d_value], then add the step.  The list is the
    one stored under the sensor's id, which line 42 has just created. *)
Definition ramp_up (id : string) (step : Qc)
    (acc : gmap string demo_entry * Qc) (d : Z) : gmap string demo_entry * Qc :=
  let '(demo_sensor, d_value) := acc in
  (alter (append_demo_data d_value) id demo_sensor, (d_value + step)%Qc).

(** Second inner loop: subtract the step, then append [d_value]. *)
Definition ramp_down (id : string) (step : Qc)
    (acc : gmap string demo_entry * Qc) (d : Z) : gmap string demo_entry * Qc :=
  let '(demo_sensor, d_value) := acc in
  let d_value := (d_value - step)%Qc in
  (alter (append_demo_data d_value) id demo_sensor, d_value).

(** The body of [for sensor in settings.SENSORS]. *)
Definition setup_sensor (demo_sensor : gmap string demo_entry) (sensor : Sensor)
    : Res (gmap string demo_entry) :=
  let demo_sensor :=
    <[sensorId sensor := {| demo_data_idx := 0; demo_data := [] |}]> demo_sensor in
  match demo_step_size sensor with
  | Raise e => Raise e
  | Ok demo_step_size =>
      let d_value := minValue sensor in
      let acc := foldl (ramp_up (sensorId sensor) demo_step_size)
                       (demo_sensor, d_value) (py_range (settings.DEMO_STEPS cfg)) in
      let acc := foldl (ramp_down (sensorId sensor) demo_step_size)
                       acc (py_range (settings.DEMO_STEPS cfg)) in
      Ok acc.1
  end.

Fixpoint setup_sensors (demo_sensor : gmap string demo_entry) (l : list Sensor)
    : Res (gmap string demo_entry) :=
  match l with
  | [] => Ok demo_sensor
  | sensor :: l' =>
      match setup_sensor demo_sensor sensor with
      | Ok demo_sensor' => setup_sensors demo_sensor' l'
      | Raise e => Raise e
      end
  end.

Definition setupDemoSensors : Res (gmap string demo_entry) :=
  setup_sensors ∅ (settings.SENSORS cfg).

(** *** SerialIO: initialisation (lines 60-100) *)

Definition read_timer : M State Qc :=
  λ s, (Ok (default_timer (timer_reads s)), set_timer_reads (S (timer_reads s)) s).

Definition myButtonId : Z := settings.BUTTON_DEST_SERIALIO cfg.

(** Lines 70-74. *)
Definition init_demo : M State unit :=
  if settings.SERIALIO_DEMO cfg then
    modify (set_SERIALIO_DEMO true) ;;
    ds ← lift setupDemoSensors ;
    modify (set_demo_sensor (Some ds))
  else
    modify (set_SERIALIO_DEMO false).

(** Lines 85-88: the body of the search for the highest sample rate. *)
Definition find_rate_body (sensor : Sensor) : M State unit :=
  s ← get ;
  if decide (refresh sensor < highest_sample_rate s)%Qc then
    modify (set_sample_counter_id (sensorId sensor)) ;;
    modify (set_highest_sample_rate (refresh sensor))
  else ret tt.

(** Lines 83-90; the last log line divides by the rate found. *)
Definition find_highest_sample_rate : M State unit :=
  modify (set_highest_sample_rate (Qc_of_Z 99)) ;;
  modify (set_sample_counter_id "") ;;
  for_each (settings.SENSORS cfg) find_rate_body ;;
  s ← get ;
  if decide (highest_sample_rate s = Qc_of_Z 0) then raise ZeroDivisionError
  else ret tt.

(** Lines 94-96. *)
Definition reset_timers : M State unit :=
  modify (set_sensor_timer ∅) ;;
  for_each (settings.SENSORS cfg) (λ sensor,
    now ← read_timer ;
    s ← get ;
    modify (set_sensor_timer (<[sensorId sensor := now]> (sensor_timer s)))).

Definition init : M State unit :=
  init_demo ;;
  modify (set_connected false) ;;
  find_highest_sample_rate ;;
  reset_timers ;;
  modify (set_counter 0).

(** *** SerialIO: one round of the sample loop (lines 108-221) *)

(** Lines 118-140: at most one control message per round. *)
Definition control_step : M State unit :=
  s ← get ;
  match controlQueue s with
  | [] => ret tt
  | cdata :: rest =>
      modify (set_controlQueue rest) ;;
      if isMine cdata myButtonId then
        (* long press: nothing is done *)
        if button cdata && bool_decide (duration cdata = settings.BUTTON_SHORT cfg) then
          if SERIALIO_DEMO s then
            modify (set_SERIALIO_DEMO false)
          else
            modify (set_SERIALIO_DEMO true) ;;
            ds ← lift setupDemoSensors ;
            modify (set_demo_sensor (Some ds))
        else ret tt
      else ret tt
  end.

(** Lines 150-165: a pending request is taken off the queue; sending it
    is not implemented. *)
Definition transmit_step : M State unit :=
  s ← get ;
  match transmitQueue s with
  | [] => ret tt
  | txb :: rest => modify (set_transmitQueue rest)
  end.

(** Lines 201-204. *)
Definition advance_idx (idx : Z) : Z :=
  if decide (idx < settings.DEMO_STEPS cfg * 2 - 1) then idx + 1 else 0.

Definition lookup_key {V} (m : gmap string V) (k : string) : M State V :=
  match m !! k with Some v => ret v | None => raise KeyError end.

(** [receiveQueue.put(...)] *)
Definition put_receive (x : Sample) : M State unit :=
  modify (λ s, set_receiveQueue (receiveQueue s ++ [x]) s).

(** [sensor_timer[id] = timeit.default_timer()] *)
Definition reset_timer (id : string) : M State unit :=
  now ← read_timer ;
  modify (λ s, set_sensor_timer (<[id := now]> (sensor_timer s)) s).

(** Lines 181-188. *)
Definition count_sample (sensor : Sensor) : M State unit :=
  s ← get ;
  if decide (sensorId sensor = sample_counter_id s) then
    modify (set_counter (counter s + 1)) ;;
    sample_end ← read_timer ;
    modify (set_sample_time (sample_end - sample_start s)%Qc)
  else ret tt.

(** Lines 190-204. *)
Definition send_demo (sensor : Sensor) : M State unit :=
  s ← get ;
  match demo_sensor s with
  | None => raise (NameError "demo_sensor")
  | Some ds =>
      e ← lookup_key ds (sensorId sensor) ;
      let demo_data_idx := demo_data_idx e in
      rxb ← lift (py_getitem (demo_data e) demo_data_idx) ;
      put_receive {| d0 := settings.TYPE_DATA cfg; d1 := sensorId sensor;
                     d2 := VFloat rxb; d3 := counter s; d4 := sample_time s |} ;;
      reset_timer (sensorId sensor) ;;
      modify (set_demo_sensor
                (Some (<[sensorId sensor := set_demo_data_idx (advance_idx demo_data_idx) e]> ds)))
  end.

(** Lines 207-213. *)
Definition send_live (sensor : Sensor) : M State unit :=
  s ← get ;
  if connected s then
    put_receive {| d0 := settings.TYPE_DATA cfg; d1 := sensorId sensor;
                   d2 := VStr "0x0"; d3 := counter s; d4 := sample_time s |} ;;
    reset_timer (sensorId sensor)
  else ret tt.

(** Lines 173-216: the body of [for sensor in settings.SENSORS]. *)
Definition poll_sensor (sensor : Sensor) : M State unit :=
  now ← read_timer ;
  s ← get ;
  last ← lookup_key (sensor_timer s) (sensorId sensor) ;
  let t := (now - last)%Qc in
  if decide (refresh sensor ≤ t)%Qc then
    count_sample sensor ;;
    s ← get ;
    if SERIALIO_DEMO s then send_demo sensor else send_live sensor
  else ret tt.

Definition poll_sensors : M State unit :=
  for_each (settings.SENSORS cfg) poll_sensor.

(** Lines 110-165: what a round does before it polls the sensors. *)
Definition listen : M State unit :=
  modify (set_sample_time (Qc_of_Z 0)) ;;
  sample_start ← read_timer ;
  modify (set_sample_start sample_start) ;;
  control_step ;;
  transmit_step.

(** One iteration of [while True]. *)
Definition tick : M State unit :=
  listen ;;
  poll_sensors.

(** [n] iterations of [while True]. *)
Fixpoint loop (n : nat) : M State unit :=
  match n with
  | O => ret tt
  | S n' => tick ;; loop n'
  end.

Definition SerialIO (n : nat) : M State unit :=
  init ;; loop n.

End Program.

(** The state in which [SerialIO] is entered: no local is bound yet, the
    queues are the ones handed over by the caller. *)
Definition entry (tx : list string) (rx : list Sample) (ctl : list ControlData) : State :=
  {| SERIALIO_DEMO := false; demo_sensor := None; connected := false;
     highest_sample_rate := Qc_of_Z 0; sample_counter_id := "";
     sensor_timer := ∅; counter := 0;
     sample_time := Qc_of_Z 0; sample_start := Qc_of_Z 0;
     transmitQueue := tx; receiveQueue := rx; controlQueue := ctl;
     timer_reads := 0 |}.

End SerialIO.

(** ** PyCosworth.py *)

Module PyCosworth.

(** The shared ECU data: the dictionaries and values created at lines
    84-90 and reached through [ecuData.data], [ecuData.data_previous],
    [ecuData.counter.value], [ecuData.timer.value]; [errors] is
    [ecuErrors]. *)
Record EcuData := {
  data : gmap string Value;
  data_previous : gmap string Value;
  counter : Z;
  timer : Qc;
  errors : list Z
}.

(** Modelled from the spec: the method [EcuData.set_sensor] is not part of
    the sources at hand; sensors are pre-registered at a null value. *)
Definition set_sensor (sensor : Sensor) (e : EcuData) : EcuData :=
  {| data := <[sensorId sensor := VNone]> (data e);
     data_previous := data_previous e;
     counter := counter e; timer := timer e; errors := errors e |}.

(** The queue variables of the [__main__] block.  Each is assigned at most
    once, so a variable stands for the queue object it is bound to. *)
Inductive QueueVar :=
| serialControlQueue
| consoleControlQueue
| matrixControlQueue
| graphicsControlQueue
| gpioActionQueue.

Global Instance QueueVar_eq_dec : EqDecision QueueVar.
Proof. solve_decision. Defined.

Definition var_name (q : QueueVar) : string :=
  match q with
  | serialControlQueue => "serialControlQueue"
  | consoleControlQueue => "consoleControlQueue"
  | matrixControlQueue => "matrixControlQueue"
  | graphicsControlQueue => "graphicsControlQueue"
  | gpioActionQueue => "gpioActionQueue"
  end.

(** The worker processes, named by their target function. *)
Inductive Worker :=
| serialWorker
| consoleWorker
| matrixLCDWorker
| graphicsWorker
| gpioButtonWorker.

Global Instance Worker_eq_dec : EqDecision Worker.
Proof. solve_decision. Defined.

(** The control queue handed to a worker in [args=]; the button worker
    gets the action queue, which it writes. *)
Definition inbox (w : Worker) : option QueueVar :=
  match w with
  | serialWorker => Some serialControlQueue
  | consoleWorker => Some consoleControlQueue
  | matrixLCDWorker => Some matrixControlQueue
  | graphicsWorker => Some graphicsControlQueue
  | gpioButtonWorker => None
  end.

Inductive level := debug | info | warn.

Record State := {
  ecuData : EcuData;
  serialReceiveQueue : list Sample;
  queues : QueueVar → option (list ControlData);   (* None: name not bound *)
  started : list Worker;                           (* processes running *)
  workers : list Worker;
  messageQueues : list QueueVar;
  i : option Z;                                    (* None: name not bound *)
  log : list (level * string)
}.

Definition set_ecuData (e : EcuData) (s : State) : State :=
  {| ecuData := e; serialReceiveQueue := serialReceiveQueue s;
     queues := queues s; started := started s; workers := workers s;
     messageQueues := messageQueues s; i := i s; log := log s |}.
Definition set_serialReceiveQueue (q : list Sample) (s : State) : State :=
  {| ecuData := ecuData s; serialReceiveQueue := q;
     queues := queues s; started := started s; workers := workers s;
     messageQueues := messageQueues s; i := i s; log := log s |}.
Definition set_queues (q : QueueVar → option (list ControlData)) (s : State) : State :=
  {| ecuData := ecuData s; serialReceiveQueue := serialReceiveQueue s;
     queues := q; started := started s; workers := workers s;
     messageQueues := messageQueues s; i := i s; log := log s |}.
Definition set_started (w : list Worker) (s : State) : State :=
  {| ecuData := ecuData s; serialReceiveQueue := serialReceiveQueue s;
     queues := queues s; started := w; workers := workers s;
     messageQueues := messageQueues s; i := i s; log := log s |}.
Definition set_workers (w : list Worker) (s : State) : State :=
  {| ecuData := ecuData s; serialReceiveQueue := serialReceiveQueue s;
     queues := queues s; started := started s; workers := w;
     messageQueues := messageQueues s; i := i s; log := log s |}.
Definition set_messageQueues (q : list QueueVar) (s : State) : State :=
  {| ecuData := ecuData s; serialReceiveQueue := serialReceiveQueue s;
     queues := queues s; started := started s; workers := workers s;
     messageQueues := q; i := i s; log := log s |}.
Definition set_i (n : option Z) (s : State) : State :=
  {| ecuData := ecuData s; serialReceiveQueue := serialReceiveQueue s;
     queues := queues s; started := started s; workers := workers s;
     messageQueues := messageQueues s; i := n; log := log s |}.
Definition set_log (l : list (level * string)) (s : State) : State :=
  {| ecuData := ecuData s; serialReceiveQueue := serialReceiveQueue s;
     queues := queues s; started := started s; workers := workers s;
     messageQueues := messageQueues s; i := i s; log := l |}.

(** The state in which the [__main__] block is entered. *)
Definition entry : State :=
  {| ecuData := {| data := ∅; data_previous := ∅; counter := 0;
                   timer := Qc_of_Z 0; errors := [] |};
     serialReceiveQueue := []; queues := λ _, None;
     started := []; workers := []; messageQueues := [];
     i := None; log := [] |}.

Section Program.

Context (cfg : settings.t).

Definition logger (l : level) (text : string) : M State unit :=
  modify (λ s, set_log (log s ++ [(l, text)]) s).

(** Reading a variable: a name that is not bound raises. *)
Definition name (q : QueueVar) : M State QueueVar :=
  s ← get ;
  match queues s q with
  | Some _ => ret q
  | None => raise (NameError (var_name q))
  end.

(** [q = multiprocessing.Queue()] *)
Definition new_queue (q : QueueVar) : M State unit :=
  modify (λ s, set_queues (<[q := Some []]> (queues s)) s).

(** [p = multiprocessing.Process(target=w, ...); p.start(); workers.append(p)] *)
Definition start_worker (w : Worker) : M State unit :=
  modify (λ s, set_started (started s ++ [w]) s) ;;
  modify (λ s, set_workers (workers s ++ [w]) s).

(** [messageQueues.append(q)] *)
Definition register (q : QueueVar) : M State unit :=
  q' ← name q ;
  modify (λ s, set_messageQueues (messageQueues s ++ [q']) s).

(** [q.put(m)] *)
Definition put (m : ControlData) (q : QueueVar) : M State unit :=
  modify (λ s, set_queues (<[q := (λ l, l ++ [m]) <$> queues s q]> (queues s)) s).

(** Lines 84-100. *)
Definition create_ecuData : M State unit :=
  modify (set_ecuData {| data := ∅; data_previous := ∅; counter := 0;
                         timer := Qc_of_Z 0;
                         errors := py_range (settings.MAX_ERRORS cfg) |}) ;;
  for_each (settings.SENSORS cfg)
    (λ sensor, modify (λ s, set_ecuData (set_sensor sensor (ecuData s)) s)).

(** Lines 80-172: everything before [while True]. *)
Definition startup : M State unit :=
  create_ecuData ;;
  modify (set_workers []) ;;
  modify (set_messageQueues []) ;;
  (* the serial IO process *)
  new_queue serialControlQueue ;;
  start_worker serialWorker ;;
  register serialControlQueue ;;
  (* the console IO process *)
  (if settings.USE_CONSOLE cfg then
     new_queue consoleControlQueue ;;
     start_worker consoleWorker ;;
     register matrixControlQueue
   else ret tt) ;;
  (* the Matrix LCD process *)
  (if settings.USE_MATRIX cfg then
     new_queue matrixControlQueue ;;
     start_worker matrixLCDWorker ;;
     register matrixControlQueue
   else ret tt) ;;
  (* the GPIO button process *)
  (if settings.USE_BUTTONS cfg then
     new_queue gpioActionQueue ;;
     start_worker gpioButtonWorker
   else ret tt) ;;
  (* the OLED/SDL graphics process *)
  (if settings.USE_GRAPHICS cfg then
     new_queue graphicsControlQueue ;;
     start_worker graphicsWorker ;;
     register graphicsControlQueue
   else ret tt) ;;
  modify (set_i (Some 0)).

(** Lines 190-198: the dispatch on the message type. *)
Definition dispatch (d : Sample) : M State unit :=
  if decide (d0 d = settings.TYPE_ERROR cfg) then
    logger warn "ECU error message received"
  else if decide (d0 d = settings.TYPE_DATA cfg) then
    s ← get ;
    match data (ecuData s) !! d1 d with
    | None => raise KeyError
    | Some current =>
        modify (λ s, set_ecuData
          {| data := data (ecuData s);
             data_previous := <[d1 d := current]> (data_previous (ecuData s));
             counter := counter (ecuData s); timer := timer (ecuData s);
             errors := errors (ecuData s) |} s) ;;
        modify (λ s, set_ecuData
          {| data := <[d1 d := d2 d]> (data (ecuData s));
             data_previous := data_previous (ecuData s);
             counter := counter (ecuData s); timer := timer (ecuData s);
             errors := errors (ecuData s) |} s)
    end
  else
    logger warn "Unknown message type from SerialIO process".

(** Lines 201-202: always update the sample counter. *)
Definition update_counter (d : Sample) : M State unit :=
  modify (λ s, set_ecuData
    {| data := data (ecuData s); data_previous := data_previous (ecuData s);
       counter := d3 d; timer := timer (ecuData s);
       errors := errors (ecuData s) |} s) ;;
  modify (λ s, set_ecuData
    {| data := data (ecuData s); data_previous := data_previous (ecuData s);
       counter := counter (ecuData s); timer := d4 d;
       errors := errors (ecuData s) |} s).

(** Lines 180-202: at most one sample per round. *)
Definition receive_step : M State unit :=
  s ← get ;
  match serialReceiveQueue s with
  | [] => ret tt
  | d :: rest =>
      logger debug "Got some ECU data" ;;
      modify (set_serialReceiveQueue rest) ;;
      dispatch d ;;
      update_counter d
  end.

(** Lines 205-211: at most one button message per round, put on every
    queue of [messageQueues]. *)
Definition button_step : M State unit :=
  q ← name gpioActionQueue ;
  s ← get ;
  match queues s q with
  | Some (gpioMessage :: rest) =>
      logger debug "Message in the control queue" ;;
      modify (λ s, set_queues (<[q := Some rest]> (queues s)) s) ;;
      s ← get ;
      for_each (messageQueues s) (put gpioMessage)
  | _ => ret tt
  end.

(** One iteration of [while True] (lines 173-214). *)
Definition tick : M State unit :=
  s ← get ;
  (if decide (i s = Some 10000) then
     logger info "Still running [main process]" ;;
     modify (set_i (Some 0))
   else ret tt) ;;
  receive_step ;;
  button_step ;;
  modify (λ s, set_i ((λ n, n + 1) <$> i s) s).

Fixpoint loop (n : nat) : M State unit :=
  match n with
  | O => ret tt
  | S n' => tick ;; loop n'
  end.

(** The [__main__] block, with [n] iterations of its loop. *)
Definition main (n : nat) : M State unit :=
  startup ;; loop n.

End Program.

(** What the other processes do to the queues the coordinator sees: the
    button worker puts a message on the action queue, the serial worker
    puts a sample on the receive queue, a worker takes the head of its
    control queue. *)
Inductive env_step : State → State → Prop :=
| env_button s q m :
    queues s gpioActionQueue = Some q →
    env_step s (set_queues (<[gpioActionQueue := Some (q ++ [m])]> (queues s)) s)
| env_sample s d :
    env_step s (set_serialReceiveQueue (serialReceiveQueue s ++ [d]) s)
| env_take s w q m rest :
    w ∈ started s → inbox w = Some q → queues s q = Some (m :: rest) →
    env_step s (set_queues (<[q := Some rest]> (queues s)) s).

(** The states of a run: the start-up has returned, then rounds of the
    main loop interleave with steps of the other processes. *)
Inductive reachable (cfg : settings.t) : State → Prop :=
| reach_startup s :
    startup cfg entry = (Ok tt, s) → reachable cfg s
| reach_tick s s' :
    reachable cfg s → tick cfg s = (Ok tt, s') → reachable cfg s'
| reach_env s s' :
    reachable cfg s → env_step s s' → reachable cfg s'.

(** The workers a configuration starts, and the queues it registers for
    the broadcast, when the start-up returns. *)
Definition enabled_workers (cfg : settings.t) : list Worker :=
  [serialWorker] ++
  (if settings.USE_MATRIX cfg then [matrixLCDWorker] else []) ++
  (if settings.USE_BUTTONS cfg then [gpioButtonWorker] else []) ++
  (if settings.USE_GRAPHICS cfg then [graphicsWorker] else []).

Definition enabled_queues (cfg : settings.t) : list QueueVar :=
  [serialControlQueue] ++
  (if settings.USE_MATRIX cfg then [matrixControlQueue] else []) ++
  (if settings.USE_GRAPHICS cfg then [graphicsControlQueue] else []).

(** What holds of the bus in every state of a run. *)
Definition bus_ok (cfg : settings.t) (s : State) : Prop :=
  settings.USE_CONSOLE cfg = false ∧
  started s = enabled_workers cfg ∧
  messageQueues s = enabled_queues cfg ∧
  (∀ q, q ∈ messageQueues s → is_Some (queues s q)).

(** The sample at the head of the receive queue, if any, can be handed
    over: it is not a DATA sample of a sensor that [ecuData.data] lacks. *)
Definition receivable (cfg : settings.t) (s : State) : Prop :=
  match serialReceiveQueue s with
  | [] => True
  | d :: _ =>
      d0 d = settings.TYPE_ERROR cfg ∨ d0 d ≠ settings.TYPE_DATA cfg ∨
      is_Some (data (ecuData s) !! d1 d)
  end.

(** Two states with the same queues, broadcast list and workers. *)
Definition same_bus (s s' : State) : Prop :=
  queues s' = queues s ∧ messageQueues s' = messageQueues s ∧
  started s' = started s.

(** The queues after a message has been put on each queue of a list. *)
Definition put_all (m : ControlData) (l : list QueueVar)
    (qs : QueueVar → option (list ControlData)) : QueueVar → option (list ControlData) :=
  foldl (λ qs q, <[q := (λ l, l ++ [m]) <$> qs q]> qs) qs l.

(** The round counter [i] after a round that starts at [n] (lines 175-177
    and 213). *)
Definition next_i (n : option Z) : option Z :=
  (λ k, k + 1) <$> (if decide (n = Some 10000) then Some 0 else n).

(** A sample the coordinator can hand over to data with these keys: it is
    not a DATA sample of a sensor the keys lack. *)
Definition accepted (cfg : settings.t) (e : EcuData) (d : Sample) : Prop :=
  d0 d = settings.TYPE_ERROR cfg ∨ d0 d ≠ settings.TYPE_DATA cfg ∨
  is_Some (data e !! d1 d).

(** What lines 190-202 do to [ecuData] for one such sample. *)
Definition store_sample (cfg : settings.t) (e : EcuData) (d : Sample) : EcuData :=
  let e1 :=
    if decide (d0 d = settings.TYPE_ERROR cfg) then e
    else if decide (d0 d = settings.TYPE_DATA cfg) then
      match data e !! d1 d with
      | Some current =>
          {| data := <[d1 d := d2 d]> (data e);
             data_previous := <[d1 d := current]> (data_previous e);
             counter := counter e; timer := timer e; errors := errors e |}
      | None => e
      end
    else e in
  {| data := data e1; data_previous := data_previous e1;
     counter := d3 d; timer := d4 d; errors := errors e1 |}.

End PyCosworth.

(** ** Reference sequences

    The shapes the demo data is compared with: an ascending and a
    descending linear ramp. *)

Module Ramp.
Local Open Scope Qc_scope.

(** [a, a + step, a + 2 step, ...] ([n] values) *)
Definition ascending (a step : Qc) (n : nat) : list Qc :=
  (λ k : nat, a + Qc_of_Z (Z.of_nat k) * step) <$> seq 0 n.

(** [top - step, top - 2 step, ...] ([n] values) *)
Definition descending (top step : Qc) (n : nat) : list Qc :=
  (λ k : nat, top - Qc_of_Z (Z.of_nat (S k)) * step) <$> seq 0 n.

(** An entry with further values appended to its data. *)
Definition extend_demo_data (vs : list Qc) (e : SerialIO.demo_entry) : SerialIO.demo_entry :=
  {| SerialIO.demo_data_idx := SerialIO.demo_data_idx e;
     SerialIO.demo_data := SerialIO.demo_data e ++ vs |}.

(** The search for the highest sample rate as a fold over the registry:
    the pair is (rate, id). *)
Definition pick (acc : Qc * string) (x : Sensor) : Qc * string :=
  if decide (refresh x < acc.1) then (refresh x, sensorId x) else acc.

(** The entry of one sensor in closed form: cursor 0, an ascending ramp
    from [minValue] and the descending ramp that follows it. *)
Definition demo_entry_of (cfg : settings.t) (sensor : Sensor) : SerialIO.demo_entry :=
  let n := Z.to_nat (settings.DEMO_STEPS cfg) in
  let step := maxValue sensor * 1 / Qc_of_Z (settings.DEMO_STEPS cfg) in
  {| SerialIO.demo_data_idx := 0%Z;
     SerialIO.demo_data :=
       ascending (minValue sensor) step n ++
       descending (minValue sensor + Qc_of_Z (Z.of_nat n) * step) step n |}.

Definition store_demo_entry (cfg : settings.t)
    (ds : gmap string SerialIO.demo_entry) (sensor : Sensor) :=
  <[sensorId sensor := demo_entry_of cfg sensor]> ds.
End Ramp.

(** ** The cursor after a regeneration *)

Module Cursor.

(** What the first part of a round leaves alone. *)
Definition same_sampling (s s' : SerialIO.State) : Prop :=
  SerialIO.counter s' = SerialIO.counter s ∧
  SerialIO.sample_counter_id s' = SerialIO.sample_counter_id s ∧
  SerialIO.sensor_timer s' = SerialIO.sensor_timer s ∧
  SerialIO.connected s' = SerialIO.connected s ∧
  SerialIO.receiveQueue s' = SerialIO.receiveQueue s.

(** A sample that carries a demo value (the live branch sends a string). *)
Definition is_demo (d : Sample) : Prop := ∃ q, d2 d = VFloat q.

(** The sensor's entry is as generated: cursor 0, data untouched. *)
Definition fresh (cfg : settings.t) (x : Sensor) (s : SerialIO.State) : Prop :=
  ∃ ds, SerialIO.demo_sensor s = Some ds ∧
        ds !! sensorId x = Some (Ramp.demo_entry_of cfg x).

(** No demo sample of the sensor among the samples. *)
Definition silent (x : Sensor) (out : list Sample) : Prop :=
  ∀ d, d ∈ out → d1 d = sensorId x → ¬ is_demo d.

(** The first demo sample of the sensor among the samples, if there is
    one, carries the sensor's index-0 value. *)
Definition first_demo_is_index0 (x : Sensor) (out : list Sample) : Prop :=
  ∀ before d after,
    out = before ++ d :: after → silent x before →
    d1 d = sensorId x → is_demo d → d2 d = VFloat (minValue x).

(** What holds between a regeneration and any later state, [out] being the
    samples emitted in between. *)
Definition since_regeneration (cfg : settings.t) (x : Sensor)
    (s : SerialIO.State) (out : list Sample) : Prop :=
  first_demo_is_index0 x out ∧ (silent x out → fresh cfg x s).

End Cursor.

(** ** What the sample loop relies on *)

Module Acquisition.

(** A cursor that indexes its sequence, the sequence of the generated
    length. *)
Definition entry_ok (cfg : settings.t) (e : SerialIO.demo_entry) : Prop :=
  0 ≤ SerialIO.demo_data_idx e < settings.DEMO_STEPS cfg * 2 ∧
  length (SerialIO.demo_data e) = Z.to_nat (settings.DEMO_STEPS cfg * 2).

(** Every sensor of the registry has a timer and, in demo mode, an entry
    whose cursor is in range. *)
Definition ready (cfg : settings.t) (s : SerialIO.State) : Prop :=
  (∀ x, x ∈ settings.SENSORS cfg →
        is_Some (SerialIO.sensor_timer s !! sensorId x)) ∧
  (SerialIO.SERIALIO_DEMO s = true →
   ∃ ds, SerialIO.demo_sensor s = Some ds ∧
         ∀ x, x ∈ settings.SENSORS cfg →
              ∃ e, ds !! sensorId x = Some e ∧ entry_ok cfg e).

(** What polling the sensors leaves alone. *)
Definition same_controls (s s' : SerialIO.State) : Prop :=
  SerialIO.SERIALIO_DEMO s' = SerialIO.SERIALIO_DEMO s ∧
  SerialIO.connected s' = SerialIO.connected s ∧
  SerialIO.sample_counter_id s' = SerialIO.sample_counter_id s ∧
  SerialIO.controlQueue s' = SerialIO.controlQueue s ∧
  SerialIO.transmitQueue s' = SerialIO.transmitQueue s.

(** A sample as the sample loop builds it in state [s]: of type DATA, a
    demo value in demo mode, the placeholder string when connected. *)
Definition emitted (cfg : settings.t) (s : SerialIO.State) (d : Sample) : Prop :=
  d0 d = settings.TYPE_DATA cfg ∧
  ((SerialIO.SERIALIO_DEMO s = true ∧ Cursor.is_demo d) ∨
   (SerialIO.SERIALIO_DEMO s = false ∧ SerialIO.connected s = true ∧
    d2 d = VStr "0x0")).

(** The control messages that switch demo mode: a pressed button of SHORT
    duration addressed to the serial worker (lines 123-133). *)
Definition toggles (cfg : settings.t) (isMine : ControlData → Z → bool)
    (cdata : ControlData) : bool :=
  isMine cdata (SerialIO.myButtonId cfg) && button cdata
  && bool_decide (duration cdata = settings.BUTTON_SHORT cfg).

(** Demo mode after a list of control messages has been handled. *)
Definition mode_after (cfg : settings.t) (isMine : ControlData → Z → bool)
    (mode : bool) (l : list ControlData) : bool :=
  foldl (λ m cdata, if toggles cfg isMine cdata then negb m else m) mode l.

(** The sensors of a list that the pacing id names. *)
Definition pacing_sensors (id : string) (l : list Sensor) : list Sensor :=
  filter (λ x, sensorId x = id) l.

(** The entry of a sensor after [r] demo samples: the generated data, the
    cursor [r] steps round the cycle. *)
Definition entry_at (cfg : settings.t) (x : Sensor) (r : nat) : SerialIO.demo_entry :=
  {| SerialIO.demo_data_idx := Z.of_nat r `mod` (settings.DEMO_STEPS cfg * 2);
     SerialIO.demo_data := SerialIO.demo_data (Ramp.demo_entry_of cfg x) |}.

(** The value under that cursor. *)
Definition demo_value (cfg : settings.t) (x : Sensor) (r : nat) : Qc :=
  default (minValue x)
    (SerialIO.demo_data (Ramp.demo_entry_of cfg x)
       !! Z.to_nat (Z.of_nat r `mod` (settings.DEMO_STEPS cfg * 2))).

(** What holds at the start of round [r] of a run in demo mode in which
    every sensor has been sampled in every round: the cursors are [r]
    steps on, every timer holds an earlier reading of the clock. *)
Definition at_round (cfg : settings.t) (default_timer : nat → Qc) (r : nat)
    (s : SerialIO.State) : Prop :=
  SerialIO.SERIALIO_DEMO s = true ∧
  (∃ ds, SerialIO.demo_sensor s = Some ds ∧
         ∀ y, y ∈ settings.SENSORS cfg →
              ds !! sensorId y = Some (entry_at cfg y r)) ∧
  (∀ y, y ∈ settings.SENSORS cfg →
        ∃ j, SerialIO.sensor_timer s !! sensorId y = Some (default_timer j) ∧
             (j < SerialIO.timer_reads s)%nat).

(** Ids and values of [n] rounds of demo samples from round [r] on, every
    sensor sampled in every round. *)
Definition wave (cfg : settings.t) (r n : nat) : list (string * Value) :=
  concat ((λ r, (λ x, (sensorId x, VFloat (demo_value cfg x r)))
                <$> settings.SENSORS cfg) <$> seq r n).

End Acquisition.

(** ** Configurations used as examples *)

Module Fixtures.

Definition rpm : Sensor :=
  {| sensorId := "RPM"; refresh := Q2Qc (1 # 20);
     minValue := Qc_of_Z 0; maxValue := Qc_of_Z 8000 |}.

(** A sensor whose range does not start at 0. *)
Definition ect : Sensor :=
  {| sensorId := "ECT"; refresh := Q2Qc (1 # 2);
     minValue := Qc_of_Z 1; maxValue := Qc_of_Z 10 |}.

(** A sensor polled every 100 seconds. *)
Definition slow : Sensor :=
  {| sensorId := "AMAL"; refresh := Qc_of_Z 100;
     minValue := Qc_of_Z 0; maxValue := Qc_of_Z 5 |}.

Definition config (sensors : list Sensor) (steps : Z) (demo console : bool) : settings.t :=
  {| settings.SENSORS := sensors;
     settings.DEMO_STEPS := steps;
     settings.SERIALIO_DEMO := demo;
     settings.BUTTON_DEST_SERIALIO := 1;
     settings.BUTTON_LONG := 2;
     settings.BUTTON_SHORT := 1;
     settings.TYPE_DATA := 1;
     settings.TYPE_ERROR := 0;
     settings.USE_CONSOLE := console;
     settings.USE_MATRIX := true;
     settings.USE_BUTTONS := true;
     settings.USE_GRAPHICS := true;
     settings.MAX_ERRORS := 4 |}.

Definition cfg_rpm : settings.t := config [rpm] 4 true false.
Definition cfg_live : settings.t := config [rpm] 4 false false.
Definition cfg_ect : settings.t := config [ect] 2 true false.
Definition cfg_two : settings.t := config [ect; rpm] 4 true false.
Definition cfg_slow : settings.t := config [slow] 4 true false.
Definition cfg_console : settings.t := config [rpm] 4 true true.

(** A message is for the worker it names. *)
Definition isMine (c : ControlData) (id : Z) : bool :=
  bool_decide (targetWorkerId c = id).

(** A timer that advances by one second per reading. *)
Definition seconds (n : nat) : Qc := Qc_of_Z (Z.of_nat n).

(** A timer that advances by one minute per reading. *)
Definition minutes (n : nat) : Qc := Qc_of_Z (60 * Z.of_nat n).

(** The acquisition loop after its initialisation, with empty queues. *)
Definition polling_on (timer : nat → Qc) (cfg : settings.t) : SerialIO.State :=
  (SerialIO.init cfg timer (SerialIO.entry [] [] [])).2.

Definition polling (cfg : settings.t) : SerialIO.State := polling_on seconds cfg.

(** The same, with control messages waiting. *)
Definition with_controls (q : list ControlData) (s : SerialIO.State) : SerialIO.State :=
  SerialIO.set_controlQueue q s.

(** The coordinator after its start-up. *)
Definition running (cfg : settings.t) : PyCosworth.State :=
  (PyCosworth.startup cfg PyCosworth.entry).2.

(** The same, with samples waiting on the receive queue. *)
Definition with_samples (q : list Sample) (s : PyCosworth.State) : PyCosworth.State :=
  PyCosworth.set_serialReceiveQueue q s.

Definition sample (kind : Z) (id : string) (v : Z) (count : Z) : Sample :=
  {| d0 := kind; d1 := id; d2 := VFloat (Qc_of_Z v); d3 := count;
     d4 := Q2Qc (1 # 100) |}.

(** The button worker puts a message on the action queue. *)
Definition press (m : ControlData) (s : PyCosworth.State) : PyCosworth.State :=
  match PyCosworth.queues s PyCosworth.gpioActionQueue with
  | Some q =>
      PyCosworth.set_queues
        (<[PyCosworth.gpioActionQueue := Some (q ++ [m])]> (PyCosworth.queues s)) s
  | None => s
  end.

Definition short_press : ControlData :=
  {| targetWorkerId := 1; button := true; duration := 1 |}.
Definition long_press : ControlData :=
  {| targetWorkerId := 1; button := true; duration := 2 |}.

(** Further registries: a second sensor under the id of [ect], and a sensor
    with a refresh interval of 0. *)
Definition ect2 : Sensor :=
  {| sensorId := "ECT"; refresh := Q2Qc (1 # 2);
     minValue := Qc_of_Z 3; maxValue := Qc_of_Z 9 |}.

Definition stuck : Sensor :=
  {| sensorId := "TPS"; refresh := Qc_of_Z 0;
     minValue := Qc_of_Z 0; maxValue := Qc_of_Z 100 |}.

Definition cfg_zero : settings.t := config [rpm] 0 true false.
Definition cfg_negative : settings.t := config [rpm] (-2) true false.
Definition cfg_dup : settings.t := config [ect; ect2] 2 true false.
Definition cfg_stuck : settings.t := config [rpm; stuck] 4 false false.
Definition cfg_empty : settings.t := config [] 4 true false.

(** No button process. *)
Definition cfg_nobuttons : settings.t :=
  {| settings.SENSORS := [rpm];
     settings.DEMO_STEPS := 4;
     settings.SERIALIO_DEMO := true;
     settings.BUTTON_DEST_SERIALIO := 1;
     settings.BUTTON_LONG := 2;
     settings.BUTTON_SHORT := 1;
     settings.TYPE_DATA := 1;
     settings.TYPE_ERROR := 0;
     settings.USE_CONSOLE := false;
     settings.USE_MATRIX := true;
     settings.USE_BUTTONS := false;
     settings.USE_GRAPHICS := false;
     settings.MAX_ERRORS := 4 |}.

End Fixtures.

(** * Properties *)

(** ** The monad *)

Lemma bind_Ok {S A B} (m : M S A) (f : A → M S B) s a s' :
  m s = (Ok a, s') → (m ≫= f) s = f a s'.
Proof. intros H. unfold mbind, M_bind, bind. by rewrite H. Qed.

Lemma bind_Raise {S A B} (m : M S A) (f : A → M S B) s e s' :
  m s = (Raise e, s') → (m ≫= f) s = (Raise e, s').
Proof. intros H. unfold mbind, M_bind, bind. by rewrite H. Qed.

Lemma for_each_app {S A} (l k : list A) (body : A → M S unit) s :
  for_each (l ++ k) body s =
  match for_each l body s with
  | (Ok _, s') => for_each k body s'
  | (Raise e, s') => (Raise e, s')
  end.
Proof.
  revert s. induction l as [|x l IH]; intros s; simpl; [done|].
  unfold mbind, M_bind, bind. destruct (body x s) as [[[]|e] s1]; [apply IH|done].
Qed.

(** ** Python lists *)

Lemma py_getitem_lookup {A} (l : list A) (i : Z) x :
  0 ≤ i → l !! Z.to_nat i = Some x → py_getitem l i = Ok x.
Proof.
  intros Hi Hx. unfold py_getitem.
  pose proof (lookup_lt_Some _ _ _ Hx) as Hlt.
  destruct (decide (i < 0)) as [|_]; [lia|].
  destruct (decide (0 ≤ i < Z.of_nat (length l))) as [_|Hn]; [|lia].
  by rewrite Hx.
Qed.

Lemma py_getitem_in_range {A} (l : list A) (i : Z) :
  0 ≤ i < Z.of_nat (length l) → ∃ x, l !! Z.to_nat i = Some x ∧ py_getitem l i = Ok x.
Proof.
  intros Hi. destruct (lookup_lt_is_Some_2 l (Z.to_nat i)) as [x Hx]; [lia|].
  exists x. split; [done|]. apply py_getitem_lookup; [lia|done].
Qed.

Lemma length_py_range n : length (py_range n) = Z.to_nat n.
Proof. unfold py_range. by rewrite length_fmap, length_seq. Qed.

(** ** The demo data generator *)

Section Demo.
Context (cfg : settings.t).
Local Open Scope Qc_scope.
Import SerialIO Ramp.

Lemma Qc_of_nat_S (k : nat) : Qc_of_Z (Z.of_nat (S k)) = Qc_of_Z (Z.of_nat k) + 1.
Proof. by rewrite Nat2Z.inj_succ, <- Z.add_1_r, Z2Qc_inj_add, Z2Qc_inj_1. Qed.

Lemma ascending_S a step n :
  ascending a step (S n) = a :: ascending (a + step) step n.
Proof.
  unfold ascending. simpl. f_equal.
  - change (Z.of_nat 0) with 0%Z. rewrite Z2Qc_inj_0. ring.
  - rewrite <- fmap_S_seq, <- list_fmap_compose. apply list_fmap_ext.
    intros _ k _. simpl. rewrite Qc_of_nat_S. ring.
Qed.

Lemma descending_S top step n :
  descending top step (S n) = (top - step) :: descending (top - step) step n.
Proof.
  unfold descending. simpl. f_equal.
  - change (Z.of_nat 1) with 1%Z. rewrite Z2Qc_inj_1. ring.
  - rewrite <- fmap_S_seq, <- list_fmap_compose. apply list_fmap_ext.
    intros _ k _. simpl. rewrite (Qc_of_nat_S (S k)). ring.
Qed.

Lemma length_ascending a step n : length (ascending a step n) = n.
Proof. unfold ascending. by rewrite length_fmap, length_seq. Qed.

Lemma length_descending a step n : length (descending a step n) = n.
Proof. unfold descending. by rewrite length_fmap, length_seq. Qed.

Lemma extend_demo_data_nil id (ds : gmap string demo_entry) :
  alter (extend_demo_data []) id ds = ds.
Proof.
  apply alter_id. intros [i d] _. unfold extend_demo_data. simpl.
  by rewrite app_nil_r.
Qed.

Lemma extend_demo_data_cons id v vs (ds : gmap string demo_entry) :
  alter (extend_demo_data vs) id (alter (append_demo_data v) id ds)
  = alter (extend_demo_data (v :: vs)) id ds.
Proof.
  rewrite alter_alter_eq. apply alter_ext. intros [i d] _.
  unfold extend_demo_data, append_demo_data. simpl.
  by rewrite <- app_assoc.
Qed.

(** The first inner loop appends an ascending ramp. *)
Lemma ramp_up_foldl id step (l : list Z) ds d :
  foldl (ramp_up id step) (ds, d) l =
  (alter (extend_demo_data (ascending d step (length l))) id ds,
   d + Qc_of_Z (Z.of_nat (length l)) * step).
Proof.
  revert ds d. induction l as [|x l IH]; intros ds d.
  - simpl. rewrite extend_demo_data_nil. f_equal.
    change (Z.of_nat 0) with 0%Z. rewrite Z2Qc_inj_0. ring.
  - cbn [foldl ramp_up length]. rewrite IH, ascending_S, extend_demo_data_cons.
    f_equal. rewrite Qc_of_nat_S. ring.
Qed.

(** The second inner loop appends a descending ramp. *)
Lemma ramp_down_foldl id step (l : list Z) ds d :
  foldl (ramp_down id step) (ds, d) l =
  (alter (extend_demo_data (descending d step (length l))) id ds,
   d - Qc_of_Z (Z.of_nat (length l)) * step).
Proof.
  revert ds d. induction l as [|x l IH]; intros ds d.
  - simpl. rewrite extend_demo_data_nil. f_equal.
    change (Z.of_nat 0) with 0%Z. rewrite Z2Qc_inj_0. ring.
  - cbn [foldl ramp_down length]. rewrite IH, descending_S, extend_demo_data_cons.
    f_equal. rewrite Qc_of_nat_S. ring.
Qed.

Lemma setup_sensor_Ok ds sensor :
  settings.DEMO_STEPS cfg ≠ 0%Z →
  setup_sensor cfg ds sensor = Ok (<[sensorId sensor := demo_entry_of cfg sensor]> ds).
Proof.
  intros Hn. unfold setup_sensor, demo_step_size.
  destruct (decide (settings.DEMO_STEPS cfg = 0%Z)) as [|_]; [done|].
  rewrite ramp_up_foldl, ramp_down_foldl, length_py_range. simpl. f_equal.
  rewrite alter_alter_eq, alter_insert_eq. f_equal.
Qed.

Lemma setup_sensors_Ok ds l :
  settings.DEMO_STEPS cfg ≠ 0%Z →
  setup_sensors cfg ds l = Ok (foldl (store_demo_entry cfg) ds l).
Proof.
  intros Hn. revert ds. induction l as [|x l IH]; intros ds; simpl; [done|].
  by rewrite setup_sensor_Ok, IH.
Qed.

Lemma setup_sensors_zero ds x l :
  settings.DEMO_STEPS cfg = 0%Z →
  setup_sensors cfg ds (x :: l) = Raise ZeroDivisionError.
Proof.
  intros Hn. simpl. unfold setup_sensor, demo_step_size.
  by rewrite decide_True.
Qed.

Lemma lookup_store_demo_entries_notin ds l id :
  id ∉ sensorId <$> l → foldl (store_demo_entry cfg) ds l !! id = ds !! id.
Proof.
  revert ds. induction l as [|x l IH]; intros ds Hid; simpl; [done|].
  rewrite fmap_cons, not_elem_of_cons in Hid. destruct Hid as [Hne Hid].
  rewrite IH by done. unfold store_demo_entry. by rewrite lookup_insert_ne.
Qed.

Lemma lookup_store_demo_entries ds l sensor :
  NoDup (sensorId <$> l) → sensor ∈ l →
  foldl (store_demo_entry cfg) ds l !! sensorId sensor = Some (demo_entry_of cfg sensor).
Proof.
  revert ds. induction l as [|x l IH]; intros ds Hnd Hin; [by apply elem_of_nil in Hin|].
  rewrite fmap_cons in Hnd.
  pose proof (NoDup_cons_1_1 _ _ Hnd) as Hx. apply NoDup_cons_1_2 in Hnd.
  apply elem_of_cons in Hin as [->|Hin]; simpl.
  - rewrite lookup_store_demo_entries_notin by done.
    unfold store_demo_entry. by rewrite lookup_insert_eq.
  - by apply IH.
Qed.

Lemma lookup_ascending a step n (k : nat) :
  (k < n)%nat → ascending a step n !! k = Some (a + Qc_of_Z (Z.of_nat k) * step).
Proof.
  intros Hk. unfold ascending. by rewrite list_lookup_fmap, lookup_seq_lt.
Qed.

Lemma lookup_descending top step n (k : nat) :
  (k < n)%nat → descending top step n !! k = Some (top - Qc_of_Z (Z.of_nat (S k)) * step).
Proof.
  intros Hk. unfold descending. by rewrite list_lookup_fmap, lookup_seq_lt.
Qed.

(** On a registry with unique ids and with [DEMO_STEPS ≠ 0], the generator
    returns, and holds for every sensor the entry [demo_entry_of]. *)
Lemma setupDemoSensors_lookup sensor :
  settings.DEMO_STEPS cfg ≠ 0%Z →
  NoDup (sensorId <$> settings.SENSORS cfg) →
  sensor ∈ settings.SENSORS cfg →
  ∃ ds, setupDemoSensors cfg = Ok ds ∧
        ds !! sensorId sensor = Some (demo_entry_of cfg sensor).
Proof.
  intros Hn Hnd Hin. unfold setupDemoSensors. rewrite setup_sensors_Ok by done.
  eexists. split; [done|]. by apply lookup_store_demo_entries.
Qed.

Lemma length_demo_entry_of sensor :
  length (demo_data (demo_entry_of cfg sensor)) = (2 * Z.to_nat (settings.DEMO_STEPS cfg))%nat.
Proof.
  unfold demo_entry_of. simpl.
  rewrite length_app, length_ascending, length_descending. lia.
Qed.

End Demo.

(** C4. With a positive [DEMO_STEPS] and unique sensor ids, the generator
    returns, and the data it holds for every sensor has exactly
    [2 * DEMO_STEPS] values: [DEMO_STEPS] values ascending from [minValue]
    by the additive step [maxValue / DEMO_STEPS], followed by [DEMO_STEPS]
    values descending by the same step.  For [minValue = 0],
    [maxValue = 8000] and [DEMO_STEPS = 4] the first four values are
    0, 2000, 4000, 6000. *)
Theorem demo_sequence_shape (cfg : settings.t) (sensor : Sensor) :
  0 < settings.DEMO_STEPS cfg →
  NoDup (sensorId <$> settings.SENSORS cfg) →
  sensor ∈ settings.SENSORS cfg →
  let n := Z.to_nat (settings.DEMO_STEPS cfg) in
  let step := (maxValue sensor / Qc_of_Z (settings.DEMO_STEPS cfg))%Qc in
  ∃ ds e,
    SerialIO.setupDemoSensors cfg = Ok ds ∧
    ds !! sensorId sensor = Some e ∧
    SerialIO.demo_data_idx e = 0 ∧
    Z.of_nat (length (SerialIO.demo_data e)) = 2 * settings.DEMO_STEPS cfg ∧
    (∀ k : nat, (k < n)%nat →
       SerialIO.demo_data e !! k
       = Some (minValue sensor + Qc_of_Z (Z.of_nat k) * step)%Qc) ∧
    (∀ k : nat, (k < n)%nat →
       SerialIO.demo_data e !! (n + k)%nat
       = Some (minValue sensor + Qc_of_Z (Z.of_nat n) * step
               - Qc_of_Z (Z.of_nat (S k)) * step)%Qc) ∧
    (settings.DEMO_STEPS cfg = 4 →
     minValue sensor = Qc_of_Z 0 → maxValue sensor = Qc_of_Z 8000 →
     take 4 (SerialIO.demo_data e) = Qc_of_Z <$> [0; 2000; 4000; 6000]).
Proof.
  intros Hpos Hnd Hin n step.
  destruct (setupDemoSensors_lookup cfg sensor) as (ds & Hds & He); [lia|done|done|].
  assert (Hstep : (maxValue sensor * 1 / Qc_of_Z (settings.DEMO_STEPS cfg))%Qc = step).
  { unfold step. by rewrite Qcmult_1_r. }
  exists ds, (Ramp.demo_entry_of cfg sensor). split; [done|]. split; [done|].
  split; [done|]. split; [rewrite length_demo_entry_of; lia|].
  unfold Ramp.demo_entry_of. cbn [SerialIO.demo_data]. rewrite Hstep. fold n.
  split; [|split].
  - intros k Hk. rewrite lookup_app_l by (by rewrite length_ascending).
    by apply lookup_ascending.
  - intros k Hk. rewrite lookup_app_r by (rewrite length_ascending; lia).
    rewrite length_ascending. replace (n + k - n)%nat with k by lia.
    by apply lookup_descending.
  - intros H4 Hmin Hmax. unfold step, n. rewrite H4, Hmin, Hmax.
    change (Z.to_nat 4) with 4%nat. unfold Ramp.ascending, Ramp.descending.
    cbn -[Qcplus Qcmult Qcdiv Qcminus Qc_of_Z]. repeat f_equal; by apply Qc_is_canon.
Qed.

Lemma demo_sequence_shape_witness :
  ∃ ds e,
    SerialIO.setupDemoSensors Fixtures.cfg_rpm = Ok ds ∧
    ds !! "RPM" = Some e ∧
    Z.of_nat (length (SerialIO.demo_data e)) = 8 ∧
    take 4 (SerialIO.demo_data e) = Qc_of_Z <$> [0; 2000; 4000; 6000].
Proof.
  destruct (demo_sequence_shape Fixtures.cfg_rpm Fixtures.rpm)
    as (ds & e & Hds & He & _ & Hlen & _ & _ & Hfirst).
  - reflexivity.
  - apply NoDup_singleton.
  - apply list_elem_of_singleton. reflexivity.
  - exists ds, e. repeat split; [exact Hds|exact He|exact Hlen|].
    apply Hfirst; reflexivity.
Defined.

(** The same values as the loop emits them: four rounds in demo mode on the
    RPM registry, the sensor being due in each. *)
Lemma demo_emission_example :
  let s4 := (SerialIO.loop Fixtures.cfg_rpm Fixtures.isMine Fixtures.seconds 4
               (Fixtures.polling Fixtures.cfg_rpm)).2 in
  d2 <$> SerialIO.receiveQueue s4
  = [VFloat (Qc_of_Z 0); VFloat (Qc_of_Z 2000); VFloat (Qc_of_Z 4000);
     VFloat (Qc_of_Z 6000)] ∧
  d3 <$> SerialIO.receiveQueue s4 = [1; 2; 3; 4].
Proof.
  cbn zeta. split.
  - apply (bool_decide_unpack _). vm_compute. reflexivity.
  - vm_compute. reflexivity.
Qed.

(** The descent of the closed form ends on [minValue]: the ascent leaves
    [d_value] at [minValue + DEMO_STEPS * step] and the descent takes the
    same step off [DEMO_STEPS] times. *)
Lemma last_demo_entry_of (cfg : settings.t) (sensor : Sensor) :
  0 < settings.DEMO_STEPS cfg →
  list.last (SerialIO.demo_data (Ramp.demo_entry_of cfg sensor)) = Some (minValue sensor).
Proof.
  intros Hpos. unfold Ramp.demo_entry_of. cbn [SerialIO.demo_data].
  destruct (Z.to_nat (settings.DEMO_STEPS cfg)) as [|n] eqn:En; [lia|].
  rewrite last_lookup, length_app, length_ascending, length_descending.
  rewrite lookup_app_r by (rewrite length_ascending; lia).
  rewrite length_ascending.
  replace (Nat.pred (S n + S n) - S n)%nat with n by lia.
  rewrite lookup_descending by lia. f_equal. ring.
Qed.

(** C5, as the code has it.  Under exact arithmetic the last value of the
    generated data is [minValue] for every sensor, whatever [minValue] is. *)
Theorem demo_final_value (cfg : settings.t) (sensor : Sensor) :
  0 < settings.DEMO_STEPS cfg →
  NoDup (sensorId <$> settings.SENSORS cfg) →
  sensor ∈ settings.SENSORS cfg →
  ∃ ds e,
    SerialIO.setupDemoSensors cfg = Ok ds ∧
    ds !! sensorId sensor = Some e ∧
    list.last (SerialIO.demo_data e) = Some (minValue sensor).
Proof.
  intros Hpos Hnd Hin.
  destruct (setupDemoSensors_lookup cfg sensor) as (ds & Hds & He); [lia|done|done|].
  exists ds, (Ramp.demo_entry_of cfg sensor).
  split; [done|]. split; [done|]. by apply last_demo_entry_of.
Qed.

Lemma demo_final_value_witness :
  ∃ ds e,
    SerialIO.setupDemoSensors Fixtures.cfg_ect = Ok ds ∧
    ds !! "ECT" = Some e ∧
    list.last (SerialIO.demo_data e) = Some (Qc_of_Z 1).
Proof.
  apply (demo_final_value Fixtures.cfg_ect Fixtures.ect).
  - reflexivity.
  - apply NoDup_singleton.
  - apply list_elem_of_singleton. reflexivity.
Defined.

(** C5 as stated fails: a sensor with [minValue = 1], [maxValue = 10] and
    [DEMO_STEPS = 2] has the data 1, 6, 6, 1, whose last value is its
    [minValue] although that is not 0. *)
Lemma demo_final_value_counterexample :
  minValue Fixtures.ect ≠ Qc_of_Z 0 ∧
  ∃ ds e,
    SerialIO.setupDemoSensors Fixtures.cfg_ect = Ok ds ∧
    ds !! sensorId Fixtures.ect = Some e ∧
    SerialIO.demo_data e = Qc_of_Z <$> [1; 6; 6; 1] ∧
    list.last (SerialIO.demo_data e) = Some (minValue Fixtures.ect).
Proof.
  split; [by intros ?%Z2Qc_inj|].
  destruct (setupDemoSensors_lookup Fixtures.cfg_ect Fixtures.ect) as (ds & Hds & He).
  - done.
  - apply NoDup_singleton.
  - apply list_elem_of_singleton. reflexivity.
  - exists ds, (Ramp.demo_entry_of Fixtures.cfg_ect Fixtures.ect).
    split; [done|]. split; [done|]. split.
    + unfold Ramp.demo_entry_of, Ramp.ascending, Ramp.descending.
      change (Z.to_nat (settings.DEMO_STEPS Fixtures.cfg_ect)) with 2%nat.
      cbn -[Qcplus Qcmult Qcdiv Qcminus Qc_of_Z].
      repeat f_equal; by apply Qc_is_canon.
    + by apply last_demo_entry_of.
Qed.

(** The cursor counts up from 0 as long as it stays below the last index. *)
Lemma iter_advance_idx (cfg : settings.t) (k : nat) :
  Z.of_nat k ≤ settings.DEMO_STEPS cfg * 2 - 1 →
  Nat.iter k (SerialIO.advance_idx cfg) 0 = Z.of_nat k.
Proof.
  induction k as [|k IH]; intros Hk; [done|].
  rewrite Nat.iter_succ. rewrite IH by lia. unfold SerialIO.advance_idx.
  rewrite decide_True by lia. lia.
Qed.

(** C9. The cursor advance adds one below the last index
    [2 * DEMO_STEPS - 1] and wraps to 0 on it; from 0, [2 * DEMO_STEPS]
    advances lead back to 0.  The generated values depend on [minValue],
    [maxValue] and [DEMO_STEPS] only: two registries that agree on them
    hold the same data for the sensor. *)
Theorem cursor_advance_wraps (cfg : settings.t) :
  (∀ idx, idx < 2 * settings.DEMO_STEPS cfg - 1 →
          SerialIO.advance_idx cfg idx = idx + 1) ∧
  SerialIO.advance_idx cfg (2 * settings.DEMO_STEPS cfg - 1) = 0 ∧
  Nat.iter (Z.to_nat (2 * settings.DEMO_STEPS cfg)) (SerialIO.advance_idx cfg) 0 = 0 ∧
  (∀ (cfg' : settings.t) (sensor sensor' : Sensor) ds ds' e e',
     settings.DEMO_STEPS cfg' = settings.DEMO_STEPS cfg →
     minValue sensor' = minValue sensor → maxValue sensor' = maxValue sensor →
     NoDup (sensorId <$> settings.SENSORS cfg) →
     NoDup (sensorId <$> settings.SENSORS cfg') →
     sensor ∈ settings.SENSORS cfg → sensor' ∈ settings.SENSORS cfg' →
     SerialIO.setupDemoSensors cfg = Ok ds →
     SerialIO.setupDemoSensors cfg' = Ok ds' →
     ds !! sensorId sensor = Some e → ds' !! sensorId sensor' = Some e' →
     SerialIO.demo_data e' = SerialIO.demo_data e).
Proof.
  split; [|split; [|split]].
  - intros idx Hidx. unfold SerialIO.advance_idx. rewrite decide_True by lia. done.
  - unfold SerialIO.advance_idx. rewrite decide_False by lia. done.
  - destruct (decide (0 < settings.DEMO_STEPS cfg)) as [Hpos|Hneg].
    + replace (Z.to_nat (2 * settings.DEMO_STEPS cfg))
        with (S (Z.to_nat (2 * settings.DEMO_STEPS cfg - 1))) by lia.
      rewrite Nat.iter_succ. rewrite iter_advance_idx by lia.
      unfold SerialIO.advance_idx. rewrite decide_False by lia. done.
    + replace (Z.to_nat (2 * settings.DEMO_STEPS cfg)) with 0%nat by lia. done.
  - intros cfg' sensor sensor' ds ds' e e' Hn Hmin Hmax Hnd Hnd' Hin Hin' Hds Hds' He He'.
    destruct (decide (settings.DEMO_STEPS cfg = 0)) as [H0|H0].
    { unfold SerialIO.setupDemoSensors in Hds.
      destruct (settings.SENSORS cfg) as [|x l]; [by apply elem_of_nil in Hin|].
      by rewrite setup_sensors_zero in Hds. }
    destruct (setupDemoSensors_lookup cfg sensor) as (ds0 & Hds0 & He0); [done..|].
    destruct (setupDemoSensors_lookup cfg' sensor') as (ds0' & Hds0' & He0');
      [congruence|done..|].
    assert (ds0 = ds) as -> by congruence.
    assert (ds0' = ds') as -> by congruence.
    assert (e = Ramp.demo_entry_of cfg sensor) as -> by congruence.
    assert (e' = Ramp.demo_entry_of cfg' sensor') as -> by congruence.
    unfold Ramp.demo_entry_of. cbn [SerialIO.demo_data].
    by rewrite Hn, Hmin, Hmax.
Qed.

Lemma cursor_advance_wraps_witness :
  Nat.iter 8 (SerialIO.advance_idx Fixtures.cfg_rpm) 0 = 0 ∧
  ∀ ds ds' e e',
    SerialIO.setupDemoSensors Fixtures.cfg_rpm = Ok ds →
    SerialIO.setupDemoSensors Fixtures.cfg_two = Ok ds' →
    ds !! "RPM" = Some e → ds' !! "RPM" = Some e' →
    SerialIO.demo_data e' = SerialIO.demo_data e.
Proof.
  destruct (cursor_advance_wraps Fixtures.cfg_rpm) as (_ & _ & Hiter & Hdet).
  split; [exact Hiter|].
  intros ds ds' e e' Hds Hds' He He'.
  apply (Hdet Fixtures.cfg_two Fixtures.rpm Fixtures.rpm ds ds' e e');
    try reflexivity; try assumption.
  - apply NoDup_singleton.
  - apply (bool_decide_unpack _). reflexivity.
  - apply list_elem_of_singleton. reflexivity.
  - apply list_elem_of_further, list_elem_of_here.
Defined.

(** ** The coordinator: samples *)

Section Coordinator.
Context (cfg : settings.t).
Import PyCosworth.

Lemma for_each_modify {S A} (l : list A) (f : A → S → S) (s : S) :
  for_each l (λ x, modify (f x)) s = (Ok tt, foldl (λ s x, f x s) s l).
Proof.
  revert s. induction l as [|x l IH]; intros s; [done|].
  cbn [for_each foldl]. by erewrite bind_Ok; [apply IH|].
Qed.

(** A DATA sample of a registered sensor moves the current value to the
    previous one and installs the new value. *)
Lemma dispatch_data d s current :
  d0 d ≠ settings.TYPE_ERROR cfg → d0 d = settings.TYPE_DATA cfg →
  data (ecuData s) !! d1 d = Some current →
  dispatch cfg d s =
  (Ok tt, set_ecuData
     {| data := <[d1 d := d2 d]> (data (ecuData s));
        data_previous := <[d1 d := current]> (data_previous (ecuData s));
        counter := counter (ecuData s); timer := timer (ecuData s);
        errors := errors (ecuData s) |} s).
Proof.
  intros Hne Hd Hcur. unfold dispatch.
  rewrite decide_False, decide_True by done.
  unfold mbind, M_bind, bind, get, modify. cbn. rewrite Hcur. done.
Qed.

Lemma dispatch_data_unregistered d s :
  d0 d ≠ settings.TYPE_ERROR cfg → d0 d = settings.TYPE_DATA cfg →
  data (ecuData s) !! d1 d = None →
  dispatch cfg d s = (Raise KeyError, s).
Proof.
  intros Hne Hd Hcur. unfold dispatch.
  rewrite decide_False, decide_True by done.
  unfold mbind, M_bind, bind, get, modify. cbn. rewrite Hcur. done.
Qed.

Lemma dispatch_error d s :
  d0 d = settings.TYPE_ERROR cfg →
  dispatch cfg d s =
  (Ok tt, set_log (log s ++ [(warn, "ECU error message received")]) s).
Proof. intros Hd. unfold dispatch. by rewrite decide_True. Qed.

Lemma dispatch_unknown d s :
  d0 d ≠ settings.TYPE_ERROR cfg → d0 d ≠ settings.TYPE_DATA cfg →
  dispatch cfg d s =
  (Ok tt, set_log (log s ++ [(warn, "Unknown message type from SerialIO process")]) s).
Proof. intros H1 H2. unfold dispatch. by rewrite !decide_False. Qed.

(** [receive_step] in terms of [dispatch]. *)
Lemma receive_step_cons d rest s :
  serialReceiveQueue s = d :: rest →
  receive_step cfg s =
  match dispatch cfg d
          (set_serialReceiveQueue rest
             (set_log (log s ++ [(debug, "Got some ECU data")]) s)) with
  | (Ok _, s1) => update_counter d s1
  | (Raise e, s1) => (Raise e, s1)
  end.
Proof.
  intros Hq. unfold receive_step, mbind, M_bind, bind, get. cbn. rewrite Hq.
  cbn. by destruct (dispatch _ _ _) as [[[]|e] s1].
Qed.

Lemma receive_step_nil s :
  serialReceiveQueue s = [] → receive_step cfg s = (Ok tt, s).
Proof.
  intros Hq. unfold receive_step, mbind, M_bind, bind, get. cbn. by rewrite Hq.
Qed.

End Coordinator.

(** One DATA sample of a registered sensor, through [receive_step]. *)
Lemma receive_step_data (cfg : settings.t) (s : PyCosworth.State) d rest current :
  settings.TYPE_DATA cfg ≠ settings.TYPE_ERROR cfg →
  PyCosworth.serialReceiveQueue s = d :: rest →
  d0 d = settings.TYPE_DATA cfg →
  PyCosworth.data (PyCosworth.ecuData s) !! d1 d = Some current →
  ∃ s',
    PyCosworth.receive_step cfg s = (Ok tt, s') ∧
    PyCosworth.serialReceiveQueue s' = rest ∧
    PyCosworth.ecuData s' =
      {| PyCosworth.data := <[d1 d := d2 d]> (PyCosworth.data (PyCosworth.ecuData s));
         PyCosworth.data_previous :=
           <[d1 d := current]> (PyCosworth.data_previous (PyCosworth.ecuData s));
         PyCosworth.counter := d3 d; PyCosworth.timer := d4 d;
         PyCosworth.errors := PyCosworth.errors (PyCosworth.ecuData s) |} ∧
    PyCosworth.log s' = PyCosworth.log s ++ [(PyCosworth.debug, "Got some ECU data")].
Proof.
  intros Hne Hq Hd Hcur. eexists. split.
  - rewrite (receive_step_cons cfg d rest s Hq).
    rewrite (dispatch_data cfg d _ current) by (done || congruence). reflexivity.
  - done.
Qed.

(** C3. Three DATA samples [v1], [v2], [v3] for a registered sensor [X]
    leave [previous[X] = v2] and [current[X] = v3]; every DATA update
    leaves in [data_previous] the value [data] held just before it; the
    entries of all other sensors are left as they were. *)
Theorem previous_tracks_current (cfg : settings.t) :
  settings.TYPE_DATA cfg ≠ settings.TYPE_ERROR cfg →
  (∀ (s : PyCosworth.State) d rest current,
     PyCosworth.serialReceiveQueue s = d :: rest →
     d0 d = settings.TYPE_DATA cfg →
     PyCosworth.data (PyCosworth.ecuData s) !! d1 d = Some current →
     ∃ s',
       PyCosworth.receive_step cfg s = (Ok tt, s') ∧
       PyCosworth.data_previous (PyCosworth.ecuData s') !! d1 d = Some current ∧
       PyCosworth.data (PyCosworth.ecuData s') !! d1 d = Some (d2 d) ∧
       ∀ Y, Y ≠ d1 d →
         PyCosworth.data (PyCosworth.ecuData s') !! Y
         = PyCosworth.data (PyCosworth.ecuData s) !! Y ∧
         PyCosworth.data_previous (PyCosworth.ecuData s') !! Y
         = PyCosworth.data_previous (PyCosworth.ecuData s) !! Y) ∧
  (∀ (s : PyCosworth.State) X v1 v2 v3 c1 c2 c3 t1 t2 t3 rest,
     is_Some (PyCosworth.data (PyCosworth.ecuData s) !! X) →
     PyCosworth.serialReceiveQueue s =
       {| d0 := settings.TYPE_DATA cfg; d1 := X; d2 := v1; d3 := c1; d4 := t1 |} ::
       {| d0 := settings.TYPE_DATA cfg; d1 := X; d2 := v2; d3 := c2; d4 := t2 |} ::
       {| d0 := settings.TYPE_DATA cfg; d1 := X; d2 := v3; d3 := c3; d4 := t3 |} :: rest →
     ∃ s',
       (PyCosworth.receive_step cfg ;; PyCosworth.receive_step cfg ;;
        PyCosworth.receive_step cfg) s = (Ok tt, s') ∧
       PyCosworth.data_previous (PyCosworth.ecuData s') !! X = Some v2 ∧
       PyCosworth.data (PyCosworth.ecuData s') !! X = Some v3 ∧
       ∀ Y, Y ≠ X →
         PyCosworth.data (PyCosworth.ecuData s') !! Y
         = PyCosworth.data (PyCosworth.ecuData s) !! Y ∧
         PyCosworth.data_previous (PyCosworth.ecuData s') !! Y
         = PyCosworth.data_previous (PyCosworth.ecuData s) !! Y).
Proof.
  intros Hne. split.
  - intros s d rest current Hq Hd Hcur.
    destruct (receive_step_data cfg s d rest current) as (s' & Hs' & _ & He & _);
      [done..|].
    exists s'. split; [done|]. rewrite He. cbn.
    rewrite !lookup_insert_eq. split; [done|]. split; [done|].
    intros Y HY. by rewrite !lookup_insert_ne.
  - intros s X v1 v2 v3 c1 c2 c3 t1 t2 t3 rest [v0 Hv0] Hq.
    destruct (receive_step_data cfg s _ _ v0 Hne Hq eq_refl Hv0)
      as (s1 & Hs1 & Hq1 & He1 & _).
    destruct (receive_step_data cfg s1 _ _ v1 Hne Hq1 eq_refl)
      as (s2 & Hs2 & Hq2 & He2 & _).
    { rewrite He1. cbn. by rewrite lookup_insert_eq. }
    destruct (receive_step_data cfg s2 _ _ v2 Hne Hq2 eq_refl)
      as (s3 & Hs3 & Hq3 & He3 & _).
    { rewrite He2. cbn. by rewrite lookup_insert_eq. }
    exists s3. split.
    { erewrite bind_Ok by exact Hs1. erewrite bind_Ok by exact Hs2. exact Hs3. }
    rewrite He3, He2, He1. cbn. rewrite !lookup_insert_eq.
    split; [done|]. split; [done|].
    intros Y HY. by rewrite !lookup_insert_ne.
Qed.

Lemma previous_tracks_current_witness :
  ∃ s',
    (PyCosworth.receive_step Fixtures.cfg_rpm ;;
     PyCosworth.receive_step Fixtures.cfg_rpm ;;
     PyCosworth.receive_step Fixtures.cfg_rpm)
      (Fixtures.with_samples
         [Fixtures.sample 1 "RPM" 0 1; Fixtures.sample 1 "RPM" 2000 2;
          Fixtures.sample 1 "RPM" 4000 3]
         (Fixtures.running Fixtures.cfg_rpm)) = (Ok tt, s') ∧
    PyCosworth.data_previous (PyCosworth.ecuData s') !! "RPM"
    = Some (VFloat (Qc_of_Z 2000)) ∧
    PyCosworth.data (PyCosworth.ecuData s') !! "RPM" = Some (VFloat (Qc_of_Z 4000)).
Proof.
  destruct (previous_tracks_current Fixtures.cfg_rpm) as [_ H3].
  - discriminate.
  - destruct (H3 (Fixtures.with_samples
                    [Fixtures.sample 1 "RPM" 0 1; Fixtures.sample 1 "RPM" 2000 2;
                     Fixtures.sample 1 "RPM" 4000 3]
                    (Fixtures.running Fixtures.cfg_rpm))
                 "RPM" (VFloat (Qc_of_Z 0)) (VFloat (Qc_of_Z 2000))
                 (VFloat (Qc_of_Z 4000)) 1 2 3
                 (Q2Qc (1 # 100)) (Q2Qc (1 # 100)) (Q2Qc (1 # 100)) [])
      as (s' & Hrun & Hprev & Hcur & _).
    + exists VNone. vm_compute. reflexivity.
    + reflexivity.
    + exists s'. split; [exact Hrun|]. split; [exact Hprev|exact Hcur].
Defined.

(** C7, as the code has it.  A drained sample never stops the coordinator
    (a DATA sample being one of a registered sensor).  DATA moves current to
    previous and installs the value; ERROR only logs a warning; any other
    kind logs a warning and is dropped.  In all three cases the counter and
    the cycle time are overwritten from the message, and the error store is
    left as it was. *)
Theorem coordinator_dispatch (cfg : settings.t) (s : PyCosworth.State) d rest :
  settings.TYPE_DATA cfg ≠ settings.TYPE_ERROR cfg →
  PyCosworth.serialReceiveQueue s = d :: rest →
  (d0 d = settings.TYPE_DATA cfg →
   is_Some (PyCosworth.data (PyCosworth.ecuData s) !! d1 d)) →
  ∃ s',
    PyCosworth.receive_step cfg s = (Ok tt, s') ∧
    PyCosworth.serialReceiveQueue s' = rest ∧
    PyCosworth.counter (PyCosworth.ecuData s') = d3 d ∧
    PyCosworth.timer (PyCosworth.ecuData s') = d4 d ∧
    PyCosworth.errors (PyCosworth.ecuData s') = PyCosworth.errors (PyCosworth.ecuData s) ∧
    (d0 d = settings.TYPE_DATA cfg →
       PyCosworth.data (PyCosworth.ecuData s')
       = <[d1 d := d2 d]> (PyCosworth.data (PyCosworth.ecuData s)) ∧
       PyCosworth.data_previous (PyCosworth.ecuData s') !! d1 d
       = PyCosworth.data (PyCosworth.ecuData s) !! d1 d ∧
       PyCosworth.log s' = PyCosworth.log s ++ [(PyCosworth.debug, "Got some ECU data")]) ∧
    (d0 d = settings.TYPE_ERROR cfg →
       PyCosworth.data (PyCosworth.ecuData s') = PyCosworth.data (PyCosworth.ecuData s) ∧
       PyCosworth.data_previous (PyCosworth.ecuData s')
       = PyCosworth.data_previous (PyCosworth.ecuData s) ∧
       PyCosworth.log s' = PyCosworth.log s ++
         [(PyCosworth.debug, "Got some ECU data");
          (PyCosworth.warn, "ECU error message received")]) ∧
    (d0 d ≠ settings.TYPE_DATA cfg → d0 d ≠ settings.TYPE_ERROR cfg →
       PyCosworth.data (PyCosworth.ecuData s') = PyCosworth.data (PyCosworth.ecuData s) ∧
       PyCosworth.data_previous (PyCosworth.ecuData s')
       = PyCosworth.data_previous (PyCosworth.ecuData s) ∧
       PyCosworth.log s' = PyCosworth.log s ++
         [(PyCosworth.debug, "Got some ECU data");
          (PyCosworth.warn, "Unknown message type from SerialIO process")]).
Proof.
  intros Hne Hq Hreg.
  destruct (decide (d0 d = settings.TYPE_ERROR cfg)) as [Herr|Hnerr].
  - eexists. split.
    { rewrite (receive_step_cons cfg d rest s Hq), dispatch_error by done. reflexivity. }
    cbn. repeat split; try done; try congruence.
    by rewrite <- app_assoc.
  - destruct (decide (d0 d = settings.TYPE_DATA cfg)) as [Hdata|Hndata].
    + destruct (Hreg Hdata) as [current Hcur].
      destruct (receive_step_data cfg s d rest current) as (s' & Hs' & Hq' & He & Hlog);
        [done..|].
      exists s'. split; [done|]. rewrite He. cbn.
      repeat split; try done.
      by rewrite lookup_insert_eq.
    + eexists. split.
      { rewrite (receive_step_cons cfg d rest s Hq), dispatch_unknown by done.
        reflexivity. }
      cbn. repeat split; try done.
      by rewrite <- app_assoc.
Qed.

Lemma coordinator_dispatch_witness :
  ∃ s',
    PyCosworth.receive_step Fixtures.cfg_rpm
      (Fixtures.with_samples [Fixtures.sample 0 "RPM" 0 5]
         (Fixtures.running Fixtures.cfg_rpm)) = (Ok tt, s') ∧
    PyCosworth.counter (PyCosworth.ecuData s') = 5 ∧
    PyCosworth.errors (PyCosworth.ecuData s') = [0; 1; 2; 3].
Proof.
  destruct (coordinator_dispatch Fixtures.cfg_rpm
              (Fixtures.with_samples [Fixtures.sample 0 "RPM" 0 5]
                 (Fixtures.running Fixtures.cfg_rpm))
              (Fixtures.sample 0 "RPM" 0 5) [])
    as (s' & Hrun & _ & Hc & _ & He & _).
  - discriminate.
  - reflexivity.
  - discriminate.
  - exists s'. split; [exact Hrun|]. split; [exact Hc|]. rewrite He. reflexivity.
Defined.

(** C7 as stated fails twice.  An ERROR sample is not recorded: the error
    store after it is the one before it.  A sample of an unknown kind is not
    without effect: the counter and the cycle time are taken from it. *)
Lemma coordinator_dispatch_counterexample :
  let s := Fixtures.running Fixtures.cfg_rpm in
  let error := Fixtures.sample (settings.TYPE_ERROR Fixtures.cfg_rpm) "RPM" 0 5 in
  let unknown := Fixtures.sample 7 "RPM" 0 5 in
  (∃ s', PyCosworth.receive_step Fixtures.cfg_rpm (Fixtures.with_samples [error] s)
         = (Ok tt, s') ∧
         PyCosworth.errors (PyCosworth.ecuData s') = PyCosworth.errors (PyCosworth.ecuData s)) ∧
  (∃ s', PyCosworth.receive_step Fixtures.cfg_rpm (Fixtures.with_samples [unknown] s)
         = (Ok tt, s') ∧
         d0 unknown ≠ settings.TYPE_DATA Fixtures.cfg_rpm ∧
         d0 unknown ≠ settings.TYPE_ERROR Fixtures.cfg_rpm ∧
         PyCosworth.counter (PyCosworth.ecuData s) = 0 ∧
         PyCosworth.counter (PyCosworth.ecuData s') = 5 ∧
         PyCosworth.timer (PyCosworth.ecuData s) = Qc_of_Z 0 ∧
         PyCosworth.timer (PyCosworth.ecuData s') = Q2Qc (1 # 100)).
Proof.
  split.
  - eexists. split.
    + erewrite receive_step_cons by reflexivity.
      rewrite dispatch_error by reflexivity. reflexivity.
    + reflexivity.
  - eexists. split.
    + erewrite receive_step_cons by reflexivity.
      rewrite dispatch_unknown by discriminate. reflexivity.
    + repeat split; try discriminate; reflexivity.
Qed.

(** ** The coordinator: start-up and the broadcast of control messages *)

Lemma create_ecuData_run (cfg : settings.t) (s : PyCosworth.State) :
  ∃ e, PyCosworth.create_ecuData cfg s = (Ok tt, PyCosworth.set_ecuData e s).
Proof.
  unfold PyCosworth.create_ecuData.
  erewrite bind_Ok by reflexivity.
  rewrite for_each_modify.
  generalize (settings.SENSORS cfg). intros l.
  set (e0 := {| PyCosworth.data := ∅ |}). generalize e0. clear e0.
  induction l as [|x l IH]; intros e0; [by exists e0|].
  cbn [foldl]. destruct (IH (PyCosworth.set_sensor x e0)) as [e He].
  exists e. by rewrite <- He.
Qed.

(** The state in which the console branch fails. *)
Lemma startup_console_run (cfg : settings.t) :
  settings.USE_CONSOLE cfg = true →
  ∃ e,
    PyCosworth.startup cfg PyCosworth.entry =
    (Raise (NameError "matrixControlQueue"),
     {| PyCosworth.ecuData := e;
        PyCosworth.serialReceiveQueue := [];
        PyCosworth.queues :=
          <[PyCosworth.consoleControlQueue := Some []]>
            (<[PyCosworth.serialControlQueue := Some []]> (λ _, None));
        PyCosworth.started := [PyCosworth.serialWorker; PyCosworth.consoleWorker];
        PyCosworth.workers := [PyCosworth.serialWorker; PyCosworth.consoleWorker];
        PyCosworth.messageQueues := [PyCosworth.serialControlQueue];
        PyCosworth.i := None;
        PyCosworth.log := [] |}).
Proof.
  intros Hconsole.
  destruct (create_ecuData_run cfg PyCosworth.entry) as [e He].
  exists e. unfold PyCosworth.startup. erewrite bind_Ok by exact He.
  rewrite Hconsole. vm_compute. reflexivity.
Qed.

(** C10. With [USE_CONSOLE] enabled the start-up raises a name error on
    [matrixControlQueue], which the console branch reads before the matrix
    branch has bound it.  The console worker has been started by then, the
    broadcast list holds the serial queue only, and the main loop is never
    entered ([i] is still unbound), however many iterations are allowed. *)
Theorem console_startup_name_error (cfg : settings.t) (n : nat) :
  settings.USE_CONSOLE cfg = true →
  ∃ s,
    PyCosworth.main cfg n PyCosworth.entry
    = (Raise (NameError "matrixControlQueue"), s) ∧
    PyCosworth.started s = [PyCosworth.serialWorker; PyCosworth.consoleWorker] ∧
    PyCosworth.queues s PyCosworth.consoleControlQueue = Some [] ∧
    PyCosworth.queues s PyCosworth.matrixControlQueue = None ∧
    PyCosworth.messageQueues s = [PyCosworth.serialControlQueue] ∧
    (PyCosworth.consoleControlQueue ∉ PyCosworth.messageQueues s) ∧
    PyCosworth.i s = None.
Proof.
  intros Hconsole.
  destruct (startup_console_run cfg Hconsole) as [e He].
  eexists. split.
  - unfold PyCosworth.main. erewrite bind_Raise by exact He. reflexivity.
  - cbn [PyCosworth.started PyCosworth.queues PyCosworth.messageQueues PyCosworth.i].
    split; [reflexivity|]. split; [reflexivity|]. split; [reflexivity|].
    split; [reflexivity|]. split; [|reflexivity].
    intros Hin. apply list_elem_of_singleton in Hin. discriminate.
Qed.

Lemma console_startup_name_error_witness :
  ∃ s,
    PyCosworth.main Fixtures.cfg_console 10 PyCosworth.entry
    = (Raise (NameError "matrixControlQueue"), s) ∧
    PyCosworth.messageQueues s = [PyCosworth.serialControlQueue] ∧
    PyCosworth.i s = None.
Proof.
  destruct (console_startup_name_error Fixtures.cfg_console 10)
    as (s & Hrun & _ & _ & _ & Hq & _ & Hi).
  - reflexivity.
  - exists s. split; [exact Hrun|]. split; [exact Hq|exact Hi].
Defined.

Lemma bind_Ok_inv {S A B} (m : M S A) (f : A → M S B) s b s' :
  (m ≫= f) s = (Ok b, s') → ∃ a s1, m s = (Ok a, s1) ∧ f a s1 = (Ok b, s').
Proof.
  unfold mbind, M_bind, bind. destruct (m s) as [[a|e] s1]; [|done].
  intros H. by exists a, s1.
Qed.

Section Bus.
Context (cfg : settings.t).
Import PyCosworth.

Lemma dispatch_same_bus d s r s' : dispatch cfg d s = (r, s') → same_bus s s'.
Proof.
  unfold dispatch. repeat case_decide.
  - intros [= <- <-]. done.
  - unfold mbind, M_bind, bind, get, modify. cbn.
    destruct (data (ecuData s) !! d1 d); intros [= <- <-]; done.
  - intros [= <- <-]. done.
Qed.

Lemma receive_step_same_bus s r s' : receive_step cfg s = (r, s') → same_bus s s'.
Proof.
  destruct (serialReceiveQueue s) as [|d rest] eqn:Hq.
  - rewrite receive_step_nil by done. by intros [= <- <-].
  - rewrite (receive_step_cons cfg d rest s Hq).
    destruct (dispatch _ _ _) as [[[]|e] s1] eqn:Hd;
      apply dispatch_same_bus in Hd; intros [= <- <-]; exact Hd.
Qed.

Lemma for_each_put m l s :
  for_each l (put m) s = (Ok tt, set_queues (put_all m l (queues s)) s).
Proof.
  revert s. induction l as [|q l IH]; intros s; [by destruct s|].
  cbn [for_each]. erewrite bind_Ok by reflexivity. rewrite IH. done.
Qed.

Lemma put_all_notin m l qs q : q ∉ l → put_all m l qs q = qs q.
Proof.
  revert qs. induction l as [|x l IH]; intros qs Hq; [done|].
  apply not_elem_of_cons in Hq as [Hne Hq]. unfold put_all. cbn [foldl].
  fold (put_all m l (<[x := (λ l, l ++ [m]) <$> qs x]> qs)).
  rewrite IH by done. by rewrite fn_lookup_insert_ne.
Qed.

Lemma put_all_in m l qs q :
  NoDup l → q ∈ l → put_all m l qs q = (λ l, l ++ [m]) <$> qs q.
Proof.
  revert qs. induction l as [|x l IH]; intros qs Hnd Hq; [by apply elem_of_nil in Hq|].
  pose proof (NoDup_cons_1_1 _ _ Hnd) as Hx. apply NoDup_cons_1_2 in Hnd.
  unfold put_all. cbn [foldl].
  fold (put_all m l (<[x := (λ l, l ++ [m]) <$> qs x]> qs)).
  apply elem_of_cons in Hq as [->|Hq].
  - rewrite put_all_notin by done. by rewrite fn_lookup_insert.
  - rewrite IH by done. rewrite fn_lookup_insert_ne; [done|].
    intros ->. done.
Qed.

(** [button_step] on a waiting message. *)
Lemma button_step_cons s m rest :
  queues s gpioActionQueue = Some (m :: rest) →
  button_step s =
  (Ok tt,
   set_queues (put_all m (messageQueues s)
                 (<[gpioActionQueue := Some rest]> (queues s)))
     (set_log (log s ++ [(debug, "Message in the control queue")]) s)).
Proof.
  intros Hq. unfold button_step, name.
  unfold mbind at 1, M_bind at 1, bind at 1.
  unfold mbind at 1, M_bind at 1, bind at 1. cbn [get]. rewrite Hq.
  cbn [ret]. unfold mbind at 1, M_bind at 1, bind at 1. cbn [get]. rewrite Hq.
  erewrite bind_Ok by reflexivity. erewrite bind_Ok by reflexivity.
  erewrite bind_Ok by reflexivity. rewrite for_each_put. done.
Qed.

Lemma button_step_nil s :
  queues s gpioActionQueue = Some [] → button_step s = (Ok tt, s).
Proof.
  intros Hq. unfold button_step, name.
  unfold mbind at 1, M_bind at 1, bind at 1.
  unfold mbind at 1, M_bind at 1, bind at 1. cbn [get]. rewrite Hq.
  cbn [ret]. unfold mbind at 1, M_bind at 1, bind at 1. cbn [get]. by rewrite Hq.
Qed.

Lemma button_step_unbound s :
  queues s gpioActionQueue = None →
  button_step s = (Raise (NameError "gpioActionQueue"), s).
Proof.
  intros Hq. unfold button_step, name.
  unfold mbind at 1, M_bind at 1, bind at 1.
  unfold mbind at 1, M_bind at 1, bind at 1. cbn [get]. by rewrite Hq.
Qed.

End Bus.

Section Broadcast.
Context (cfg : settings.t).
Import PyCosworth.

Lemma enabled_queues_NoDup : NoDup (enabled_queues cfg).
Proof.
  unfold enabled_queues.
  destruct (settings.USE_MATRIX cfg), (settings.USE_GRAPHICS cfg);
    apply (bool_decide_unpack _); reflexivity.
Qed.

Lemma gpioActionQueue_not_enabled : gpioActionQueue ∉ enabled_queues cfg.
Proof.
  unfold enabled_queues.
  destruct (settings.USE_MATRIX cfg), (settings.USE_GRAPHICS cfg);
    apply (bool_decide_unpack _); reflexivity.
Qed.

(** Every enabled worker that has a control queue has it registered. *)
Lemma enabled_inbox w q :
  w ∈ enabled_workers cfg → inbox w = Some q → q ∈ enabled_queues cfg.
Proof.
  unfold enabled_workers, enabled_queues.
  destruct (settings.USE_MATRIX cfg), (settings.USE_BUTTONS cfg),
    (settings.USE_GRAPHICS cfg); cbn;
    intros Hw Hq; repeat (apply elem_of_cons in Hw as [->|Hw]);
    try (by apply elem_of_nil in Hw); cbn in Hq; simplify_eq;
    apply (bool_decide_unpack _); reflexivity.
Qed.

(** When the start-up returns, the console is disabled and the bus is as
    [bus_ok] says. *)
Lemma startup_bus_ok s :
  startup cfg entry = (Ok tt, s) → bus_ok cfg s.
Proof.
  destruct (create_ecuData_run cfg entry) as [e He].
  unfold startup. erewrite bind_Ok by exact He.
  unfold bus_ok, enabled_workers, enabled_queues.
  destruct (settings.USE_CONSOLE cfg); [discriminate|].
  destruct (settings.USE_MATRIX cfg), (settings.USE_BUTTONS cfg),
    (settings.USE_GRAPHICS cfg); intros H; lazy in H; injection H as <-;
    cbn [started messageQueues queues app];
    (split; [reflexivity|]); (split; [reflexivity|]); (split; [reflexivity|]);
    intros q Hq; repeat (apply elem_of_cons in Hq as [->|Hq]);
    try (by apply elem_of_nil in Hq); by eexists.
Qed.

Lemma bus_ok_same_bus s s' : same_bus s s' → bus_ok cfg s → bus_ok cfg s'.
Proof.
  intros (Hq & Hm & Hs) (Hc & Hst & Hmq & Hb). unfold bus_ok.
  rewrite Hq, Hm, Hs. done.
Qed.

(** A round of the main loop: the bus changes in [button_step] only. *)
Lemma tick_inv s s' :
  tick cfg s = (Ok tt, s') →
  ∃ s1 s2, same_bus s s1 ∧ button_step s1 = (Ok tt, s2) ∧ same_bus s2 s'.
Proof.
  unfold tick. intros H.
  apply bind_Ok_inv in H as (s0 & s0' & Hget & H).
  injection Hget as <- <-.
  apply bind_Ok_inv in H as ([] & sa & Ha & H).
  apply bind_Ok_inv in H as ([] & sb & Hb & H).
  apply bind_Ok_inv in H as ([] & sc & Hc & H).
  injection H as <-.
  exists sb, sc. split; [|split; [done|done]].
  apply receive_step_same_bus in Hb. destruct Hb as (Hq & Hm & Hs).
  assert (same_bus s sa) as (Hq' & Hm' & Hs').
  { case_decide; [|by injection Ha as <-].
    apply bind_Ok_inv in Ha as ([] & ? & [= <-] & [= <-]). done. }
  unfold same_bus. by rewrite Hq, Hm, Hs, Hq', Hm', Hs'.
Qed.

(** The broadcast of one waiting message. *)
Lemma tick_broadcast s s' m rest :
  bus_ok cfg s →
  queues s gpioActionQueue = Some (m :: rest) →
  tick cfg s = (Ok tt, s') →
  bus_ok cfg s' ∧
  queues s' gpioActionQueue = Some rest ∧
  ∀ q, q ∈ enabled_queues cfg → queues s' q = (λ l, l ++ [m]) <$> queues s q.
Proof.
  intros Hok Hq Htick.
  destruct (tick_inv s s' Htick) as (s1 & s2 & H1 & Hb & H2).
  pose proof (bus_ok_same_bus _ _ H1 Hok) as (Hc1 & Hst1 & Hmq1 & Hb1).
  destruct H1 as (Hq1 & Hm1 & Hs1).
  rewrite button_step_cons with (m := m) (rest := rest) in Hb by (by rewrite Hq1).
  injection Hb as <-. destruct H2 as (Hq2 & Hm2 & Hs2). cbn in Hq2, Hm2, Hs2.
  assert (Hput : ∀ q, q ∈ enabled_queues cfg →
            queues s' q = (λ l, l ++ [m]) <$> queues s q).
  { intros q Hin. rewrite Hq2, Hmq1, put_all_in; [|apply enabled_queues_NoDup|done].
    rewrite fn_lookup_insert_ne, Hq1; [done|].
    intros <-. by apply gpioActionQueue_not_enabled in Hin. }
  split; [|split; [|done]].
  - unfold bus_ok. rewrite Hs2, Hm2. split; [done|]. split; [done|]. split; [done|].
    intros q Hin. rewrite Hmq1 in Hin. rewrite Hput by done.
    rewrite <- Hmq1 in Hin. apply Hb1 in Hin. rewrite Hq1 in Hin.
    by apply fmap_is_Some.
  - rewrite Hq2, Hmq1, put_all_notin by apply gpioActionQueue_not_enabled.
    by rewrite fn_lookup_insert.
Qed.

(** As many rounds as messages wait: all of them are broadcast, in order. *)
Lemma loop_broadcast ms : ∀ s s' rest,
  bus_ok cfg s →
  queues s gpioActionQueue = Some (ms ++ rest) →
  loop cfg (length ms) s = (Ok tt, s') →
  bus_ok cfg s' ∧
  queues s' gpioActionQueue = Some rest ∧
  ∀ q, q ∈ enabled_queues cfg → queues s' q = (λ l, l ++ ms) <$> queues s q.
Proof.
  induction ms as [|m ms IH]; intros s s' rest Hok Hq Hloop.
  - cbn in Hloop. injection Hloop as <-. split; [done|]. split; [done|].
    intros q _. destruct (queues s q); cbn; [|done]. by rewrite app_nil_r.
  - cbn [length loop] in Hloop.
    apply bind_Ok_inv in Hloop as ([] & s1 & Htick & Hloop).
    destruct (tick_broadcast s s1 m (ms ++ rest) Hok Hq Htick) as (Hok1 & Hq1 & Hput1).
    destruct (IH s1 s' rest Hok1 Hq1 Hloop) as (Hok' & Hq' & Hput').
    split; [done|]. split; [done|].
    intros q Hin. rewrite Hput', Hput1 by done.
    destruct (queues s q); cbn; [|done]. by rewrite <- app_assoc.
Qed.

Lemma env_step_bus_ok s s' : env_step s s' → bus_ok cfg s → bus_ok cfg s'.
Proof.
  intros Henv (Hc & Hst & Hmq & Hb).
  destruct Henv as [s q m Hq|s d|s w q m rest Hw Hi Hq]; unfold bus_ok; cbn;
    (split; [done|]); (split; [done|]); (split; [done|]); [|done|].
  - intros q' Hin. destruct (decide (q' = gpioActionQueue)) as [->|Hne].
    + by rewrite fn_lookup_insert.
    + rewrite fn_lookup_insert_ne by done. by apply Hb.
  - intros q' Hin. destruct (decide (q' = q)) as [->|Hne].
    + by rewrite fn_lookup_insert.
    + rewrite fn_lookup_insert_ne by done. by apply Hb.
Qed.

Lemma tick_bus_ok s s' : tick cfg s = (Ok tt, s') → bus_ok cfg s → bus_ok cfg s'.
Proof.
  intros Htick Hok.
  destruct (tick_inv s s' Htick) as (s1 & s2 & H1 & Hb & H2).
  pose proof (bus_ok_same_bus _ _ H1 Hok) as Hok1.
  eapply bus_ok_same_bus; [exact H2|].
  destruct (queues s1 gpioActionQueue) as [[|m rest]|] eqn:Hq.
  - rewrite button_step_nil in Hb by done. by injection Hb as <-.
  - assert (tick cfg s1 = tick cfg s1) as _ by done.
    rewrite (button_step_cons s1 m rest Hq) in Hb. injection Hb as <-.
    destruct Hok1 as (Hc & Hst & Hmq & Hb1). unfold bus_ok. cbn.
    split; [done|]. split; [done|]. split; [done|].
    intros q Hin. rewrite Hmq, put_all_in;
      [|apply enabled_queues_NoDup|by rewrite <- Hmq].
    apply fmap_is_Some. rewrite fn_lookup_insert_ne; [by apply Hb1|].
    intros <-. rewrite Hmq in Hin. by apply gpioActionQueue_not_enabled in Hin.
  - by rewrite button_step_unbound in Hb.
Qed.

Lemma receive_step_returns s :
  receivable cfg s → ∃ s', receive_step cfg s = (Ok tt, s').
Proof.
  unfold receivable. destruct (serialReceiveQueue s) as [|d rest] eqn:Hq.
  - intros _. rewrite receive_step_nil by done. by eexists.
  - intros Hd. rewrite (receive_step_cons cfg d rest s Hq).
    destruct (decide (d0 d = settings.TYPE_ERROR cfg)) as [He|He].
    { rewrite dispatch_error by done. by eexists. }
    destruct (decide (d0 d = settings.TYPE_DATA cfg)) as [Hdata|Hdata].
    + destruct Hd as [?|[?|[current Hcur]]]; [done..|].
      rewrite (dispatch_data cfg d _ current) by done. by eexists.
    + rewrite dispatch_unknown by done. by eexists.
Qed.

(** A round returns if the waiting sample can be handed over and the
    action queue exists. *)
Lemma tick_returns s :
  receivable cfg s → is_Some (queues s gpioActionQueue) →
  ∃ s', tick cfg s = (Ok tt, s').
Proof.
  intros Hrecv [q Hq]. unfold tick.
  rewrite (bind_Ok _ _ s s s) by reflexivity.
  set (sa := if decide (i s = Some 10000)
             then set_i (Some 0)
                    (set_log (log s ++ [(info, "Still running [main process]")]) s)
             else s).
  assert (Ha : receivable cfg sa ∧ queues sa = queues s) by (unfold sa; by case_decide).
  destruct Ha as [Hra Hqa].
  rewrite (bind_Ok _ _ s tt sa) by (unfold sa; by case_decide).
  destruct (receive_step_returns sa Hra) as [sb Hb].
  rewrite (bind_Ok _ _ _ _ _ Hb).
  apply receive_step_same_bus in Hb as (Hqb & _ & _).
  assert (Hq' : queues sb gpioActionQueue = Some q) by (by rewrite Hqb, Hqa).
  destruct q as [|m rest].
  - rewrite (bind_Ok _ _ _ _ _ (button_step_nil sb Hq')). by eexists.
  - rewrite (bind_Ok _ _ _ _ _ (button_step_cons sb m rest Hq')). by eexists.
Qed.

Lemma reachable_bus_ok s : reachable cfg s → bus_ok cfg s.
Proof.
  induction 1 as [s H|s s' _ IH H|s s' _ IH H].
  - by apply startup_bus_ok.
  - by eapply tick_bus_ok.
  - by eapply env_step_bus_ok.
Qed.

End Broadcast.

(** C2. In every state of a run (the console is off in all of them, and
    the started workers are the enabled ones) a round that finds a message
    on the action queue returns and appends one copy of it to the control
    queue of every started worker that has one; and as many rounds as
    messages wait append them all, in the order they were waiting, to each
    of these queues. *)
Theorem control_broadcast (cfg : settings.t) (s : PyCosworth.State) :
  PyCosworth.reachable cfg s →
  settings.USE_CONSOLE cfg = false ∧
  PyCosworth.started s = PyCosworth.enabled_workers cfg ∧
  (∀ m rest,
     PyCosworth.queues s PyCosworth.gpioActionQueue = Some (m :: rest) →
     PyCosworth.receivable cfg s →
     ∃ s',
       PyCosworth.tick cfg s = (Ok tt, s') ∧
       PyCosworth.queues s' PyCosworth.gpioActionQueue = Some rest ∧
       ∀ w q, w ∈ PyCosworth.started s → PyCosworth.inbox w = Some q →
         ∃ old, PyCosworth.queues s q = Some old ∧
                PyCosworth.queues s' q = Some (old ++ [m])) ∧
  (∀ ms rest s',
     PyCosworth.queues s PyCosworth.gpioActionQueue = Some (ms ++ rest) →
     PyCosworth.loop cfg (length ms) s = (Ok tt, s') →
     PyCosworth.started s' = PyCosworth.started s ∧
     PyCosworth.queues s' PyCosworth.gpioActionQueue = Some rest ∧
     ∀ w q, w ∈ PyCosworth.started s → PyCosworth.inbox w = Some q →
       q ∈ PyCosworth.messageQueues s ∧
       ∃ old, PyCosworth.queues s q = Some old ∧
              PyCosworth.queues s' q = Some (old ++ ms)).
Proof.
  intros Hreach.
  pose proof (reachable_bus_ok cfg s Hreach) as Hok.
  pose proof Hok as (Hc & Hst & Hmq & Hb).
  split; [done|]. split; [done|]. split.
  - intros m rest Hq Hrecv.
    destruct (tick_returns cfg s Hrecv) as [s' Htick]; [by rewrite Hq|].
    destruct (tick_broadcast cfg s s' m rest Hok Hq Htick) as (_ & Hq' & Hput).
    exists s'. split; [done|]. split; [done|].
    intros w q Hw Hi. rewrite Hst in Hw.
    pose proof (enabled_inbox cfg w q Hw Hi) as Hin.
    destruct (Hb q) as [old Hold]; [by rewrite Hmq|].
    exists old. split; [done|]. by rewrite Hput, Hold.
  - intros ms rest s' Hq Hloop.
    destruct (loop_broadcast cfg ms s s' rest Hok Hq Hloop) as (Hok' & Hq' & Hput).
    destruct Hok' as (_ & Hst' & _ & _).
    split; [congruence|]. split; [done|].
    intros w q Hw Hi. rewrite Hst in Hw.
    pose proof (enabled_inbox cfg w q Hw Hi) as Hin.
    split; [by rewrite Hmq|].
    destruct (Hb q) as [old Hold]; [by rewrite Hmq|].
    exists old. split; [done|]. by rewrite Hput, Hold.
Qed.

Lemma control_broadcast_witness :
  let s := Fixtures.press Fixtures.long_press
             (Fixtures.press Fixtures.short_press (Fixtures.running Fixtures.cfg_rpm)) in
  ∃ s',
    PyCosworth.loop Fixtures.cfg_rpm 2 s = (Ok tt, s') ∧
    PyCosworth.queues s' PyCosworth.serialControlQueue
    = Some [Fixtures.short_press; Fixtures.long_press] ∧
    PyCosworth.queues s' PyCosworth.graphicsControlQueue
    = Some [Fixtures.short_press; Fixtures.long_press].
Proof.
  intros s.
  pose (s' := (PyCosworth.loop Fixtures.cfg_rpm 2 s).2).
  assert (Hloop : PyCosworth.loop Fixtures.cfg_rpm
                    (length [Fixtures.short_press; Fixtures.long_press]) s = (Ok tt, s')).
  { vm_compute. reflexivity. }
  destruct (control_broadcast Fixtures.cfg_rpm s) as (_ & _ & _ & Hall).
  - eapply PyCosworth.reach_env; [eapply PyCosworth.reach_env|].
    + apply PyCosworth.reach_startup. vm_compute. reflexivity.
    + apply (PyCosworth.env_button _ [] Fixtures.short_press). reflexivity.
    + apply (PyCosworth.env_button _ [Fixtures.short_press] Fixtures.long_press).
      reflexivity.
  - destruct (Hall [Fixtures.short_press; Fixtures.long_press] [] s' eq_refl Hloop)
      as (_ & _ & Hput).
    exists s'. split; [exact Hloop|]. split.
    + destruct (Hput PyCosworth.serialWorker PyCosworth.serialControlQueue)
        as (_ & old & Hold & Hnew).
      * apply list_elem_of_here.
      * reflexivity.
      * rewrite Hnew. injection Hold as <-. reflexivity.
    + destruct (Hput PyCosworth.graphicsWorker PyCosworth.graphicsControlQueue)
        as (_ & old & Hold & Hnew).
      * apply (bool_decide_unpack _). reflexivity.
      * reflexivity.
      * rewrite Hnew. injection Hold as <-. reflexivity.
Defined.

(** ** The acquisition loop: one sensor *)

Section Poll.
Context (cfg : settings.t) (isMine : ControlData → Z → bool)
        (default_timer : nat → Qc).
Import SerialIO.
Local Open Scope Qc_scope.

Lemma read_timer_run s :
  read_timer default_timer s =
  (Ok (default_timer (timer_reads s)), set_timer_reads (S (timer_reads s)) s).
Proof. done. Qed.

(** Lines 181-188 in closed form. *)
Lemma count_sample_run sensor s :
  count_sample default_timer sensor s =
  (Ok tt,
   if decide (sensorId sensor = sample_counter_id s) then
     set_sample_time (default_timer (timer_reads s) - sample_start s)
       (set_timer_reads (S (timer_reads s)) (set_counter (counter s + 1)%Z s))
   else s).
Proof.
  unfold count_sample, mbind, M_bind, bind, get. cbn.
  by destruct (decide (sensorId sensor = sample_counter_id s)).
Qed.

(** Lines 190-204 in closed form. *)
Lemma send_demo_run sensor s ds e rxb :
  demo_sensor s = Some ds →
  ds !! sensorId sensor = Some e →
  py_getitem (demo_data e) (demo_data_idx e) = Ok rxb →
  send_demo cfg default_timer sensor s =
  (Ok tt,
   set_demo_sensor
     (Some (<[sensorId sensor :=
                set_demo_data_idx (advance_idx cfg (demo_data_idx e)) e]> ds))
     (set_sensor_timer
        (<[sensorId sensor := default_timer (timer_reads s)]> (sensor_timer s))
        (set_timer_reads (S (timer_reads s))
           (set_receiveQueue
              (receiveQueue s ++
                 [{| d0 := settings.TYPE_DATA cfg; d1 := sensorId sensor;
                     d2 := VFloat rxb; d3 := counter s; d4 := sample_time s |}])
              s)))).
Proof.
  intros Hds He Hrxb.
  unfold send_demo, mbind, M_bind, bind, get. cbn. rewrite Hds.
  unfold lookup_key. rewrite He. cbn. unfold lift. rewrite Hrxb. done.
Qed.

(** Lines 207-213 in closed form: a sample and a timer reset when
    connected, nothing at all otherwise. *)
Lemma send_live_run sensor s :
  send_live cfg default_timer sensor s =
  (Ok tt,
   if connected s then
     set_sensor_timer
       (<[sensorId sensor := default_timer (timer_reads s)]> (sensor_timer s))
       (set_timer_reads (S (timer_reads s))
          (set_receiveQueue
             (receiveQueue s ++
                [{| d0 := settings.TYPE_DATA cfg; d1 := sensorId sensor;
                    d2 := VStr "0x0"; d3 := counter s; d4 := sample_time s |}])
             s))
   else s).
Proof.
  unfold send_live, mbind, M_bind, bind, get. cbn.
  by destruct (connected s).
Qed.

(** The body of the sensor loop: a timer reading, then nothing if the
    sensor is not due, else the count followed by the demo or live branch. *)
Lemma poll_sensor_run sensor s last :
  sensor_timer s !! sensorId sensor = Some last →
  poll_sensor cfg default_timer sensor s =
  let s1 := set_timer_reads (S (timer_reads s)) s in
  if decide (refresh sensor ≤ default_timer (timer_reads s) - last) then
    let s2 := (count_sample default_timer sensor s1).2 in
    if SERIALIO_DEMO s2 then send_demo cfg default_timer sensor s2
    else send_live cfg default_timer sensor s2
  else (Ok tt, s1).
Proof.
  intros Hlast. unfold poll_sensor.
  unfold mbind at 1, M_bind at 1, bind at 1. rewrite read_timer_run.
  unfold mbind at 1, M_bind at 1, bind at 1. cbn [get].
  unfold mbind at 1, M_bind at 1, bind at 1. unfold lookup_key.
  cbn [sensor_timer set_timer_reads]. rewrite Hlast. cbn [ret].
  cbn zeta. case_decide; [|done].
  unfold mbind at 1, M_bind at 1, bind at 1. rewrite count_sample_run.
  cbn [snd]. unfold mbind at 1, M_bind at 1, bind at 1. cbn [get].
  match goal with |- context [SERIALIO_DEMO ?x] => by destruct (SERIALIO_DEMO x) end.
Qed.

Lemma poll_sensor_KeyError sensor s :
  sensor_timer s !! sensorId sensor = None →
  poll_sensor cfg default_timer sensor s =
  (Raise KeyError, set_timer_reads (S (timer_reads s)) s).
Proof.
  intros Hlast. unfold poll_sensor.
  unfold mbind at 1, M_bind at 1, bind at 1. rewrite read_timer_run.
  unfold mbind at 1, M_bind at 1, bind at 1. cbn [get].
  unfold mbind at 1, M_bind at 1, bind at 1. unfold lookup_key.
  cbn [sensor_timer set_timer_reads]. by rewrite Hlast.
Qed.

End Poll.

(** C6, as the code has it.  A sensor whose elapsed time has reached its
    refresh interval yields one sample from the demo data in demo mode and
    one from the transport when connected, and its timer is then set to the
    latest reading of the clock; when neither in demo mode nor connected,
    nothing is emitted and the timer is left as it was. *)
Theorem poll_due_sensor (cfg : settings.t) (default_timer : nat → Qc)
    (sensor : Sensor) (s : SerialIO.State) (last : Qc) :
  SerialIO.sensor_timer s !! sensorId sensor = Some last →
  (refresh sensor ≤ default_timer (SerialIO.timer_reads s) - last)%Qc →
  let counted :=
    if decide (sensorId sensor = SerialIO.sample_counter_id s)
    then SerialIO.counter s + 1 else SerialIO.counter s in
  (SerialIO.SERIALIO_DEMO s = true →
   ∀ ds e rxb,
     SerialIO.demo_sensor s = Some ds → ds !! sensorId sensor = Some e →
     py_getitem (SerialIO.demo_data e) (SerialIO.demo_data_idx e) = Ok rxb →
     ∃ s',
       SerialIO.poll_sensor cfg default_timer sensor s = (Ok tt, s') ∧
       SerialIO.receiveQueue s' =
         SerialIO.receiveQueue s ++
         [{| d0 := settings.TYPE_DATA cfg; d1 := sensorId sensor; d2 := VFloat rxb;
             d3 := counted; d4 := SerialIO.sample_time s' |}] ∧
       SerialIO.sensor_timer s' =
         <[sensorId sensor := default_timer (Nat.pred (SerialIO.timer_reads s'))]>
           (SerialIO.sensor_timer s)) ∧
  (SerialIO.SERIALIO_DEMO s = false → SerialIO.connected s = true →
   ∃ s',
     SerialIO.poll_sensor cfg default_timer sensor s = (Ok tt, s') ∧
     SerialIO.receiveQueue s' =
       SerialIO.receiveQueue s ++
       [{| d0 := settings.TYPE_DATA cfg; d1 := sensorId sensor; d2 := VStr "0x0";
           d3 := counted; d4 := SerialIO.sample_time s' |}] ∧
     SerialIO.sensor_timer s' =
       <[sensorId sensor := default_timer (Nat.pred (SerialIO.timer_reads s'))]>
         (SerialIO.sensor_timer s)) ∧
  (SerialIO.SERIALIO_DEMO s = false → SerialIO.connected s = false →
   ∃ s',
     SerialIO.poll_sensor cfg default_timer sensor s = (Ok tt, s') ∧
     SerialIO.receiveQueue s' = SerialIO.receiveQueue s ∧
     SerialIO.sensor_timer s' = SerialIO.sensor_timer s).
Proof.
  intros Hlast Hdue counted. subst counted.
  rewrite (poll_sensor_run cfg default_timer sensor s last Hlast).
  cbn zeta. rewrite decide_True by done. rewrite count_sample_run. cbn [snd].
  cbn [SerialIO.sample_counter_id SerialIO.set_timer_reads].
  split; [|split].
  - intros Hdemo ds e rxb Hds He Hrxb.
    destruct (decide (sensorId sensor = SerialIO.sample_counter_id s)); cbn; rewrite Hdemo;
      (erewrite send_demo_run; [|exact Hds|exact He|exact Hrxb]);
      eexists; (split; [reflexivity|]); cbn; done.
  - intros Hdemo Hconn.
    destruct (decide (sensorId sensor = SerialIO.sample_counter_id s)); cbn; rewrite Hdemo;
      rewrite send_live_run; cbn; rewrite Hconn;
      eexists; (split; [reflexivity|]); cbn; done.
  - intros Hdemo Hconn.
    destruct (decide (sensorId sensor = SerialIO.sample_counter_id s)); cbn; rewrite Hdemo;
      rewrite send_live_run; cbn; rewrite Hconn;
      eexists; (split; [reflexivity|]); cbn; done.
Qed.

Lemma poll_due_sensor_witness :
  ∃ s' d,
    SerialIO.poll_sensor Fixtures.cfg_rpm Fixtures.seconds Fixtures.rpm
      (Fixtures.polling Fixtures.cfg_rpm) = (Ok tt, s') ∧
    SerialIO.receiveQueue s' = [d] ∧ d1 d = "RPM" ∧
    SerialIO.sensor_timer s' !! "RPM"
    = Some (Fixtures.seconds (Nat.pred (SerialIO.timer_reads s'))).
Proof.
  pose (s := Fixtures.polling Fixtures.cfg_rpm).
  pose (ds := default ∅ (SerialIO.demo_sensor s)).
  pose (e := default {| SerialIO.demo_data_idx := 0; SerialIO.demo_data := [] |}
               (ds !! "RPM")).
  pose (rxb := match py_getitem (SerialIO.demo_data e) (SerialIO.demo_data_idx e) with
               | Ok x => x | Raise _ => Qc_of_Z 0 end).
  destruct (poll_due_sensor Fixtures.cfg_rpm Fixtures.seconds Fixtures.rpm s
              (Fixtures.seconds 0)) as (Hdemo & _ & _).
  - vm_compute. reflexivity.
  - apply (bool_decide_unpack _). vm_compute. reflexivity.
  - destruct (Hdemo eq_refl ds e rxb) as (s' & Hrun & Hq & Ht).
    + vm_compute. reflexivity.
    + vm_compute. reflexivity.
    + vm_compute. reflexivity.
    + exists s'. eexists. split; [exact Hrun|].
      split; [exact Hq|]. split; [reflexivity|].
      rewrite Ht. apply lookup_insert_eq.
Defined.

(** C6 as stated fails in the third branch: in live mode without a
    connection a due sensor emits nothing and its timer keeps the old
    reading, though the clock has moved on; the sensor is due again in the
    next round. *)
Lemma poll_due_sensor_counterexample :
  let s := Fixtures.polling Fixtures.cfg_live in
  SerialIO.SERIALIO_DEMO s = false ∧ SerialIO.connected s = false ∧
  SerialIO.sensor_timer s !! "RPM" = Some (Fixtures.seconds 0) ∧
  (refresh Fixtures.rpm ≤ Fixtures.seconds (SerialIO.timer_reads s) - Fixtures.seconds 0)%Qc ∧
  ∃ s',
    SerialIO.poll_sensor Fixtures.cfg_live Fixtures.seconds Fixtures.rpm s = (Ok tt, s') ∧
    SerialIO.receiveQueue s' = [] ∧
    SerialIO.sensor_timer s' !! "RPM" = Some (Fixtures.seconds 0) ∧
    Nat.pred (SerialIO.timer_reads s') = 2%nat ∧
    Fixtures.seconds 0 ≠ Fixtures.seconds (Nat.pred (SerialIO.timer_reads s')).
Proof.
  cbn zeta. split; [vm_compute; reflexivity|]. split; [vm_compute; reflexivity|].
  split; [vm_compute; reflexivity|].
  split; [apply (bool_decide_unpack _); vm_compute; reflexivity|].
  eexists. split; [vm_compute; reflexivity|].
  split; [vm_compute; reflexivity|]. split; [vm_compute; reflexivity|].
  split; [vm_compute; reflexivity|].
  cbn [SerialIO.timer_reads Nat.pred]. unfold Fixtures.seconds.
  intros H%Z2Qc_inj. discriminate.
Qed.

(** ** The acquisition loop: the pacing sensor *)

Section Pacing.
Context (cfg : settings.t) (isMine : ControlData → Z → bool)
        (default_timer : nat → Qc).
Import SerialIO.
Local Open Scope Qc_scope.

Lemma pick_skip acc l :
  (∀ x, x ∈ l → acc.1 ≤ refresh x) → foldl Ramp.pick acc l = acc.
Proof.
  induction l as [|y l IH]; intros Hl; [done|].
  cbn [foldl]. unfold Ramp.pick at 2.
  rewrite decide_False.
  - apply IH. intros x Hx. apply Hl. by apply list_elem_of_further.
  - apply Qcle_not_lt, Hl, list_elem_of_here.
Qed.

Lemma pick_above r l : ∀ acc,
  (∀ x, x ∈ l → r < refresh x) → r < acc.1 → r < (foldl Ramp.pick acc l).1.
Proof.
  induction l as [|y l IH]; intros acc Hl Hacc; [done|].
  cbn [foldl]. apply IH.
  - intros x Hx. apply Hl. by apply list_elem_of_further.
  - unfold Ramp.pick. case_decide; [|done]. apply Hl, list_elem_of_here.
Qed.

(** The fold ends on the first sensor of minimal refresh interval, if that
    interval is below the rate the fold starts from. *)
Lemma pick_first_min acc pre p post :
  (∀ x, x ∈ pre → refresh p < refresh x) →
  (∀ x, x ∈ post → refresh p ≤ refresh x) →
  refresh p < acc.1 →
  foldl Ramp.pick acc (pre ++ p :: post) = (refresh p, sensorId p).
Proof.
  intros Hpre Hpost Hacc. rewrite foldl_app. cbn [foldl].
  pose proof (pick_above (refresh p) pre acc Hpre Hacc) as Hlt.
  unfold Ramp.pick at 2. rewrite decide_True by done.
  by apply pick_skip.
Qed.

Lemma find_rate_body_run x s :
  find_rate_body x s =
  (Ok tt,
   set_highest_sample_rate (Ramp.pick (highest_sample_rate s, sample_counter_id s) x).1
     (set_sample_counter_id
        (Ramp.pick (highest_sample_rate s, sample_counter_id s) x).2 s)).
Proof.
  unfold find_rate_body, Ramp.pick, mbind, M_bind, bind, get. cbn.
  case_decide; [done|]. by destruct s.
Qed.

Lemma find_rate_loop_run l : ∀ s,
  for_each l find_rate_body s =
  (Ok tt,
   set_highest_sample_rate
     (foldl Ramp.pick (highest_sample_rate s, sample_counter_id s) l).1
     (set_sample_counter_id
        (foldl Ramp.pick (highest_sample_rate s, sample_counter_id s) l).2 s)).
Proof.
  induction l as [|x l IH]; intros s; [by destruct s|].
  cbn [for_each foldl]. erewrite bind_Ok by apply find_rate_body_run.
  rewrite IH. cbn. by destruct (Ramp.pick _ x).
Qed.

(** Lines 83-90 in closed form. *)
Lemma find_highest_sample_rate_run s :
  let best := foldl Ramp.pick (Qc_of_Z 99, "") (settings.SENSORS cfg) in
  find_highest_sample_rate cfg s =
  (if decide (best.1 = Qc_of_Z 0) then Raise ZeroDivisionError else Ok tt,
   set_highest_sample_rate best.1 (set_sample_counter_id best.2 s)).
Proof.
  cbn zeta. unfold find_highest_sample_rate.
  erewrite bind_Ok by reflexivity. erewrite bind_Ok by reflexivity.
  erewrite bind_Ok by apply find_rate_loop_run.
  unfold mbind, M_bind, bind, get. cbn.
  by case_decide.
Qed.

(** If some refresh interval is below 99 and the smallest is not 0, the
    search returns and [sample_counter_id] is the id of the first sensor
    of minimal refresh interval. *)
Lemma pacing_sensor_found s pre p post :
  settings.SENSORS cfg = pre ++ p :: post →
  (∀ x, x ∈ pre → refresh p < refresh x) →
  (∀ x, x ∈ post → refresh p ≤ refresh x) →
  refresh p < Qc_of_Z 99 → refresh p ≠ Qc_of_Z 0 →
  ∃ s', find_highest_sample_rate cfg s = (Ok tt, s') ∧
        sample_counter_id s' = sensorId p ∧
        highest_sample_rate s' = refresh p.
Proof.
  intros HS Hpre Hpost H99 H0. rewrite find_highest_sample_rate_run. cbn zeta.
  rewrite HS, pick_first_min by done. cbn [fst snd].
  rewrite decide_False by done. eexists. split; [reflexivity|]. done.
Qed.

(** If no refresh interval is below 99, no sensor is chosen. *)
Lemma pacing_sensor_missed s :
  (∀ x, x ∈ settings.SENSORS cfg → Qc_of_Z 99 ≤ refresh x) →
  ∃ s', find_highest_sample_rate cfg s = (Ok tt, s') ∧
        sample_counter_id s' = "" ∧
        highest_sample_rate s' = Qc_of_Z 99.
Proof.
  intros Hall. rewrite find_highest_sample_rate_run. cbn zeta.
  rewrite pick_skip by done. cbn [fst snd].
  rewrite decide_False by (by intros ?%Z2Qc_inj).
  eexists. split; [reflexivity|]. done.
Qed.

End Pacing.

(** ** The acquisition loop: the sample counter *)

Section Counter.
Context (cfg : settings.t) (isMine : ControlData → Z → bool)
        (default_timer : nat → Qc).
Import SerialIO.
Local Open Scope Qc_scope.

(** When the demo branch returns, it has found the entry and the value. *)
Lemma send_demo_inv x s s' :
  send_demo cfg default_timer x s = (Ok tt, s') →
  ∃ ds e rxb,
    demo_sensor s = Some ds ∧ ds !! sensorId x = Some e ∧
    py_getitem (demo_data e) (demo_data_idx e) = Ok rxb.
Proof.
  unfold send_demo, mbind, M_bind, bind, get. cbn.
  destruct (demo_sensor s) as [ds|] eqn:Hds; [|done].
  unfold lookup_key. destruct (ds !! sensorId x) as [e|] eqn:He; [|done].
  cbn. unfold lift.
  destruct (py_getitem (demo_data e) (demo_data_idx e)) as [rxb|] eqn:Hrxb; [|done].
  intros _. by exists ds, e, rxb.
Qed.

(** What polling one sensor does to the counter, the pacing id, the mode
    and the timers of the other sensors. *)
Lemma poll_sensor_counter x s s' :
  poll_sensor cfg default_timer x s = (Ok tt, s') →
  sample_counter_id s' = sample_counter_id s ∧
  SERIALIO_DEMO s' = SERIALIO_DEMO s ∧
  connected s' = connected s ∧
  (∀ k, k ≠ sensorId x → sensor_timer s' !! k = sensor_timer s !! k) ∧
  ∃ last,
    sensor_timer s !! sensorId x = Some last ∧
    counter s' =
      if decide (sensorId x = sample_counter_id s ∧
                 refresh x ≤ default_timer (timer_reads s) - last)
      then (counter s + 1)%Z else counter s.
Proof.
  destruct (sensor_timer s !! sensorId x) as [last|] eqn:Hlast;
    [|by rewrite poll_sensor_KeyError].
  rewrite (poll_sensor_run cfg default_timer x s last Hlast). cbn zeta.
  destruct (decide (refresh x ≤ default_timer (timer_reads s) - last)) as [Hdue|Hnot].
  - rewrite count_sample_run. cbn [snd sample_counter_id set_timer_reads].
    destruct (decide (sensorId x = sample_counter_id s)) as [Hid|Hid]; cbn;
      destruct (SERIALIO_DEMO s) eqn:Hdemo.
    + intros Hrun. destruct (send_demo_inv _ _ _ Hrun) as (ds & e & rxb & Hds & He & Hrxb).
      erewrite send_demo_run in Hrun by done. injection Hrun as <-. cbn.
      repeat split; try done.
      * intros k Hk. by rewrite lookup_insert_ne.
      * exists last. split; [done|]. by rewrite decide_True.
    + rewrite send_live_run. cbn. intros [= <-].
      destruct (connected s) eqn:Hconn; cbn; repeat split; try done.
      * intros k Hk. by rewrite lookup_insert_ne.
      * exists last. split; [done|]. by rewrite decide_True.
      * exists last. split; [done|]. by rewrite decide_True.
    + intros Hrun. destruct (send_demo_inv _ _ _ Hrun) as (ds & e & rxb & Hds & He & Hrxb).
      erewrite send_demo_run in Hrun by done. injection Hrun as <-. cbn.
      repeat split; try done.
      * intros k Hk. by rewrite lookup_insert_ne.
      * exists last. split; [done|]. rewrite decide_False; [done|]. by intros [? _].
    + rewrite send_live_run. cbn. intros [= <-].
      destruct (connected s) eqn:Hconn; cbn; repeat split; try done.
      * intros k Hk. by rewrite lookup_insert_ne.
      * exists last. split; [done|]. rewrite decide_False; [done|]. by intros [? _].
      * exists last. split; [done|]. rewrite decide_False; [done|]. by intros [? _].
  - intros [= <-]. cbn. repeat split; try done.
    exists last. split; [done|]. rewrite decide_False; [done|]. by intros [_ ?].
Qed.

(** Sensors other than the pacing one leave the counter alone, however
    many of them fire. *)
Lemma poll_others_counter l : ∀ s s',
  for_each l (poll_sensor cfg default_timer) s = (Ok tt, s') →
  sample_counter_id s ∉ sensorId <$> l →
  counter s' = counter s ∧
  sample_counter_id s' = sample_counter_id s ∧
  ∀ k, k ∉ sensorId <$> l → sensor_timer s' !! k = sensor_timer s !! k.
Proof.
  induction l as [|x l IH]; intros s s' Hrun Hnotin.
  - injection Hrun as <-. done.
  - cbn [for_each] in Hrun. apply bind_Ok_inv in Hrun as ([] & s1 & Hx & Hl).
    rewrite fmap_cons in Hnotin. apply not_elem_of_cons in Hnotin as [Hne Hnotin].
    destruct (poll_sensor_counter x s s1 Hx) as (Hid & _ & _ & Ht & last & _ & Hc).
    rewrite decide_False in Hc by (intros [? _]; congruence).
    destruct (IH s1 s' Hl) as (Hc' & Hid' & Ht'); [by rewrite Hid|].
    split; [congruence|]. split; [congruence|].
    intros k Hk. rewrite fmap_cons in Hk. apply not_elem_of_cons in Hk as [Hk1 Hk2].
    rewrite Ht' by done. by apply Ht.
Qed.

(** One pass over a registry with unique ids changes the counter by the
    pacing sensor alone: by one if its timer has expired when it is
    polled, not at all otherwise. *)
Lemma poll_sensors_counter pre p post s s' :
  NoDup (sensorId <$> pre ++ p :: post) →
  sensorId p = sample_counter_id s →
  for_each (pre ++ p :: post) (poll_sensor cfg default_timer) s = (Ok tt, s') →
  ∃ s1 last,
    for_each pre (poll_sensor cfg default_timer) s = (Ok tt, s1) ∧
    sensor_timer s1 !! sensorId p = Some last ∧
    sensor_timer s !! sensorId p = Some last ∧
    counter s' =
      if decide (refresh p ≤ default_timer (timer_reads s1) - last)
      then (counter s + 1)%Z else counter s.
Proof.
  intros Hnd Hp Hrun.
  rewrite fmap_app, fmap_cons in Hnd.
  apply list.NoDup_app in Hnd as (_ & Hpre & Hnd).
  pose proof (NoDup_cons_1_1 _ _ Hnd) as Hpost.
  rewrite for_each_app in Hrun.
  destruct (for_each pre _ s) as [[[]|e] s1] eqn:Hs1; [|done].
  cbn [for_each] in Hrun. apply bind_Ok_inv in Hrun as ([] & s2 & Hx & Hl).
  destruct (poll_others_counter pre s s1 Hs1) as (Hc1 & Hid1 & Ht1).
  { rewrite <- Hp. intros Hin. apply (Hpre _ Hin), list_elem_of_here. }
  destruct (poll_sensor_counter p s1 s2 Hx) as (Hid2 & _ & _ & _ & last & Hlast & Hc2).
  destruct (poll_others_counter post s2 s' Hl) as (Hc3 & _ & _).
  { by rewrite Hid2, Hid1, <- Hp. }
  exists s1, last. split; [done|]. split; [done|]. split.
  - rewrite <- Ht1; [done|]. intros Hin.
    apply (Hpre _ Hin), list_elem_of_here.
  - rewrite Hc3, Hc2, Hc1.
    destruct (decide (refresh p ≤ default_timer (timer_reads s1) - last)).
    + rewrite decide_True; [done|]. split; [congruence|done].
    + rewrite decide_False; [done|]. by intros [_ ?].
Qed.

End Counter.

(** ** The acquisition loop: control messages and whole rounds *)

Section Round.
Context (cfg : settings.t) (isMine : ControlData → Z → bool)
        (default_timer : nat → Qc).
Import SerialIO.
Local Open Scope Qc_scope.

Lemma control_step_nil s :
  controlQueue s = [] → control_step cfg isMine s = (Ok tt, s).
Proof.
  intros Hq. unfold control_step, mbind, M_bind, bind, get. cbn. by rewrite Hq.
Qed.

(** Lines 118-140 in closed form. *)
Lemma control_step_cons s cdata rest :
  controlQueue s = cdata :: rest →
  control_step cfg isMine s =
  let s1 := set_controlQueue rest s in
  if isMine cdata (myButtonId cfg) && button cdata
     && bool_decide (duration cdata = settings.BUTTON_SHORT cfg)
  then
    if SERIALIO_DEMO s then (Ok tt, set_SERIALIO_DEMO false s1)
    else match setupDemoSensors cfg with
         | Ok ds => (Ok tt, set_demo_sensor (Some ds) (set_SERIALIO_DEMO true s1))
         | Raise e => (Raise e, set_SERIALIO_DEMO true s1)
         end
  else (Ok tt, s1).
Proof.
  intros Hq. unfold control_step, mbind, M_bind, bind, get. cbn. rewrite Hq. cbn.
  destruct (isMine cdata (myButtonId cfg)); [|done].
  destruct (button cdata); [|done]. cbn.
  destruct (bool_decide (duration cdata = settings.BUTTON_SHORT cfg)); [|done].
  destruct (SERIALIO_DEMO s); [done|]. cbn. unfold lift.
  by destruct (setupDemoSensors cfg).
Qed.

Lemma control_step_same_sampling s r s' :
  control_step cfg isMine s = (r, s') →
  Cursor.same_sampling s s' ∧ timer_reads s' = timer_reads s.
Proof.
  destruct (controlQueue s) as [|cdata rest] eqn:Hq.
  - rewrite control_step_nil by done. by intros [= <- <-].
  - rewrite (control_step_cons s cdata rest Hq). cbn zeta.
    repeat case_match; by intros [= <- <-].
Qed.

Lemma listen_same_sampling s r s' :
  listen cfg isMine default_timer s = (r, s') →
  Cursor.same_sampling s s' ∧ timer_reads s' = S (timer_reads s).
Proof.
  unfold listen.
  unfold mbind at 1, M_bind at 1, bind at 1. cbn [modify].
  unfold mbind at 1, M_bind at 1, bind at 1. rewrite read_timer_run.
  unfold mbind at 1, M_bind at 1, bind at 1. cbn [modify].
  unfold mbind at 1, M_bind at 1, bind at 1.
  destruct (control_step _ _ _) as [[[]|e] s1] eqn:Hc;
    apply control_step_same_sampling in Hc as (Hs & Ht); cbn in Hs, Ht.
  - unfold transmit_step, mbind, M_bind, bind, get. cbn.
    destruct Hs as (? & ? & ? & ? & ?).
    destruct (transmitQueue s1); intros [= <- <-]; by cbn.
  - by intros [= <- <-].
Qed.

(** The pacing id is fixed once the loop runs. *)
Lemma poll_sensors_pacing_id l : ∀ s s',
  for_each l (poll_sensor cfg default_timer) s = (Ok tt, s') →
  sample_counter_id s' = sample_counter_id s.
Proof.
  induction l as [|x l IH]; intros s s' Hrun.
  - by injection Hrun as <-.
  - cbn [for_each] in Hrun. apply bind_Ok_inv in Hrun as ([] & s1 & Hx & Hl).
    apply poll_sensor_counter in Hx as (Hid & _). rewrite (IH _ _ Hl). done.
Qed.

Lemma tick_pacing_id s s' :
  tick cfg isMine default_timer s = (Ok tt, s') →
  sample_counter_id s' = sample_counter_id s.
Proof.
  unfold tick. intros Hrun. apply bind_Ok_inv in Hrun as ([] & s0 & Hl & Hp).
  apply listen_same_sampling in Hl as ((_ & Hid & _) & _).
  apply poll_sensors_pacing_id in Hp. congruence.
Qed.

(** A round on a registry with unique ids: the counter goes up by one if
    the pacing sensor's timer has expired when that sensor is polled, and
    stays otherwise, whatever the other sensors do. *)
Lemma round_counter pre p post s s' :
  settings.SENSORS cfg = pre ++ p :: post →
  NoDup (sensorId <$> settings.SENSORS cfg) →
  sensorId p = sample_counter_id s →
  tick cfg isMine default_timer s = (Ok tt, s') →
  ∃ s0 s1 last,
    listen cfg isMine default_timer s = (Ok tt, s0) ∧
    for_each pre (poll_sensor cfg default_timer) s0 = (Ok tt, s1) ∧
    sensor_timer s !! sensorId p = Some last ∧
    counter s' =
      if decide (refresh p ≤ default_timer (timer_reads s1) - last)
      then (counter s + 1)%Z else counter s.
Proof.
  intros HS Hnd Hp Hrun. unfold tick in Hrun.
  apply bind_Ok_inv in Hrun as ([] & s0 & Hl & Hpoll).
  pose proof (listen_same_sampling _ _ _ Hl) as ((Hc & Hid & Ht & _) & _).
  unfold poll_sensors in Hpoll. rewrite HS in Hpoll, Hnd.
  destruct (poll_sensors_counter cfg default_timer pre p post s0 s' Hnd)
    as (s1 & last & Hs1 & _ & Hlast & Hcount); [congruence|done|].
  exists s0, s1, last. split; [done|]. split; [done|].
  split; [by rewrite <- Ht|]. by rewrite <- Hc.
Qed.

End Round.

(** ** The acquisition loop: initialisation *)

Section Init.
Context (cfg : settings.t) (isMine : ControlData → Z → bool)
        (default_timer : nat → Qc).
Import SerialIO.
Local Open Scope Qc_scope.

(** Lines 94-96: every sensor of the list gets a timer; nothing else but
    the clock changes. *)
Lemma reset_loop_run l : ∀ s,
  ∃ m n,
    for_each l (λ sensor,
      now ← read_timer default_timer ;
      s ← get ;
      modify (set_sensor_timer (<[sensorId sensor := now]> (sensor_timer s)))) s
    = (Ok tt, set_sensor_timer m (set_timer_reads n s)) ∧
    (∀ x, x ∈ l → is_Some (m !! sensorId x)) ∧
    (∀ k, is_Some (sensor_timer s !! k) → is_Some (m !! k)).
Proof.
  induction l as [|x l IH]; intros s.
  - exists (sensor_timer s), (timer_reads s). split; [by destruct s|].
    split; [|done]. intros x Hx. by apply elem_of_nil in Hx.
  - cbn [for_each].
    set (s1 := set_sensor_timer
                 (<[sensorId x := default_timer (timer_reads s)]> (sensor_timer s))
                 (set_timer_reads (S (timer_reads s)) s)).
    destruct (IH s1) as (m & n & Hrun & Hin & Hkeep).
    exists m, n. split; [|split].
    + rewrite (bind_Ok _ _ s tt s1) by reflexivity. rewrite Hrun. done.
    + intros y Hy. apply elem_of_cons in Hy as [->|Hy]; [|by apply Hin].
      apply Hkeep. cbn. rewrite lookup_insert_eq. by eexists.
    + intros k Hk. apply Hkeep. cbn.
      destruct (decide (sensorId x = k)) as [->|Hne].
      * rewrite lookup_insert_eq. by eexists.
      * by rewrite lookup_insert_ne.
Qed.

(** The state the initialisation leaves, when it returns. *)
Lemma init_inv s s' :
  init cfg default_timer s = (Ok tt, s') →
  SERIALIO_DEMO s' = settings.SERIALIO_DEMO cfg ∧
  connected s' = false ∧ counter s' = 0%Z ∧
  receiveQueue s' = receiveQueue s ∧ controlQueue s' = controlQueue s ∧
  (highest_sample_rate s', sample_counter_id s')
  = foldl Ramp.pick (Qc_of_Z 99, "") (settings.SENSORS cfg) ∧
  (∀ x, x ∈ settings.SENSORS cfg → is_Some (sensor_timer s' !! sensorId x)) ∧
  (settings.SERIALIO_DEMO cfg = true →
   ∃ ds, setupDemoSensors cfg = Ok ds ∧ demo_sensor s' = Some ds).
Proof.
  unfold init. intros H.
  apply bind_Ok_inv in H as ([] & s1 & H1 & H).
  apply bind_Ok_inv in H as ([] & s2 & [= <-] & H).
  apply bind_Ok_inv in H as ([] & s3 & H3 & H).
  apply bind_Ok_inv in H as ([] & s4 & H4 & [= <-]).
  rewrite find_highest_sample_rate_run in H3. cbn zeta in H3.
  injection H3 as _ <-.
  unfold reset_timers in H4. apply bind_Ok_inv in H4 as ([] & s5 & [= <-] & H4).
  match type of H4 with for_each _ _ ?s0 = _ =>
    destruct (reset_loop_run (settings.SENSORS cfg) s0) as (m & n & Hrun & Hin & _)
  end.
  rewrite Hrun in H4. injection H4 as <-. cbn.
  assert (Hdemo : SERIALIO_DEMO s1 = settings.SERIALIO_DEMO cfg ∧
                  receiveQueue s1 = receiveQueue s ∧ controlQueue s1 = controlQueue s ∧
                  (settings.SERIALIO_DEMO cfg = true →
                   ∃ ds, setupDemoSensors cfg = Ok ds ∧ demo_sensor s1 = Some ds)).
  { unfold init_demo in H1. destruct (settings.SERIALIO_DEMO cfg).
    - apply bind_Ok_inv in H1 as ([] & sa & [= <-] & H1).
      apply bind_Ok_inv in H1 as (ds & sb & Hds & [= <-]).
      unfold lift in Hds. injection Hds as Hds <-. cbn.
      repeat split; try done. intros _. by exists ds.
    - injection H1 as <-. cbn. repeat split; try done. }
  destruct Hdemo as (Hd & Hrq & Hcq & Hds).
  repeat split; try done.
  by destruct (foldl Ramp.pick _ _).
Qed.

End Init.

(** ** The pacing sensor over a run *)

Lemma loop_pacing_id (cfg : settings.t) (isMine : ControlData → Z → bool)
    (default_timer : nat → Qc) (n : nat) : ∀ s s',
  SerialIO.loop cfg isMine default_timer n s = (Ok tt, s') →
  SerialIO.sample_counter_id s' = SerialIO.sample_counter_id s.
Proof.
  induction n as [|n IH]; intros s s' Hrun.
  - by injection Hrun as <-.
  - cbn [SerialIO.loop] in Hrun. apply bind_Ok_inv in Hrun as ([] & s1 & Ht & Hl).
    apply tick_pacing_id in Ht. rewrite (IH _ _ Hl). done.
Qed.

(** The claim C1 on the registries the search handles: if the smallest
    refresh interval is below 99 (and the ids are unique), the pacing sensor
    is the first sensor of minimal refresh interval throughout the run, and
    a round adds one to the counter exactly if that sensor's timer has
    expired when it is polled. *)
Lemma pacing_counter (cfg : settings.t) (isMine : ControlData → Z → bool)
    (default_timer : nat → Qc) pre p post tx rx ctl (n : nat) sn s' :
  settings.SENSORS cfg = pre ++ p :: post →
  (∀ x, x ∈ pre → refresh p < refresh x)%Qc →
  (∀ x, x ∈ post → refresh p ≤ refresh x)%Qc →
  (refresh p < Qc_of_Z 99)%Qc →
  NoDup (sensorId <$> settings.SENSORS cfg) →
  SerialIO.SerialIO cfg isMine default_timer n (SerialIO.entry tx rx ctl) = (Ok tt, sn) →
  SerialIO.tick cfg isMine default_timer sn = (Ok tt, s') →
  SerialIO.sample_counter_id sn = sensorId p ∧
  ∃ s0 s1 last,
    SerialIO.listen cfg isMine default_timer sn = (Ok tt, s0) ∧
    for_each pre (SerialIO.poll_sensor cfg default_timer) s0 = (Ok tt, s1) ∧
    SerialIO.sensor_timer sn !! sensorId p = Some last ∧
    SerialIO.counter s' =
      if decide (refresh p ≤ default_timer (SerialIO.timer_reads s1) - last)%Qc
      then SerialIO.counter sn + 1 else SerialIO.counter sn.
Proof.
  intros HS Hpre Hpost H99 Hnd Hrun Htick.
  unfold SerialIO.SerialIO in Hrun.
  apply bind_Ok_inv in Hrun as ([] & si & Hinit & Hloop).
  apply init_inv in Hinit as (_ & _ & _ & _ & _ & Hpick & _).
  rewrite HS, pick_first_min in Hpick by done. injection Hpick as _ Hid.
  apply loop_pacing_id in Hloop. rewrite Hid in Hloop.
  split; [done|].
  by apply (round_counter cfg isMine default_timer pre p post sn s').
Qed.

Lemma pacing_counter_example :
  let s := Fixtures.polling Fixtures.cfg_two in
  SerialIO.sample_counter_id s = "RPM" ∧
  ∃ s', SerialIO.tick Fixtures.cfg_two Fixtures.isMine Fixtures.seconds s = (Ok tt, s') ∧
        SerialIO.counter s = 0 ∧ SerialIO.counter s' = 1 ∧
        length (SerialIO.receiveQueue s') = 2%nat.
Proof.
  cbn zeta. split; [vm_compute; reflexivity|].
  eexists. split; [vm_compute; reflexivity|].
  split; [vm_compute; reflexivity|]. split; vm_compute; reflexivity.
Qed.

(** C1 on a registry the search does not handle.  The only sensor is polled
    every 100 seconds; the search starts from the rate 99 and so chooses no
    sensor ([sample_counter_id] stays empty).  In a round in which the
    sensor's timer has expired, a sample is emitted and the counter stays
    at 0. *)
Theorem pacing_sensor_sentinel :
  let cfg := Fixtures.cfg_slow in
  let s := Fixtures.polling_on Fixtures.minutes cfg in
  settings.SENSORS cfg = [Fixtures.slow] ∧
  SerialIO.init cfg Fixtures.minutes (SerialIO.entry [] [] []) = (Ok tt, s) ∧
  SerialIO.sample_counter_id s = "" ∧
  sensorId Fixtures.slow ≠ SerialIO.sample_counter_id s ∧
  SerialIO.sensor_timer s !! sensorId Fixtures.slow = Some (Fixtures.minutes 0) ∧
  (refresh Fixtures.slow ≤ Fixtures.minutes 2 - Fixtures.minutes 0)%Qc ∧
  ∃ s',
    SerialIO.tick cfg Fixtures.isMine Fixtures.minutes s = (Ok tt, s') ∧
    d1 <$> SerialIO.receiveQueue s' = ["AMAL"] ∧
    SerialIO.counter s = 0 ∧ SerialIO.counter s' = 0.
Proof.
  cbn zeta. split; [reflexivity|]. split; [vm_compute; reflexivity|].
  split; [vm_compute; reflexivity|]. split; [vm_compute; discriminate|].
  split; [vm_compute; reflexivity|].
  split; [apply (bool_decide_unpack _); vm_compute; reflexivity|].
  eexists. split; [vm_compute; reflexivity|].
  split; [vm_compute; reflexivity|]. split; vm_compute; reflexivity.
Qed.

(** ** Demo mode: toggling and the cursor *)

Section Regeneration.
Context (cfg : settings.t) (isMine : ControlData → Z → bool)
        (default_timer : nat → Qc).
Hypothesis Hsteps : 0 < settings.DEMO_STEPS cfg.
Hypothesis Hids : NoDup (sensorId <$> settings.SENSORS cfg).
Import SerialIO Cursor.
Local Open Scope Qc_scope.

(** The index-0 value of a generated sequence is [minValue]. *)
Lemma demo_entry_of_index0 x :
  demo_data (Ramp.demo_entry_of cfg x) !! 0%nat = Some (minValue x) ∧
  py_getitem (demo_data (Ramp.demo_entry_of cfg x))
             (demo_data_idx (Ramp.demo_entry_of cfg x)) = Ok (minValue x).
Proof.
  assert (H0 : demo_data (Ramp.demo_entry_of cfg x) !! 0%nat = Some (minValue x)).
  { unfold Ramp.demo_entry_of. cbn [demo_data].
    destruct (Z.to_nat (settings.DEMO_STEPS cfg)) as [|n] eqn:En; [lia|].
    rewrite ascending_S. cbn. done. }
  split; [done|]. by apply py_getitem_lookup.
Qed.

(** What polling one sensor emits and does to the demo data. *)
Lemma poll_sensor_out y s s' :
  poll_sensor cfg default_timer y s = (Ok tt, s') →
  (receiveQueue s' = receiveQueue s ∧ demo_sensor s' = demo_sensor s) ∨
  (∃ d, receiveQueue s' = receiveQueue s ++ [d] ∧ d1 d = sensorId y ∧
        ((d2 d = VStr "0x0" ∧ demo_sensor s' = demo_sensor s) ∨
         (∃ ds e rxb,
            demo_sensor s = Some ds ∧ ds !! sensorId y = Some e ∧
            py_getitem (demo_data e) (demo_data_idx e) = Ok rxb ∧
            d2 d = VFloat rxb ∧
            demo_sensor s' =
              Some (<[sensorId y :=
                        set_demo_data_idx (advance_idx cfg (demo_data_idx e)) e]> ds)))).
Proof.
  destruct (sensor_timer s !! sensorId y) as [last|] eqn:Hlast;
    [|by rewrite poll_sensor_KeyError].
  rewrite (poll_sensor_run cfg default_timer y s last Hlast). cbn zeta.
  case_decide; [|intros [= <-]; by left].
  rewrite count_sample_run. cbn [snd sample_counter_id set_timer_reads].
  set (s2 := if decide (sensorId y = sample_counter_id s) then _ else _).
  assert (Hs2 : SERIALIO_DEMO s2 = SERIALIO_DEMO s ∧ demo_sensor s2 = demo_sensor s ∧
                receiveQueue s2 = receiveQueue s ∧ connected s2 = connected s).
  { unfold s2. by case_decide. }
  destruct Hs2 as (Hd2 & Hds2 & Hq2 & Hc2). clearbody s2.
  destruct (SERIALIO_DEMO s2) eqn:Hdemo.
  - intros Hrun. destruct (send_demo_inv _ _ _ _ _ Hrun) as (ds & e & rxb & Hds & He & Hrxb).
    erewrite send_demo_run in Hrun by done. injection Hrun as <-. cbn.
    right. eexists. split; [by rewrite Hq2|]. split; [done|].
    right. exists ds, e, rxb. rewrite <- Hds2. done.
  - rewrite send_live_run. intros [= <-]. destruct (connected s2).
    + cbn. right. eexists. split; [by rewrite Hq2|]. split; [done|]. by left.
    + by left.
Qed.

(** Polling a sensor leaves the entries of the other ids alone. *)
Lemma poll_sensor_fresh_other x y s s' :
  poll_sensor cfg default_timer y s = (Ok tt, s') →
  sensorId x ≠ sensorId y → fresh cfg x s → fresh cfg x s'.
Proof.
  intros Hrun Hne (ds & Hds & Hx).
  destruct (poll_sensor_out y s s' Hrun)
    as [[_ H]|(d & _ & _ & [[_ H]|(ds' & e & rxb & Hds' & _ & _ & _ & H)])].
  - exists ds. by rewrite H.
  - exists ds. by rewrite H.
  - eexists. split; [exact H|]. rewrite lookup_insert_ne by done. congruence.
Qed.

Lemma silent_app x out out' :
  silent x (out ++ out') ↔ silent x out ∧ silent x out'.
Proof.
  unfold silent. split.
  - intros H. split; intros d Hd; apply H, elem_of_app; auto.
  - intros [H1 H2] d Hd. apply elem_of_app in Hd as [Hd|Hd]; auto.
Qed.

(** A decomposition of a list extended at its end. *)
Lemma snoc_split {A} (out before after : list A) (d d' : A) :
  out ++ [d] = before ++ d' :: after →
  (after = [] ∧ before = out ∧ d' = d) ∨
  (∃ after', after = after' ++ [d] ∧ out = before ++ d' :: after').
Proof.
  destruct after as [|a after _] using rev_ind; intros H.
  - left. apply (app_inj_tail out before d d') in H as [-> ->]. done.
  - right. exists after. rewrite app_comm_cons, app_assoc in H.
    apply app_inj_tail in H as [-> ->]. done.
Qed.

(** The three ways a step extends the samples since a regeneration. *)
Lemma since_same x s s' out :
  (fresh cfg x s → fresh cfg x s') →
  since_regeneration cfg x s out → since_regeneration cfg x s' out.
Proof. intros Hf [H1 H2]. split; [done|]. auto. Qed.

Lemma since_snoc_other x s s' out d :
  (fresh cfg x s → fresh cfg x s') →
  ¬ (d1 d = sensorId x ∧ is_demo d) →
  since_regeneration cfg x s out → since_regeneration cfg x s' (out ++ [d]).
Proof.
  intros Hf Hd [H1 H2]. split.
  - intros before d' after Heq Hsil Hid Hdemo.
    apply snoc_split in Heq as [(-> & -> & ->)|(after' & -> & ->)].
    + destruct Hd. done.
    + by eapply H1.
  - intros Hsil. apply silent_app in Hsil as [Hsil _]. auto.
Qed.

Lemma since_snoc_first x s s' out d :
  d1 d = sensorId x → is_demo d →
  (silent x out → d2 d = VFloat (minValue x)) →
  since_regeneration cfg x s out → since_regeneration cfg x s' (out ++ [d]).
Proof.
  intros Hid Hdemo Hval [H1 H2]. split.
  - intros before d' after Heq Hsil Hid' Hdemo'.
    apply snoc_split in Heq as [(-> & -> & ->)|(after' & -> & ->)].
    + auto.
    + by eapply H1.
  - intros Hsil. apply silent_app in Hsil as [_ Hsil].
    destruct (Hsil d); [apply list_elem_of_here|done|done].
Qed.

(** [since_regeneration] through the poll of one sensor. *)
Lemma poll_sensor_since y s s' :
  poll_sensor cfg default_timer y s = (Ok tt, s') →
  ∃ out', receiveQueue s' = receiveQueue s ++ out' ∧
          ∀ x out, since_regeneration cfg x s out →
                   since_regeneration cfg x s' (out ++ out').
Proof.
  intros Hrun.
  destruct (poll_sensor_out y s s' Hrun)
    as [[Hq H]|(d & Hq & Hid & [[Hv H]|(ds & e & rxb & Hds & He & Hrxb & Hv & H)])].
  - exists []. split; [by rewrite app_nil_r|]. intros x out. rewrite app_nil_r.
    apply since_same. intros (ds & Hds & Hx). exists ds. by rewrite H.
  - exists [d]. split; [done|]. intros x out. apply since_snoc_other.
    + intros (ds & Hds & Hx). exists ds. by rewrite H.
    + intros [_ [q Hq']]. congruence.
  - exists [d]. split; [done|]. intros x out.
    destruct (decide (sensorId x = sensorId y)) as [Heq|Hne].
    + intros Hsince. eapply since_snoc_first; [congruence|by exists rxb| |exact Hsince].
      intros Hsil. destruct Hsince as [_ Hfresh].
      destruct (Hfresh Hsil) as (ds0 & Hds0 & Hx).
      assert (ds0 = ds) as -> by congruence.
      assert (e = Ramp.demo_entry_of cfg x) as -> by congruence.
      destruct (demo_entry_of_index0 x) as [_ H0]. congruence.
    + apply since_snoc_other.
      * by apply (poll_sensor_fresh_other x y s s').
      * intros [Hid' _]. congruence.
Qed.

Lemma poll_sensors_since l : ∀ s s',
  for_each l (poll_sensor cfg default_timer) s = (Ok tt, s') →
  ∃ out', receiveQueue s' = receiveQueue s ++ out' ∧
          ∀ x out, since_regeneration cfg x s out →
                   since_regeneration cfg x s' (out ++ out').
Proof.
  induction l as [|y l IH]; intros s s' Hrun.
  - injection Hrun as <-. exists []. split; [by rewrite app_nil_r|].
    intros x out. by rewrite app_nil_r.
  - cbn [for_each] in Hrun. apply bind_Ok_inv in Hrun as ([] & s1 & Hy & Hl).
    destruct (poll_sensor_since y s s1 Hy) as (o1 & Hq1 & H1).
    destruct (IH s1 s' Hl) as (o2 & Hq2 & H2).
    exists (o1 ++ o2). split; [by rewrite Hq2, Hq1, app_assoc|].
    intros x out Hout. rewrite app_assoc. auto.
Qed.

End Regeneration.

Section Toggle.
Context (cfg : settings.t) (isMine : ControlData → Z → bool)
        (default_timer : nat → Qc).
Hypothesis Hsteps : 0 < settings.DEMO_STEPS cfg.
Hypothesis Hids : NoDup (sensorId <$> settings.SENSORS cfg).
Import SerialIO Cursor.
Local Open Scope Qc_scope.

(** After a regeneration every sensor of the registry is fresh. *)
Lemma regenerated_fresh ds s x :
  setupDemoSensors cfg = Ok ds → demo_sensor s = Some ds →
  x ∈ settings.SENSORS cfg → fresh cfg x s.
Proof.
  intros Hds Hs Hx.
  destruct (setupDemoSensors_lookup cfg x) as (ds' & Hds' & He); [lia|done..|].
  exists ds. split; [done|]. congruence.
Qed.

Lemma setupDemoSensors_returns : ∃ ds, setupDemoSensors cfg = Ok ds.
Proof.
  unfold setupDemoSensors. rewrite setup_sensors_Ok by lia. by eexists.
Qed.

(** A control message leaves the emitted samples alone and keeps a fresh
    sensor fresh: it either leaves the demo data or regenerates it. *)
Lemma control_step_since x s s' out :
  x ∈ settings.SENSORS cfg →
  control_step cfg isMine s = (Ok tt, s') →
  receiveQueue s' = receiveQueue s ∧
  (since_regeneration cfg x s out → since_regeneration cfg x s' out).
Proof.
  intros Hx Hrun.
  destruct (control_step_same_sampling cfg isMine s _ s' Hrun) as ((_ & _ & _ & _ & Hq) & _).
  split; [done|]. apply since_same.
  destruct (controlQueue s) as [|cdata rest] eqn:Hcq.
  - rewrite control_step_nil in Hrun by done. by injection Hrun as <-.
  - rewrite (control_step_cons cfg isMine s cdata rest Hcq) in Hrun. cbn zeta in Hrun.
    destruct (_ && _ && _).
    + destruct (SERIALIO_DEMO s).
      * injection Hrun as <-. intros (ds & Hds & He). by exists ds.
      * destruct (setupDemoSensors cfg) as [ds|] eqn:Hds; [|done].
        injection Hrun as <-. intros _. by eapply regenerated_fresh.
    + injection Hrun as <-. intros (ds & Hds & He). by exists ds.
Qed.

Lemma listen_since x s s' out :
  x ∈ settings.SENSORS cfg →
  listen cfg isMine default_timer s = (Ok tt, s') →
  receiveQueue s' = receiveQueue s ∧
  (since_regeneration cfg x s out → since_regeneration cfg x s' out).
Proof.
  intros Hx Hrun.
  destruct (listen_same_sampling cfg isMine default_timer s _ s' Hrun)
    as ((_ & _ & _ & _ & Hq) & _).
  split; [done|]. unfold listen in Hrun.
  apply bind_Ok_inv in Hrun as ([] & s1 & [= <-] & Hrun).
  apply bind_Ok_inv in Hrun as (t & s2 & [= <- <-] & Hrun).
  apply bind_Ok_inv in Hrun as ([] & s3 & [= <-] & Hrun).
  apply bind_Ok_inv in Hrun as ([] & s4 & Hc & Hrun).
  destruct (control_step_since x _ s4 out Hx Hc) as [_ Hsince].
  intros H. assert (since_regeneration cfg x s4 out) as [H1 H2].
  { apply Hsince. destruct H as [H1 H2]. split; [done|].
    intros Hsil. destruct (H2 Hsil) as (ds & Hds & He). by exists ds. }
  split; [done|]. intros Hsil. destruct (H2 Hsil) as (ds & Hds & He). exists ds.
  split; [|done]. unfold transmit_step, mbind, M_bind, bind, get in Hrun. cbn in Hrun.
  destruct (transmitQueue s4); by injection Hrun as <-.
Qed.

Lemma tick_since s s' :
  tick cfg isMine default_timer s = (Ok tt, s') →
  ∃ out', receiveQueue s' = receiveQueue s ++ out' ∧
          ∀ x out, x ∈ settings.SENSORS cfg →
                   since_regeneration cfg x s out →
                   since_regeneration cfg x s' (out ++ out').
Proof.
  intros Hrun. unfold tick in Hrun.
  apply bind_Ok_inv in Hrun as ([] & s0 & Hl & Hp).
  destruct (poll_sensors_since cfg default_timer Hsteps _ s0 s' Hp) as (out' & Hq & H).
  exists out'. split.
  - apply listen_same_sampling in Hl as ((_ & _ & _ & _ & Hq0) & _).
    by rewrite Hq, Hq0.
  - intros x out Hx Hout. apply H. by apply (listen_since x s s0 out Hx Hl).
Qed.

Lemma loop_since n : ∀ s s',
  loop cfg isMine default_timer n s = (Ok tt, s') →
  ∃ out', receiveQueue s' = receiveQueue s ++ out' ∧
          ∀ x out, x ∈ settings.SENSORS cfg →
                   since_regeneration cfg x s out →
                   since_regeneration cfg x s' (out ++ out').
Proof.
  induction n as [|n IH]; intros s s' Hrun.
  - injection Hrun as <-. exists []. split; [by rewrite app_nil_r|].
    intros x out _. by rewrite app_nil_r.
  - cbn [loop] in Hrun. apply bind_Ok_inv in Hrun as ([] & s1 & Ht & Hl).
    destruct (tick_since s s1 Ht) as (o1 & Hq1 & H1).
    destruct (IH s1 s' Hl) as (o2 & Hq2 & H2).
    exists (o1 ++ o2). split; [by rewrite Hq2, Hq1, app_assoc|].
    intros x out Hx Hout. rewrite app_assoc. auto.
Qed.

(** A short press addressed to the serial worker, in closed form. *)
Lemma control_step_short s cdata rest :
  controlQueue s = cdata :: rest →
  isMine cdata (myButtonId cfg) = true → button cdata = true →
  duration cdata = settings.BUTTON_SHORT cfg →
  ∃ ds, setupDemoSensors cfg = Ok ds ∧
        control_step cfg isMine s =
        (Ok tt,
         if SERIALIO_DEMO s then set_SERIALIO_DEMO false (set_controlQueue rest s)
         else set_demo_sensor (Some ds)
                (set_SERIALIO_DEMO true (set_controlQueue rest s))).
Proof.
  intros Hq Hmine Hbutton Hshort.
  destruct setupDemoSensors_returns as [ds Hds]. exists ds. split; [done|].
  rewrite (control_step_cons cfg isMine s cdata rest Hq). cbn zeta.
  rewrite Hmine, Hbutton, bool_decide_eq_true_2 by done. cbn.
  rewrite Hds. by destruct (SERIALIO_DEMO s).
Qed.

End Toggle.

Section ShortPress.
Context (cfg : settings.t) (isMine : ControlData → Z → bool)
        (default_timer : nat → Qc).
Hypothesis Hsteps : 0 < settings.DEMO_STEPS cfg.
Hypothesis Hids : NoDup (sensorId <$> settings.SENSORS cfg).
Import SerialIO Cursor.
Local Open Scope Qc_scope.

(** The first part of a round that finds a short press for this worker. *)
Lemma listen_short s cdata rest :
  controlQueue s = cdata :: rest →
  isMine cdata (myButtonId cfg) = true → button cdata = true →
  duration cdata = settings.BUTTON_SHORT cfg →
  ∃ ds s0,
    setupDemoSensors cfg = Ok ds ∧
    listen cfg isMine default_timer s = (Ok tt, s0) ∧
    SERIALIO_DEMO s0 = negb (SERIALIO_DEMO s) ∧
    sensor_timer s0 = sensor_timer s ∧
    receiveQueue s0 = receiveQueue s ∧
    (SERIALIO_DEMO s = false → demo_sensor s0 = Some ds).
Proof.
  intros Hq Hmine Hbutton Hshort.
  set (s3 := set_sample_start (default_timer (timer_reads s))
               (set_timer_reads (S (timer_reads s))
                  (set_sample_time (Qc_of_Z 0) s))).
  destruct (control_step_short cfg isMine Hsteps s3 cdata rest)
    as (ds & Hds & Hc); [done..|].
  set (s4 := if SERIALIO_DEMO s3 then _ else _) in Hc.
  exists ds, (match transmitQueue s4 with
              | [] => s4
              | _ :: r => set_transmitQueue r s4
              end).
  split; [done|]. split.
  - unfold listen.
    rewrite (bind_Ok _ _ s tt (set_sample_time (Qc_of_Z 0) s)) by reflexivity.
    rewrite (bind_Ok _ _ _ (default_timer (timer_reads s))
               (set_timer_reads (S (timer_reads s)) (set_sample_time (Qc_of_Z 0) s)))
      by reflexivity.
    rewrite (bind_Ok _ _ _ tt s3) by reflexivity.
    erewrite bind_Ok by exact Hc.
    unfold transmit_step, mbind, M_bind, bind, get. cbn.
    by destruct (transmitQueue s4).
  - subst s4 s3. cbn. destruct (SERIALIO_DEMO s); cbn;
      destruct (transmitQueue s); cbn; done.
Qed.

(** Polling a sensor that has a timer, and a fresh entry if in demo mode,
    returns. *)
Lemma poll_sensor_total y s :
  is_Some (sensor_timer s !! sensorId y) →
  (SERIALIO_DEMO s = true → fresh cfg y s) →
  ∃ s', poll_sensor cfg default_timer y s = (Ok tt, s').
Proof.
  intros [last Hlast] Hfresh.
  rewrite (poll_sensor_run cfg default_timer y s last Hlast). cbn zeta.
  case_decide; [|by eexists].
  rewrite count_sample_run. cbn [snd sample_counter_id set_timer_reads].
  set (s2 := if decide (sensorId y = sample_counter_id s) then _ else _).
  assert (Hs2 : SERIALIO_DEMO s2 = SERIALIO_DEMO s ∧ demo_sensor s2 = demo_sensor s).
  { unfold s2. by case_decide. }
  destruct Hs2 as (Hd2 & Hds2). clearbody s2.
  destruct (SERIALIO_DEMO s2) eqn:Hdemo.
  - destruct Hfresh as (ds & Hds & He); [congruence|].
    destruct (demo_entry_of_index0 cfg Hsteps y) as [_ H0].
    erewrite send_demo_run; [by eexists|by rewrite Hds2|exact He|exact H0].
  - rewrite send_live_run. by eexists.
Qed.

Lemma poll_sensors_total l : ∀ s,
  NoDup (sensorId <$> l) →
  (∀ y, y ∈ l → is_Some (sensor_timer s !! sensorId y)) →
  (SERIALIO_DEMO s = true → ∀ y, y ∈ l → fresh cfg y s) →
  ∃ s', for_each l (poll_sensor cfg default_timer) s = (Ok tt, s') ∧
        SERIALIO_DEMO s' = SERIALIO_DEMO s.
Proof.
  induction l as [|y l IH]; intros s Hnd Ht Hf; [by eexists|].
  rewrite fmap_cons in Hnd.
  pose proof (NoDup_cons_1_1 _ _ Hnd) as Hy. apply NoDup_cons_1_2 in Hnd.
  destruct (poll_sensor_total y s) as [s1 Hs1].
  { apply Ht, list_elem_of_here. }
  { intros Hd. apply Hf; [done|apply list_elem_of_here]. }
  destruct (poll_sensor_counter cfg default_timer y s s1 Hs1)
    as (_ & Hdemo & _ & Hframe & _).
  destruct (IH s1 Hnd) as (s' & Hs' & Hdemo').
  - intros z Hz. rewrite Hframe; [by apply Ht, list_elem_of_further|].
    intros Heq. apply Hy. rewrite <- Heq. by apply list_elem_of_fmap_2.
  - intros Hd z Hz. apply (poll_sensor_fresh_other cfg default_timer z y s s1 Hs1).
    + intros Heq. apply Hy. rewrite <- Heq. by apply list_elem_of_fmap_2.
    + apply Hf; [congruence|by apply list_elem_of_further].
  - exists s'. split; [|congruence].
    cbn [for_each]. erewrite bind_Ok by exact Hs1. exact Hs'.
Qed.

End ShortPress.

(** C8. A control message for the serial worker with a pressed button of
    SHORT duration toggles demo mode, and the round that handles it
    returns.  When the mode goes from off to on, every sensor's sequence is
    regenerated with its cursor at 0, and from then on, over any number of
    rounds, the first demo sample emitted for a sensor carries its index-0
    value (its [minValue]). *)
Theorem short_press_toggles_demo (cfg : settings.t) (isMine : ControlData → Z → bool)
    (default_timer : nat → Qc) (s : SerialIO.State) cdata rest :
  0 < settings.DEMO_STEPS cfg →
  NoDup (sensorId <$> settings.SENSORS cfg) →
  (∀ x, x ∈ settings.SENSORS cfg → is_Some (SerialIO.sensor_timer s !! sensorId x)) →
  SerialIO.controlQueue s = cdata :: rest →
  isMine cdata (SerialIO.myButtonId cfg) = true →
  button cdata = true →
  duration cdata = settings.BUTTON_SHORT cfg →
  (∃ s1,
     SerialIO.control_step cfg isMine s = (Ok tt, s1) ∧
     SerialIO.SERIALIO_DEMO s1 = negb (SerialIO.SERIALIO_DEMO s) ∧
     (SerialIO.SERIALIO_DEMO s = false →
      ∀ x, x ∈ settings.SENSORS cfg →
        ∃ ds e, SerialIO.demo_sensor s1 = Some ds ∧ ds !! sensorId x = Some e ∧
                SerialIO.demo_data_idx e = 0 ∧
                SerialIO.demo_data e !! 0%nat = Some (minValue x))) ∧
  (∃ s',
     SerialIO.tick cfg isMine default_timer s = (Ok tt, s') ∧
     SerialIO.SERIALIO_DEMO s' = negb (SerialIO.SERIALIO_DEMO s)) ∧
  (SerialIO.SERIALIO_DEMO s = false →
   ∀ n s',
     SerialIO.loop cfg isMine default_timer (S n) s = (Ok tt, s') →
     ∃ out,
       SerialIO.receiveQueue s' = SerialIO.receiveQueue s ++ out ∧
       ∀ x, x ∈ settings.SENSORS cfg → Cursor.first_demo_is_index0 x out).
Proof.
  intros Hsteps Hids Htimers Hq Hmine Hbutton Hshort.
  split; [|split].
  - destruct (control_step_short cfg isMine Hsteps s cdata rest) as (ds & Hds & Hc);
      [done..|].
    eexists. split; [exact Hc|]. split; [by destruct (SerialIO.SERIALIO_DEMO s)|].
    intros Hoff x Hx. rewrite Hoff.
    destruct (setupDemoSensors_lookup cfg x) as (ds' & Hds' & He); [lia|done..|].
    exists ds, (Ramp.demo_entry_of cfg x). split; [done|].
    split; [congruence|]. split; [done|].
    by destruct (demo_entry_of_index0 cfg Hsteps x).
  - destruct (listen_short cfg isMine default_timer Hsteps s cdata rest)
      as (ds & s0 & Hds & Hl & Hdemo & Ht & _ & Hon); [done..|].
    destruct (poll_sensors_total cfg default_timer Hsteps (settings.SENSORS cfg) s0)
      as (s' & Hs' & Hdemo'); [done| | |].
    + intros y Hy. rewrite Ht. by apply Htimers.
    + intros Hd y Hy. apply (regenerated_fresh cfg Hsteps Hids ds); [done| |done].
      apply Hon. rewrite Hdemo in Hd. by destruct (SerialIO.SERIALIO_DEMO s).
    + exists s'. split; [|congruence].
      unfold SerialIO.tick. erewrite bind_Ok by exact Hl. exact Hs'.
  - intros Hoff n s' Hrun.
    destruct (listen_short cfg isMine default_timer Hsteps s cdata rest)
      as (ds & s0 & Hds & Hl & _ & _ & Hq0 & Hon); [done..|].
    cbn [SerialIO.loop] in Hrun. apply bind_Ok_inv in Hrun as ([] & s1 & Htick & Hloop).
    unfold SerialIO.tick in Htick. rewrite (bind_Ok _ _ _ _ _ Hl) in Htick.
    destruct (poll_sensors_since cfg default_timer Hsteps _ s0 s1 Htick)
      as (o1 & Hq1 & H1).
    destruct (loop_since cfg isMine default_timer Hsteps Hids n s1 s' Hloop)
      as (o2 & Hq2 & H2).
    exists (o1 ++ o2). split; [by rewrite Hq2, Hq1, Hq0, app_assoc|].
    intros x Hx.
    assert (Hinit : Cursor.since_regeneration cfg x s0 []).
    { split.
      - intros before d after Heq. by destruct before.
      - intros _. apply (regenerated_fresh cfg Hsteps Hids ds); [done|by apply Hon|done]. }
    apply H1 in Hinit. cbn [app] in Hinit. apply H2 in Hinit; [|done]. by destruct Hinit.
Qed.

Lemma short_press_toggles_demo_witness :
  let s := Fixtures.with_controls [Fixtures.short_press]
             (Fixtures.polling Fixtures.cfg_live) in
  SerialIO.SERIALIO_DEMO s = false ∧
  ∃ s',
    SerialIO.tick Fixtures.cfg_live Fixtures.isMine Fixtures.seconds s = (Ok tt, s') ∧
    SerialIO.SERIALIO_DEMO s' = true.
Proof.
  intros s. split; [reflexivity|].
  destruct (short_press_toggles_demo Fixtures.cfg_live Fixtures.isMine Fixtures.seconds
              s Fixtures.short_press [])
    as (_ & (s' & Hrun & Hdemo) & _).
  - reflexivity.
  - apply NoDup_singleton.
  - intros x Hx. apply list_elem_of_singleton in Hx. rewrite Hx.
    exists (Fixtures.seconds 0). vm_compute. reflexivity.
  - reflexivity.
  - reflexivity.
  - reflexivity.
  - reflexivity.
  - exists s'. split; [exact Hrun|]. rewrite Hdemo. reflexivity.
Defined.

(** The same on a run: demo mode is on, three rounds advance the cursor,
    a short press turns the mode off and a second one turns it on again;
    the sample that follows is the index-0 value, not the value the cursor
    had reached. *)
Lemma short_press_example :
  let press := Fixtures.with_controls [Fixtures.short_press] in
  let tick := SerialIO.tick Fixtures.cfg_rpm Fixtures.isMine Fixtures.seconds in
  let s3 := (SerialIO.loop Fixtures.cfg_rpm Fixtures.isMine Fixtures.seconds 3
               (Fixtures.polling Fixtures.cfg_rpm)).2 in
  let s4 := (tick (press s3)).2 in
  let s5 := (tick (press s4)).2 in
  d2 <$> SerialIO.receiveQueue s3
  = [VFloat (Qc_of_Z 0); VFloat (Qc_of_Z 2000); VFloat (Qc_of_Z 4000)] ∧
  SerialIO.SERIALIO_DEMO s4 = false ∧
  SerialIO.receiveQueue s4 = SerialIO.receiveQueue s3 ∧
  SerialIO.SERIALIO_DEMO s5 = true ∧
  d2 <$> drop 3 (SerialIO.receiveQueue s5) = [VFloat (Qc_of_Z 0)].
Proof.
  cbn zeta. split; [|split; [|split; [|split]]].
  - apply (bool_decide_unpack _). vm_compute. reflexivity.
  - vm_compute. reflexivity.
  - vm_compute. reflexivity.
  - vm_compute. reflexivity.
  - apply (bool_decide_unpack _). vm_compute. reflexivity.
Qed.

(** * Further properties of the demo data generator *)

Section Generator.
Context (cfg : settings.t).
Import SerialIO.
Local Open Scope Qc_scope.

(** The entry stored under an id is the one of the last sensor carrying it. *)
Lemma lookup_store_demo_entries_last ds pre x post :
  sensorId x ∉ sensorId <$> post →
  foldl (Ramp.store_demo_entry cfg) ds (pre ++ x :: post) !! sensorId x
  = Some (Ramp.demo_entry_of cfg x).
Proof.
  intros Hpost. rewrite foldl_app. cbn [foldl].
  rewrite lookup_store_demo_entries_notin by done.
  unfold Ramp.store_demo_entry. by rewrite lookup_insert_eq.
Qed.

(** The keys of the generated dictionary are the ids of the registry. *)
Lemma store_demo_entries_keys l : ∀ ds k,
  is_Some (foldl (Ramp.store_demo_entry cfg) ds l !! k)
  ↔ is_Some (ds !! k) ∨ k ∈ sensorId <$> l.
Proof.
  induction l as [|y l IH]; intros ds k.
  - cbn. split; [by left|]. intros [?|H]; [done|]. by apply elem_of_nil in H.
  - cbn [foldl]. rewrite IH, fmap_cons, elem_of_cons. unfold Ramp.store_demo_entry.
    destruct (decide (sensorId y = k)) as [->|Hne].
    + rewrite lookup_insert_eq. split; [intros _; right; by left|].
      intros _. left. by eexists.
    + rewrite lookup_insert_ne by done. split.
      * intros [?|?]; [by left|right; by right].
      * intros [?|[?|?]]; [by left|congruence|by right].
Qed.

(** With a step count of 0 or below, the range of both loops is empty and
    the data stays empty. *)
Lemma demo_entry_of_no_steps x :
  (settings.DEMO_STEPS cfg ≤ 0)%Z →
  Ramp.demo_entry_of cfg x = {| demo_data_idx := 0; demo_data := [] |}.
Proof.
  intros Hn. unfold Ramp.demo_entry_of.
  replace (Z.to_nat (settings.DEMO_STEPS cfg)) with 0%nat by lia. done.
Qed.

(** The descending half is the ascending half read backwards. *)
Lemma descending_reverse a step n :
  Ramp.descending (a + Qc_of_Z (Z.of_nat n) * step) step n
  = reverse (Ramp.ascending a step n).
Proof.
  apply list_eq. intros k.
  destruct (decide (k < n)%nat) as [Hk|Hk].
  - rewrite lookup_descending by done.
    rewrite reverse_lookup by (by rewrite length_ascending).
    rewrite length_ascending, lookup_ascending by lia. f_equal.
    replace (Z.of_nat (n - S k)) with (Z.of_nat n - Z.of_nat (S k))%Z by lia.
    rewrite Z2Qc_inj_sub. ring.
  - rewrite !lookup_ge_None_2; [done|..].
    + rewrite length_reverse, length_ascending. lia.
    + rewrite length_descending. lia.
Qed.

Lemma demo_data_reverse x :
  reverse (demo_data (Ramp.demo_entry_of cfg x)) = demo_data (Ramp.demo_entry_of cfg x).
Proof.
  unfold Ramp.demo_entry_of. cbn [demo_data].
  rewrite descending_reverse, reverse_app, reverse_involutive. done.
Qed.

End Generator.

(** X1. With [DEMO_STEPS = 0] the generator divides by zero as soon as the
    registry has a sensor (on an empty registry it returns the empty
    dictionary).  So a start in demo mode raises before any sensor is
    polled, and a short press that turns demo mode on raises in the round
    that handles it, leaving the mode switched on. *)
Theorem demo_generator_zero_steps (cfg : settings.t) (isMine : ControlData → Z → bool)
    (default_timer : nat → Qc) :
  settings.DEMO_STEPS cfg = 0 →
  SerialIO.setupDemoSensors cfg
  = match settings.SENSORS cfg with
    | [] => Ok ∅
    | _ :: _ => Raise ZeroDivisionError
    end ∧
  (settings.SENSORS cfg ≠ [] →
   (settings.SERIALIO_DEMO cfg = true →
    ∀ n tx rx ctl,
      (SerialIO.SerialIO cfg isMine default_timer n (SerialIO.entry tx rx ctl)).1
      = Raise ZeroDivisionError) ∧
   (∀ s cdata rest,
      SerialIO.SERIALIO_DEMO s = false →
      SerialIO.controlQueue s = cdata :: rest →
      isMine cdata (SerialIO.myButtonId cfg) = true →
      button cdata = true →
      duration cdata = settings.BUTTON_SHORT cfg →
      SerialIO.control_step cfg isMine s
      = (Raise ZeroDivisionError,
         SerialIO.set_SERIALIO_DEMO true (SerialIO.set_controlQueue rest s)))).
Proof.
  intros H0.
  assert (Hgen : SerialIO.setupDemoSensors cfg
                 = match settings.SENSORS cfg with
                   | [] => Ok ∅
                   | _ :: _ => Raise ZeroDivisionError
                   end).
  { unfold SerialIO.setupDemoSensors. destruct (settings.SENSORS cfg) as [|x l]; [done|].
    by apply setup_sensors_zero. }
  split; [done|]. intros Hne.
  assert (Hraise : SerialIO.setupDemoSensors cfg = Raise ZeroDivisionError).
  { rewrite Hgen. by destruct (settings.SENSORS cfg). }
  split.
  - intros Hdemo n tx rx ctl. unfold SerialIO.SerialIO, SerialIO.init, SerialIO.init_demo.
    rewrite Hdemo. unfold mbind, M_bind, bind, lift, modify. cbn.
    by rewrite Hraise.
  - intros s cdata rest Hoff Hq Hmine Hbutton Hshort.
    rewrite (control_step_cons cfg isMine s cdata rest Hq). cbn zeta.
    rewrite Hmine, Hbutton, bool_decide_eq_true_2 by done. cbn.
    by rewrite Hoff, Hraise.
Qed.

Lemma demo_generator_zero_steps_witness :
  SerialIO.setupDemoSensors Fixtures.cfg_zero = Raise ZeroDivisionError ∧
  (SerialIO.SerialIO Fixtures.cfg_zero Fixtures.isMine Fixtures.seconds 3
     (SerialIO.entry [] [] [])).1 = Raise ZeroDivisionError.
Proof.
  destruct (demo_generator_zero_steps Fixtures.cfg_zero Fixtures.isMine Fixtures.seconds)
    as [Hgen Hrun].
  - reflexivity.
  - split; [exact Hgen|].
    destruct Hrun as [Hstart _]; [discriminate|].
    apply Hstart. reflexivity.
Defined.

Section GeneratorLookup.
Context (cfg : settings.t) (default_timer : nat → Qc).
Import SerialIO.
Local Open Scope Qc_scope.

(** Every id of the registry holds the entry of some sensor carrying it. *)
Lemma lookup_store_demo_entries_some l : ∀ ds k,
  k ∈ sensorId <$> l →
  ∃ y, y ∈ l ∧ sensorId y = k ∧
       foldl (Ramp.store_demo_entry cfg) ds l !! k = Some (Ramp.demo_entry_of cfg y).
Proof.
  induction l as [|y l IH]; intros ds k Hk; [by apply elem_of_nil in Hk|].
  cbn [foldl]. destruct (decide (k ∈ sensorId <$> l)) as [Hin|Hnotin].
  - destruct (IH (Ramp.store_demo_entry cfg ds y) k Hin) as (z & Hz & Hid & Hl).
    exists z. split; [by apply list_elem_of_further|done].
  - rewrite fmap_cons in Hk. apply elem_of_cons in Hk as [->|Hk]; [|done].
    exists y. split; [apply list_elem_of_here|]. split; [done|].
    rewrite lookup_store_demo_entries_notin by done.
    unfold Ramp.store_demo_entry. by rewrite lookup_insert_eq.
Qed.

Lemma setupDemoSensors_some x :
  settings.DEMO_STEPS cfg ≠ 0%Z → x ∈ settings.SENSORS cfg →
  ∃ ds y, setupDemoSensors cfg = Ok ds ∧ y ∈ settings.SENSORS cfg ∧
          sensorId y = sensorId x ∧
          ds !! sensorId x = Some (Ramp.demo_entry_of cfg y).
Proof.
  intros Hn Hx. unfold setupDemoSensors. rewrite setup_sensors_Ok by done.
  destruct (lookup_store_demo_entries_some (settings.SENSORS cfg) ∅ (sensorId x))
    as (y & Hy & Hid & Hl); [by apply list_elem_of_fmap_2|].
  by exists (foldl (Ramp.store_demo_entry cfg) ∅ (settings.SENSORS cfg)), y.
Qed.

(** The demo branch passes on what reading the value raises, before
    anything is put on the queue. *)
Lemma send_demo_raise sensor s ds e ex :
  demo_sensor s = Some ds →
  ds !! sensorId sensor = Some e →
  py_getitem (demo_data e) (demo_data_idx e) = Raise ex →
  send_demo cfg default_timer sensor s = (Raise ex, s).
Proof.
  intros Hds He Hrxb.
  unfold send_demo, mbind, M_bind, bind, get. cbn. rewrite Hds.
  unfold lookup_key. rewrite He. cbn. unfold lift. by rewrite Hrxb.
Qed.

End GeneratorLookup.

(** X2. With a negative [DEMO_STEPS] the generator returns, but both of its
    loops run over an empty range: every sensor gets an empty sequence, and
    polling a due sensor in demo mode then raises [IndexError]. *)
Theorem demo_generator_negative_steps (cfg : settings.t) (default_timer : nat → Qc) :
  settings.DEMO_STEPS cfg < 0 →
  ∃ ds,
    SerialIO.setupDemoSensors cfg = Ok ds ∧
    (∀ x, x ∈ settings.SENSORS cfg →
       ds !! sensorId x
       = Some {| SerialIO.demo_data_idx := 0; SerialIO.demo_data := [] |}) ∧
    (∀ x s last,
       x ∈ settings.SENSORS cfg →
       SerialIO.SERIALIO_DEMO s = true → SerialIO.demo_sensor s = Some ds →
       SerialIO.sensor_timer s !! sensorId x = Some last →
       (refresh x ≤ default_timer (SerialIO.timer_reads s) - last)%Qc →
       (SerialIO.poll_sensor cfg default_timer x s).1 = Raise IndexError).
Proof.
  intros Hneg.
  assert (Hlook : ∀ x, x ∈ settings.SENSORS cfg →
            foldl (Ramp.store_demo_entry cfg) ∅ (settings.SENSORS cfg) !! sensorId x
            = Some {| SerialIO.demo_data_idx := 0; SerialIO.demo_data := [] |}).
  { intros x Hx.
    destruct (lookup_store_demo_entries_some cfg (settings.SENSORS cfg) ∅ (sensorId x))
      as (y & _ & _ & Hl); [by apply list_elem_of_fmap_2|].
    rewrite Hl. f_equal. apply demo_entry_of_no_steps. lia. }
  eexists. split; [unfold SerialIO.setupDemoSensors; by rewrite setup_sensors_Ok by lia|].
  split; [done|].
  intros x s last Hx Hdemo Hds Hlast Hdue.
  rewrite (poll_sensor_run cfg default_timer x s last Hlast). cbn zeta.
  rewrite decide_True by done. rewrite count_sample_run. cbn [snd].
  cbn [SerialIO.sample_counter_id SerialIO.set_timer_reads].
  destruct (decide (sensorId x = SerialIO.sample_counter_id s)); cbn; rewrite Hdemo;
    (erewrite send_demo_raise; [done|exact Hds|by apply Hlook|done]).
Qed.

Lemma demo_generator_negative_steps_witness :
  ∃ ds,
    SerialIO.setupDemoSensors Fixtures.cfg_negative = Ok ds ∧
    ds !! "RPM" = Some {| SerialIO.demo_data_idx := 0; SerialIO.demo_data := [] |} ∧
    (SerialIO.tick Fixtures.cfg_negative Fixtures.isMine Fixtures.seconds
       (Fixtures.polling Fixtures.cfg_negative)).1 = Raise IndexError.
Proof.
  destruct (demo_generator_negative_steps Fixtures.cfg_negative Fixtures.seconds)
    as (ds & Hgen & Hlook & _).
  - reflexivity.
  - exists ds. split; [exact Hgen|]. split.
    + apply (Hlook Fixtures.rpm). apply list_elem_of_here.
    + vm_compute. reflexivity.
Defined.

(** X3. The dictionary the generator returns has exactly the ids of the
    registry as keys, and under an id it holds the sequence of the last
    sensor of the registry that carries this id: an earlier sensor with the
    same id gets the data (and shares the cursor) of the later one. *)
Theorem demo_generator_last_wins (cfg : settings.t) pre x post :
  settings.DEMO_STEPS cfg ≠ 0 →
  settings.SENSORS cfg = pre ++ x :: post →
  sensorId x ∉ sensorId <$> post →
  ∃ ds,
    SerialIO.setupDemoSensors cfg = Ok ds ∧
    (∀ k, is_Some (ds !! k) ↔ k ∈ sensorId <$> settings.SENSORS cfg) ∧
    (∀ y, y ∈ pre ++ x :: post → sensorId y = sensorId x →
          ds !! sensorId y = Some (Ramp.demo_entry_of cfg x)).
Proof.
  intros Hn HS Hpost.
  eexists. split; [unfold SerialIO.setupDemoSensors; by rewrite setup_sensors_Ok by done|].
  split.
  - intros k. rewrite store_demo_entries_keys. split; [|by right].
    intros [[? H]|?]; [|done]. by rewrite lookup_empty in H.
  - intros y _ Hid. rewrite Hid, HS. by apply lookup_store_demo_entries_last.
Qed.

Lemma demo_generator_last_wins_witness :
  ∃ ds,
    SerialIO.setupDemoSensors Fixtures.cfg_dup = Ok ds ∧
    ds !! sensorId Fixtures.ect
    = Some (Ramp.demo_entry_of Fixtures.cfg_dup Fixtures.ect2).
Proof.
  destruct (demo_generator_last_wins Fixtures.cfg_dup [Fixtures.ect] Fixtures.ect2 [])
    as (ds & Hgen & _ & Hlast).
  - discriminate.
  - reflexivity.
  - apply not_elem_of_nil.
  - exists ds. split; [exact Hgen|].
    apply Hlast; [apply list_elem_of_here|reflexivity].
Defined.

(** X4. Every generated sequence reads the same backwards: under exact
    arithmetic the descending half repeats the ascending half in reverse
    order. *)
Theorem demo_data_palindrome (cfg : settings.t) (x : Sensor) :
  settings.DEMO_STEPS cfg ≠ 0 →
  x ∈ settings.SENSORS cfg →
  ∃ ds e,
    SerialIO.setupDemoSensors cfg = Ok ds ∧
    ds !! sensorId x = Some e ∧
    reverse (SerialIO.demo_data e) = SerialIO.demo_data e.
Proof.
  intros Hn Hx.
  destruct (setupDemoSensors_some cfg x Hn Hx) as (ds & y & Hds & _ & _ & He).
  exists ds, (Ramp.demo_entry_of cfg y). split; [done|]. split; [done|].
  apply demo_data_reverse.
Qed.

Lemma demo_data_palindrome_witness :
  ∃ ds e,
    SerialIO.setupDemoSensors Fixtures.cfg_rpm = Ok ds ∧
    ds !! "RPM" = Some e ∧
    reverse (SerialIO.demo_data e) = SerialIO.demo_data e.
Proof.
  apply (demo_data_palindrome Fixtures.cfg_rpm Fixtures.rpm).
  - discriminate.
  - apply list_elem_of_here.
Defined.

Section GeneratorBounds.
Context (cfg : settings.t).
Import SerialIO.
Local Open Scope Qc_scope.






End GeneratorBounds.



(** * The sample loop never raises *)

Section Acquire.
Context (cfg : settings.t) (isMine : ControlData → Z → bool)
        (default_timer : nat → Qc).
Hypothesis Hsteps : 0 < settings.DEMO_STEPS cfg.
Import SerialIO Cursor Acquisition.
Local Open Scope Qc_scope.

Lemma entry_ok_generated y : entry_ok cfg (Ramp.demo_entry_of cfg y).
Proof.
  split; [cbn; lia|]. rewrite length_demo_entry_of. lia.
Qed.

Lemma entry_ok_advance e :
  entry_ok cfg e →
  entry_ok cfg (set_demo_data_idx (advance_idx cfg (demo_data_idx e)) e).
Proof.
  intros [Hi Hl]. split; [|done]. cbn. unfold advance_idx.
  case_decide; lia.
Qed.

Lemma setupDemoSensors_some_ds : ∃ ds, setupDemoSensors cfg = Ok ds.
Proof.
  unfold setupDemoSensors. rewrite setup_sensors_Ok by lia. by eexists.
Qed.

Lemma generated_ready ds s :
  setupDemoSensors cfg = Ok ds →
  (∀ x, x ∈ settings.SENSORS cfg → is_Some (sensor_timer s !! sensorId x)) →
  demo_sensor s = Some ds →
  ready cfg s.
Proof.
  intros Hds Ht Hs. split; [done|]. intros _. exists ds. split; [done|].
  intros x Hx.
  destruct (setupDemoSensors_some cfg x) as (ds' & y & Hds' & _ & _ & He); [lia|done|].
  rewrite Hds in Hds'. injection Hds' as <-.
  exists (Ramp.demo_entry_of cfg y). split; [done|apply entry_ok_generated].
Qed.

(** One sensor's turn. *)
Lemma poll_sensor_step y s :
  y ∈ settings.SENSORS cfg → ready cfg s →
  ∃ s' out,
    poll_sensor cfg default_timer y s = (Ok tt, s') ∧ ready cfg s' ∧
    same_controls s s' ∧
    receiveQueue s' = receiveQueue s ++ out ∧
    (counter s ≤ counter s' ≤ counter s + 1)%Z ∧
    (sensorId y ≠ sample_counter_id s → counter s' = counter s) ∧
    (out = [] ∨ ∃ d, out = [d] ∧ d1 d = sensorId y ∧ emitted cfg s d).
Proof.
  intros Hy [Ht Hd]. destruct (Ht y Hy) as [last Hlast].
  rewrite (poll_sensor_run cfg default_timer y s last Hlast). cbn zeta.
  case_decide as Hdue.
  2:{ exists (set_timer_reads (S (timer_reads s)) s), [].
      rewrite app_nil_r. repeat split; try done; try (cbn; lia). by left. }
  rewrite count_sample_run. cbn [snd sample_counter_id set_timer_reads].
  set (s2 := if decide (sensorId y = sample_counter_id s) then _ else _).
  assert (Hs2 : SERIALIO_DEMO s2 = SERIALIO_DEMO s ∧ demo_sensor s2 = demo_sensor s ∧
                sensor_timer s2 = sensor_timer s ∧ connected s2 = connected s ∧
                sample_counter_id s2 = sample_counter_id s ∧
                controlQueue s2 = controlQueue s ∧ transmitQueue s2 = transmitQueue s ∧
                receiveQueue s2 = receiveQueue s ∧
                (counter s ≤ counter s2 ≤ counter s + 1)%Z ∧
                (sensorId y ≠ sample_counter_id s → counter s2 = counter s)).
  { unfold s2. case_decide; cbn; repeat split; try done; lia. }
  clearbody s2.
  destruct Hs2 as (Hd2 & Hds2 & Ht2 & Hc2 & Hid2 & Hcq2 & Htq2 & Hrq2 & Hcnt & Hcnt').
  destruct (SERIALIO_DEMO s2) eqn:Hdemo.
  - destruct Hd as (ds & Hds & Hall); [congruence|].
    destruct (Hall y Hy) as (e & He & Hok).
    destruct (py_getitem_in_range (demo_data e) (demo_data_idx e)) as (v & _ & Hv).
    { destruct Hok as [Hi Hl]. rewrite Hl. lia. }
    erewrite send_demo_run; [|by rewrite Hds2|exact He|exact Hv].
    eexists _, [_]. split; [done|]. unfold same_controls. cbn. rewrite Hrq2.
    split; [|split; [by repeat split; congruence|repeat (split; [done|])]].
    + split; cbn.
      * intros x Hx. rewrite Ht2.
        destruct (decide (sensorId y = sensorId x)) as [->|Hne].
        -- rewrite lookup_insert_eq. by eexists.
        -- rewrite lookup_insert_ne by done. by apply Ht.
      * intros _. eexists. split; [done|]. intros x Hx.
        destruct (decide (sensorId y = sensorId x)) as [Heq|Hne].
        -- rewrite <- Heq, lookup_insert_eq. eexists. split; [done|].
           by apply entry_ok_advance.
        -- rewrite lookup_insert_ne by done. by apply Hall.
    + right. eexists. split; [done|]. split; [done|]. split; [done|].
      left. split; [congruence|]. by eexists.
  - rewrite send_live_run. destruct (connected s2) eqn:Hconn.
    + eexists _, [_]. split; [done|]. unfold same_controls. cbn. rewrite Hrq2.
      split; [|split; [by repeat split; congruence|repeat (split; [done|])]].
      * split; cbn.
        -- intros x Hx. rewrite Ht2.
           destruct (decide (sensorId y = sensorId x)) as [->|Hne].
           ++ rewrite lookup_insert_eq. by eexists.
           ++ rewrite lookup_insert_ne by done. by apply Ht.
        -- congruence.
      * right. eexists. split; [done|]. split; [done|]. split; [done|].
        right. split; [congruence|]. split; [congruence|done].
    + exists s2, []. rewrite app_nil_r. split; [done|].
      split; [|split; [by repeat split; congruence|repeat (split; [done|])]].
      * split; [by rewrite Ht2|]. rewrite Hdemo. done.
      * by left.
Qed.

(** The sensor loop over a part of the registry. *)
Lemma poll_sensors_step l : ∀ s,
  (∀ y, y ∈ l → y ∈ settings.SENSORS cfg) → ready cfg s →
  ∃ s' out,
    for_each l (poll_sensor cfg default_timer) s = (Ok tt, s') ∧ ready cfg s' ∧
    same_controls s s' ∧
    receiveQueue s' = receiveQueue s ++ out ∧
    (counter s ≤ counter s'
     ≤ counter s + Z.of_nat (length (pacing_sensors (sample_counter_id s) l)))%Z ∧
    sublist (d1 <$> out) (sensorId <$> l) ∧
    Forall (emitted cfg s) out.
Proof.
  induction l as [|y l IH]; intros s Hl Hr.
  - exists s, []. rewrite app_nil_r. split; [done|]. split; [done|].
    split; [done|]. split; [done|]. split; [cbn; lia|].
    split; [apply sublist_nil|apply Forall_nil_2].
  - destruct (poll_sensor_step y s) as (s1 & out1 & Hrun1 & Hr1 & Hc1 & Hq1 & Hn1 & Hn1' & Ho1);
      [apply Hl, list_elem_of_here|done|].
    destruct (IH s1) as (s' & out2 & Hrun2 & Hr2 & Hc2 & Hq2 & Hn2 & Hsub & Hall);
      [intros z Hz; by apply Hl, list_elem_of_further|done|].
    destruct Hc1 as (Hd1 & Hk1 & Hi1 & Hcq1 & Htq1).
    destruct Hc2 as (Hd2 & Hk2 & Hi2 & Hcq2 & Htq2).
    exists s', (out1 ++ out2). split.
    { cbn [for_each]. erewrite bind_Ok by exact Hrun1. exact Hrun2. }
    split; [done|]. split; [by repeat split; congruence|].
    split; [by rewrite Hq2, Hq1, app_assoc|].
    assert (Hem : Forall (emitted cfg s) out2).
    { revert Hall. apply Forall_impl. intros d [H0 H]. split; [done|].
      rewrite <- Hd1, <- Hk1. exact H. }
    split; [|split].
    + rewrite Hi1 in Hn2. unfold pacing_sensors in *. rewrite filter_cons.
      case_decide as Hid; cbn [length].
      * lia.
      * rewrite Hn1' in Hn2 by done. lia.
    + rewrite fmap_cons. destruct Ho1 as [->|(d & -> & Hd & _)]; cbn.
      * by apply sublist_cons.
      * rewrite Hd. by apply sublist_skip.
    + apply Forall_app. split; [|done].
      destruct Ho1 as [->|(d & -> & _ & Hd)]; [done|]. by apply Forall_singleton.
Qed.

Lemma transmit_step_run s :
  transmit_step s = (Ok tt, set_transmitQueue (drop 1 (transmitQueue s)) s).
Proof.
  unfold transmit_step, mbind, M_bind, bind, get. cbn.
  destruct s as [? ? ? ? ? ? ? ? ? [|? ?] ? ? ?]; done.
Qed.

(** The first part of a round: the time stamps, then one control message
    and one transmit request are taken, if there are any. *)
Lemma listen_step s :
  ready cfg s →
  ∃ s0,
    listen cfg isMine default_timer s = (Ok tt, s0) ∧ ready cfg s0 ∧
    same_sampling s s0 ∧
    controlQueue s0 = drop 1 (controlQueue s) ∧
    transmitQueue s0 = drop 1 (transmitQueue s) ∧
    SERIALIO_DEMO s0
    = mode_after cfg isMine (SERIALIO_DEMO s) (take 1 (controlQueue s)).
Proof.
  intros [Ht Hd].
  set (s3 := set_sample_start (default_timer (timer_reads s))
               (set_timer_reads (S (timer_reads s))
                  (set_sample_time (Qc_of_Z 0) s))).
  assert (Hrun : listen cfg isMine default_timer s
                 = (control_step cfg isMine ;; transmit_step) s3) by reflexivity.
  rewrite Hrun. clear Hrun.
  destruct (setupDemoSensors_some_ds) as [ds Hds].
  assert (Hc : ∃ s4, control_step cfg isMine s3 = (Ok tt, s4) ∧ ready cfg s4 ∧
                 same_sampling s s4 ∧ transmitQueue s4 = transmitQueue s ∧
                 controlQueue s4 = drop 1 (controlQueue s) ∧
                 SERIALIO_DEMO s4
                 = mode_after cfg isMine (SERIALIO_DEMO s) (take 1 (controlQueue s))).
  { destruct (controlQueue s) as [|cdata rest] eqn:Hq.
    - exists s3. rewrite control_step_nil by done. by repeat split.
    - rewrite (control_step_cons cfg isMine s3 cdata rest Hq). cbn zeta.
      cbn [take drop]. unfold mode_after. cbn [foldl]. unfold toggles.
      destruct (isMine cdata (myButtonId cfg) && button cdata
                && bool_decide (duration cdata = settings.BUTTON_SHORT cfg)).
      + cbn [SERIALIO_DEMO s3 set_sample_start set_timer_reads set_sample_time].
        destruct (SERIALIO_DEMO s) eqn:Hdemo.
        * eexists. split; [done|]. split; [by split|]. by repeat split.
        * rewrite Hds. eexists. split; [done|].
          split; [by apply (generated_ready ds)|]. by repeat split.
      + eexists. split; [done|]. by repeat split. }
  destruct Hc as (s4 & Hc & Hr4 & Hss & Htq & Hcq & Hm).
  exists (set_transmitQueue (drop 1 (transmitQueue s4)) s4).
  split; [erewrite bind_Ok by exact Hc; apply transmit_step_run|].
  split; [exact Hr4|]. split; [exact Hss|].
  cbn. by rewrite Htq.
Qed.

(** One round of the sample loop. *)
Lemma tick_step s :
  ready cfg s →
  ∃ s' out,
    tick cfg isMine default_timer s = (Ok tt, s') ∧ ready cfg s' ∧
    connected s' = connected s ∧
    sample_counter_id s' = sample_counter_id s ∧
    controlQueue s' = drop 1 (controlQueue s) ∧
    transmitQueue s' = drop 1 (transmitQueue s) ∧
    SERIALIO_DEMO s'
    = mode_after cfg isMine (SERIALIO_DEMO s) (take 1 (controlQueue s)) ∧
    receiveQueue s' = receiveQueue s ++ out ∧
    (counter s ≤ counter s'
     ≤ counter s
       + Z.of_nat (length (pacing_sensors (sample_counter_id s)
                             (settings.SENSORS cfg))))%Z ∧
    sublist (d1 <$> out) (sensorId <$> settings.SENSORS cfg) ∧
    Forall (emitted cfg s') out.
Proof.
  intros Hr.
  destruct (listen_step s Hr) as (s0 & Hl & Hr0 & Hss & Hcq & Htq & Hm).
  destruct Hss as (Hn0 & Hi0 & _ & Hk0 & Hq0).
  destruct (poll_sensors_step (settings.SENSORS cfg) s0)
    as (s' & out & Hp & Hr' & Hc & Hq & Hn & Hsub & Hall); [done|done|].
  destruct Hc as (Hd & Hk & Hi & Hcq' & Htq').
  exists s', out. split.
  { unfold tick. erewrite bind_Ok by exact Hl. exact Hp. }
  split; [done|]. split; [congruence|]. split; [congruence|].
  split; [congruence|]. split; [congruence|]. split; [congruence|].
  split; [congruence|]. split; [by rewrite <- Hn0, <- Hi0|]. split; [done|].
  revert Hall. apply Forall_impl. intros d [H0 H]. split; [done|].
  rewrite Hd, Hk. exact H.
Qed.

Lemma mode_after_round mode (q : list ControlData) n :
  mode_after cfg isMine (mode_after cfg isMine mode (take 1 q)) (take n (drop 1 q))
  = mode_after cfg isMine mode (take (S n) q).
Proof. destruct q as [|c q]; [by destruct n|done]. Qed.

Lemma drop_round {A} (q : list A) n : drop n (drop 1 q) = drop (S n) q.
Proof. destruct q as [|c q]; [by destruct n|done]. Qed.

(** What a sample of a run is: of type DATA, for an id of the registry,
    and a demo value unless the connection flag is set. *)
Lemma loop_step n : ∀ s,
  ready cfg s →
  ∃ s' out,
    loop cfg isMine default_timer n s = (Ok tt, s') ∧ ready cfg s' ∧
    connected s' = connected s ∧
    sample_counter_id s' = sample_counter_id s ∧
    controlQueue s' = drop n (controlQueue s) ∧
    transmitQueue s' = drop n (transmitQueue s) ∧
    SERIALIO_DEMO s'
    = mode_after cfg isMine (SERIALIO_DEMO s) (take n (controlQueue s)) ∧
    receiveQueue s' = receiveQueue s ++ out ∧
    (counter s ≤ counter s'
     ≤ counter s
       + Z.of_nat n
         * Z.of_nat (length (pacing_sensors (sample_counter_id s)
                               (settings.SENSORS cfg))))%Z ∧
    Forall (λ d, d0 d = settings.TYPE_DATA cfg ∧
                 d1 d ∈ sensorId <$> settings.SENSORS cfg ∧
                 (is_demo d ∨ connected s = true)) out.
Proof.
  induction n as [|n IH]; intros s Hr.
  - exists s, []. rewrite app_nil_r, drop_0, take_0. split; [done|].
    split; [done|]. split; [done|]. split; [done|]. split; [done|].
    split; [done|]. split; [done|]. split; [done|]. split; [lia|].
    apply Forall_nil_2.
  - destruct (tick_step s Hr)
      as (s1 & out1 & Ht & Hr1 & Hk1 & Hi1 & Hcq1 & Htq1 & Hm1 & Hq1 & Hn1 & Hsub & Hall).
    destruct (IH s1 Hr1)
      as (s' & out2 & Hl & Hr' & Hk & Hi & Hcq & Htq & Hm & Hq & Hn & Hall').
    exists s', (out1 ++ out2). split.
    { cbn [loop]. erewrite bind_Ok by exact Ht. exact Hl. }
    split; [done|]. split; [congruence|]. split; [congruence|].
    split; [by rewrite Hcq, Hcq1, drop_round|].
    split; [by rewrite Htq, Htq1, drop_round|].
    split; [by rewrite Hm, Hm1, Hcq1, mode_after_round|].
    split; [by rewrite Hq, Hq1, app_assoc|].
    split; [rewrite Hi1 in Hn; lia|].
    apply Forall_app. split.
    + apply list.Forall_forall. intros d Hd.
      pose proof (proj1 (list.Forall_forall _ _) Hall d Hd) as [H0 H].
      split; [done|]. split.
      * eapply elem_of_sublist; [|exact Hsub]. by apply list_elem_of_fmap_2.
      * destruct H as [[_ H]|(_ & H & _)]; [by left|right; congruence].
    + revert Hall'. apply Forall_impl. intros d (H0 & H1 & H).
      split; [done|]. split; [done|]. destruct H as [H|H]; [by left|right; congruence].
Qed.

Lemma pick_fold_in l : ∀ acc,
  foldl Ramp.pick acc l = acc ∨
  ∃ x, x ∈ l ∧ foldl Ramp.pick acc l = (refresh x, sensorId x).
Proof.
  induction l as [|y l IH]; intros acc; [by left|].
  cbn [foldl]. destruct (IH (Ramp.pick acc y)) as [->|(x & Hx & ->)].
  - unfold Ramp.pick. case_decide; [|by left].
    right. exists y. split; [apply list_elem_of_here|done].
  - right. exists x. split; [by apply list_elem_of_further|done].
Qed.

(** The initialisation returns when no refresh interval is zero. *)
Lemma init_step s :
  Forall (λ x, refresh x ≠ Qc_of_Z 0) (settings.SENSORS cfg) →
  ∃ s', init cfg default_timer s = (Ok tt, s') ∧ ready cfg s' ∧
        transmitQueue s' = transmitQueue s.
Proof.
  intros Hrate.
  assert (Hdemo : ∃ s1, init_demo cfg s = (Ok tt, s1) ∧
                        transmitQueue s1 = transmitQueue s).
  { unfold init_demo. destruct (settings.SERIALIO_DEMO cfg); [|by eexists].
    destruct setupDemoSensors_some_ds as [ds Hds].
    eexists. split; [|shelve].
    erewrite bind_Ok by reflexivity.
    erewrite (bind_Ok (lift (setupDemoSensors cfg))); [reflexivity|].
    unfold lift. by rewrite Hds.
    Unshelve. done. }
  destruct Hdemo as (s1 & H1 & Htq1).
  set (s2 := set_connected false s1).
  pose proof (find_highest_sample_rate_run cfg s2) as H3. cbn zeta in H3.
  rewrite decide_False in H3.
  2:{ destruct (pick_fold_in (settings.SENSORS cfg) (Qc_of_Z 99, ""))
        as [->|(x & Hx & ->)]; cbn [fst].
      - by intros ?%Z2Qc_inj.
      - by apply (proj1 (list.Forall_forall _ _) Hrate). }
  set (s3 := set_highest_sample_rate _ _) in H3.
  destruct (reset_loop_run default_timer (settings.SENSORS cfg) (set_sensor_timer ∅ s3))
    as (m & n & H4 & Hin & _).
  assert (Hrun : init cfg default_timer s
                 = (Ok tt, set_counter 0
                             (set_sensor_timer m (set_timer_reads n (set_sensor_timer ∅ s3))))).
  { unfold init. erewrite bind_Ok by exact H1.
    rewrite (bind_Ok _ _ s1 tt s2) by reflexivity.
    erewrite bind_Ok by exact H3.
    erewrite (bind_Ok (reset_timers cfg default_timer)); [reflexivity|].
    unfold reset_timers. rewrite (bind_Ok _ _ s3 tt (set_sensor_timer ∅ s3)) by reflexivity.
    exact H4. }
  eexists. split; [exact Hrun|].
  destruct (init_inv cfg default_timer s _ Hrun) as (Hd & _ & _ & _ & _ & _ & Ht & Hds).
  split; [|done].
  split; [done|]. intros Hon. rewrite Hd in Hon.
  destruct (Hds Hon) as (ds & Hgen & Hs).
  destruct (generated_ready ds _ Hgen Ht Hs) as [_ Hready]. apply Hready.
  by rewrite Hd.
Qed.

(** A run from the entry of [SerialIO]: the initialisation, then [n]
    rounds. *)
Lemma run_step n tx rx ctl :
  Forall (λ x, refresh x ≠ Qc_of_Z 0) (settings.SENSORS cfg) →
  ∃ s0 s' out,
    init cfg default_timer (entry tx rx ctl) = (Ok tt, s0) ∧ ready cfg s0 ∧
    SerialIO.SerialIO cfg isMine default_timer n (entry tx rx ctl) = (Ok tt, s') ∧
    ready cfg s' ∧
    connected s' = false ∧
    (highest_sample_rate s0, sample_counter_id s')
    = foldl Ramp.pick (Qc_of_Z 99, "") (settings.SENSORS cfg) ∧
    controlQueue s' = drop n ctl ∧ transmitQueue s' = drop n tx ∧
    SERIALIO_DEMO s' = mode_after cfg isMine (settings.SERIALIO_DEMO cfg) (take n ctl) ∧
    receiveQueue s' = rx ++ out ∧
    (0 ≤ counter s'
     ≤ Z.of_nat n
       * Z.of_nat (length (pacing_sensors (sample_counter_id s')
                             (settings.SENSORS cfg))))%Z ∧
    Forall (λ d, d0 d = settings.TYPE_DATA cfg ∧
                 d1 d ∈ sensorId <$> settings.SENSORS cfg ∧ is_demo d) out.
Proof.
  intros Hrate.
  destruct (init_step (entry tx rx ctl) Hrate) as (s0 & Hinit & Hr0 & Htq0).
  destruct (init_inv cfg default_timer _ _ Hinit)
    as (Hd0 & Hk0 & Hn0 & Hrq0 & Hcq0 & Hpick & _ & _).
  destruct (loop_step n s0 Hr0)
    as (s' & out & Hl & Hr' & Hk & Hi & Hcq & Htq & Hm & Hq & Hn & Hall).
  exists s0, s', out. split; [done|]. split; [done|]. split.
  { unfold SerialIO.SerialIO. erewrite bind_Ok by exact Hinit. exact Hl. }
  split; [done|]. split; [congruence|]. split; [by rewrite Hi|].
  split; [by rewrite Hcq, Hcq0|]. split; [by rewrite Htq, Htq0|].
  split; [by rewrite Hm, Hd0, Hcq0|]. split; [by rewrite Hq, Hrq0|].
  split; [rewrite Hi; lia|].
  revert Hall. apply Forall_impl. intros d (H0 & H1 & [H|H]); [done|congruence].
Qed.

(** With the connection flag and demo mode off, rounds that find no
    toggling message emit nothing. *)
Lemma loop_silent n : ∀ s s',
  ready cfg s → connected s = false → SERIALIO_DEMO s = false →
  Forall (λ c, toggles cfg isMine c = false) (take n (controlQueue s)) →
  loop cfg isMine default_timer n s = (Ok tt, s') →
  receiveQueue s' = receiveQueue s ∧ SERIALIO_DEMO s' = false.
Proof.
  induction n as [|n IH]; intros s s' Hr Hk Hd Hq Hrun.
  - by injection Hrun as <-.
  - destruct (tick_step s Hr)
      as (s1 & out & Ht & Hr1 & Hk1 & _ & Hcq1 & _ & Hm1 & Hq1 & _ & _ & Hall).
    cbn [loop] in Hrun. erewrite bind_Ok in Hrun by exact Ht.
    assert (Hd1 : SERIALIO_DEMO s1 = false).
    { rewrite Hm1, Hd. destruct (controlQueue s) as [|c q]; [done|].
      cbn. apply Forall_cons_1 in Hq as [-> _]. done. }
    assert (Hout : out = []).
    { destruct out as [|d out]; [done|].
      apply Forall_cons_1 in Hall as [[_ [[H _]|(_ & H & _)]] _]; congruence. }
    destruct (IH s1 s' Hr1) as [Hq' Hd']; [congruence|done| |done|].
    + rewrite Hcq1. destruct (controlQueue s) as [|c q]; [by destruct n|].
      cbn in *. by apply Forall_cons_1 in Hq as [_ Hq].
    + split; [|done]. by rewrite Hq', Hq1, Hout, app_nil_r.
Qed.

(** Under distinct ids at most one sensor carries the pacing id. *)
Lemma pacing_sensors_NoDup id l :
  NoDup (sensorId <$> l) → (length (pacing_sensors id l) ≤ 1)%nat.
Proof.
  unfold pacing_sensors. induction l as [|y l IH]; intros Hnd; [cbn; lia|].
  rewrite fmap_cons in Hnd.
  pose proof (NoDup_cons_1_1 _ _ Hnd) as Hy. apply NoDup_cons_1_2 in Hnd.
  rewrite filter_cons. case_decide as Hid; [|by apply IH].
  assert (Hnil : filter (λ x, sensorId x = id) l = []).
  { destruct (filter (λ x, sensorId x = id) l) as [|z r] eqn:E; [done|].
    assert (Hz : z ∈ filter (λ x, sensorId x = id) l) by (rewrite E; apply list_elem_of_here).
    apply list_elem_of_filter in Hz as [Hz Hin].
    destruct Hy. rewrite Hid, <- Hz. by apply list_elem_of_fmap_2. }
  cbn. rewrite Hnil. cbn. lia.
Qed.

End Acquire.

(** X6. With a positive [DEMO_STEPS] and no refresh interval of zero,
    [SerialIO] never raises: whatever the queues hold, whatever the clock
    reads and whoever the control messages are for, the initialisation
    and any number of rounds of the sample loop return. *)
Theorem acquisition_never_raises (cfg : settings.t) (isMine : ControlData → Z → bool)
    (default_timer : nat → Qc) (n : nat) tx rx ctl :
  0 < settings.DEMO_STEPS cfg →
  Forall (λ x, refresh x ≠ Qc_of_Z 0) (settings.SENSORS cfg) →
  ∃ s', SerialIO.SerialIO cfg isMine default_timer n (SerialIO.entry tx rx ctl)
        = (Ok tt, s').
Proof.
  intros Hsteps Hrate.
  destruct (run_step cfg isMine default_timer Hsteps n tx rx ctl Hrate)
    as (s0 & s' & out & _ & _ & Hrun & _).
  by exists s'.
Qed.

Lemma acquisition_never_raises_witness :
  ∃ s', SerialIO.SerialIO Fixtures.cfg_two Fixtures.isMine Fixtures.seconds 3
          (SerialIO.entry ["req"] [] [Fixtures.short_press; Fixtures.long_press])
        = (Ok tt, s').
Proof.
  apply acquisition_never_raises.
  - reflexivity.
  - apply (bool_decide_unpack _). vm_compute. reflexivity.
Defined.

(** X7. Each round takes at most one control message and one transmit
    request, from the head of its queue: after [n] rounds the first [n]
    entries of either queue are gone and the rest is untouched. *)
Theorem queues_taken_one_per_round (cfg : settings.t) (isMine : ControlData → Z → bool)
    (default_timer : nat → Qc) (n : nat) tx rx ctl :
  0 < settings.DEMO_STEPS cfg →
  Forall (λ x, refresh x ≠ Qc_of_Z 0) (settings.SENSORS cfg) →
  ∃ s', SerialIO.SerialIO cfg isMine default_timer n (SerialIO.entry tx rx ctl)
        = (Ok tt, s') ∧
        SerialIO.controlQueue s' = drop n ctl ∧
        SerialIO.transmitQueue s' = drop n tx.
Proof.
  intros Hsteps Hrate.
  destruct (run_step cfg isMine default_timer Hsteps n tx rx ctl Hrate)
    as (s0 & s' & out & _ & _ & Hrun & _ & _ & _ & Hcq & Htq & _).
  by exists s'.
Qed.

Lemma queues_taken_one_per_round_witness :
  ∃ s', SerialIO.SerialIO Fixtures.cfg_two Fixtures.isMine Fixtures.seconds 1
          (SerialIO.entry ["a"; "b"] [] [Fixtures.long_press; Fixtures.short_press])
        = (Ok tt, s') ∧
        SerialIO.controlQueue s' = [Fixtures.short_press] ∧
        SerialIO.transmitQueue s' = ["b"].
Proof.
  apply (queues_taken_one_per_round Fixtures.cfg_two Fixtures.isMine Fixtures.seconds 1
           ["a"; "b"] [] [Fixtures.long_press; Fixtures.short_press]).
  - reflexivity.
  - apply (bool_decide_unpack _). vm_compute. reflexivity.
Defined.

(** X8. Demo mode is switched by nothing but short presses addressed to
    the serial worker: after [n] rounds the mode is the configured one,
    negated once for every such message among the first [n] control
    messages; long presses, releases and messages for other workers
    leave it as it is. *)
Theorem demo_mode_follows_short_presses (cfg : settings.t)
    (isMine : ControlData → Z → bool) (default_timer : nat → Qc) (n : nat) tx rx ctl :
  0 < settings.DEMO_STEPS cfg →
  Forall (λ x, refresh x ≠ Qc_of_Z 0) (settings.SENSORS cfg) →
  ∃ s', SerialIO.SerialIO cfg isMine default_timer n (SerialIO.entry tx rx ctl)
        = (Ok tt, s') ∧
        SerialIO.SERIALIO_DEMO s'
        = Acquisition.mode_after cfg isMine (settings.SERIALIO_DEMO cfg) (take n ctl).
Proof.
  intros Hsteps Hrate.
  destruct (run_step cfg isMine default_timer Hsteps n tx rx ctl Hrate)
    as (s0 & s' & out & _ & _ & Hrun & _ & _ & _ & _ & _ & Hm & _).
  by exists s'.
Qed.

Lemma demo_mode_follows_short_presses_witness :
  ∃ s', SerialIO.SerialIO Fixtures.cfg_two Fixtures.isMine Fixtures.seconds 3
          (SerialIO.entry [] []
             [Fixtures.short_press; Fixtures.long_press; Fixtures.short_press])
        = (Ok tt, s') ∧
        SerialIO.SERIALIO_DEMO s' = true.
Proof.
  apply (demo_mode_follows_short_presses Fixtures.cfg_two Fixtures.isMine
           Fixtures.seconds 3 [] []
           [Fixtures.short_press; Fixtures.long_press; Fixtures.short_press]).
  - reflexivity.
  - apply (bool_decide_unpack _). vm_compute. reflexivity.
Defined.

(** X9. The connection flag is never set, so the live branch never sends:
    the receive queue only grows at its end, and every sample [SerialIO]
    puts on it is of type DATA, names a sensor of the registry and carries
    a demo value. *)
Theorem samples_are_demo_data (cfg : settings.t) (isMine : ControlData → Z → bool)
    (default_timer : nat → Qc) (n : nat) tx rx ctl :
  0 < settings.DEMO_STEPS cfg →
  Forall (λ x, refresh x ≠ Qc_of_Z 0) (settings.SENSORS cfg) →
  ∃ s' out,
    SerialIO.SerialIO cfg isMine default_timer n (SerialIO.entry tx rx ctl)
    = (Ok tt, s') ∧
    SerialIO.connected s' = false ∧
    SerialIO.receiveQueue s' = rx ++ out ∧
    Forall (λ d, d0 d = settings.TYPE_DATA cfg ∧
                 d1 d ∈ sensorId <$> settings.SENSORS cfg ∧
                 Cursor.is_demo d) out.
Proof.
  intros Hsteps Hrate.
  destruct (run_step cfg isMine default_timer Hsteps n tx rx ctl Hrate)
    as (s0 & s' & out & _ & _ & Hrun & _ & Hk & _ & _ & _ & _ & Hq & _ & Hall).
  by exists s', out.
Qed.

Lemma samples_are_demo_data_witness :
  ∃ s' out,
    SerialIO.SerialIO Fixtures.cfg_two Fixtures.isMine Fixtures.seconds 2
      (SerialIO.entry [] [] []) = (Ok tt, s') ∧
    SerialIO.connected s' = false ∧
    SerialIO.receiveQueue s' = [] ++ out ∧
    Forall (λ d, d0 d = 1 ∧ d1 d ∈ ["ECT"; "RPM"] ∧ Cursor.is_demo d) out.
Proof.
  apply (samples_are_demo_data Fixtures.cfg_two Fixtures.isMine Fixtures.seconds 2
           [] [] []).
  - reflexivity.
  - apply (bool_decide_unpack _). vm_compute. reflexivity.
Defined.

(** X10. In live mode nothing is ever sent: when demo mode is configured
    off and none of the first [n] control messages switches it on, [n]
    rounds leave the receive queue as it was handed over. *)
Theorem live_mode_sends_nothing (cfg : settings.t) (isMine : ControlData → Z → bool)
    (default_timer : nat → Qc) (n : nat) tx rx ctl :
  0 < settings.DEMO_STEPS cfg →
  Forall (λ x, refresh x ≠ Qc_of_Z 0) (settings.SENSORS cfg) →
  settings.SERIALIO_DEMO cfg = false →
  Forall (λ c, Acquisition.toggles cfg isMine c = false) (take n ctl) →
  ∃ s', SerialIO.SerialIO cfg isMine default_timer n (SerialIO.entry tx rx ctl)
        = (Ok tt, s') ∧
        SerialIO.receiveQueue s' = rx.
Proof.
  intros Hsteps Hrate Hoff Hctl.
  destruct (run_step cfg isMine default_timer Hsteps n tx rx ctl Hrate)
    as (s0 & s' & out & Hinit & Hr0 & Hrun & _).
  destruct (init_inv cfg default_timer _ _ Hinit)
    as (Hd0 & Hk0 & _ & Hrq0 & Hcq0 & _).
  exists s'. split; [done|].
  unfold SerialIO.SerialIO in Hrun. erewrite bind_Ok in Hrun by exact Hinit.
  destruct (loop_silent cfg isMine default_timer Hsteps n s0 s') as [Hq _];
    [done|done|congruence|by rewrite Hcq0|done|].
  by rewrite Hq, Hrq0.
Qed.

Lemma live_mode_sends_nothing_witness :
  ∃ s', SerialIO.SerialIO Fixtures.cfg_live Fixtures.isMine Fixtures.minutes 3
          (SerialIO.entry [] [] [Fixtures.long_press])
        = (Ok tt, s') ∧
        SerialIO.receiveQueue s' = [].
Proof.
  apply (live_mode_sends_nothing Fixtures.cfg_live Fixtures.isMine Fixtures.minutes 3
           [] [] [Fixtures.long_press]).
  - reflexivity.
  - apply (bool_decide_unpack _). vm_compute. reflexivity.
  - reflexivity.
  - apply (bool_decide_unpack _). vm_compute. reflexivity.
Defined.

(** X11. The sample counter counts at most one per round when the ids of
    the registry are distinct: after [n] rounds it lies between 0 and
    [n]. *)
Theorem counter_at_most_rounds (cfg : settings.t) (isMine : ControlData → Z → bool)
    (default_timer : nat → Qc) (n : nat) tx rx ctl :
  0 < settings.DEMO_STEPS cfg →
  Forall (λ x, refresh x ≠ Qc_of_Z 0) (settings.SENSORS cfg) →
  NoDup (sensorId <$> settings.SENSORS cfg) →
  ∃ s', SerialIO.SerialIO cfg isMine default_timer n (SerialIO.entry tx rx ctl)
        = (Ok tt, s') ∧
        0 ≤ SerialIO.counter s' ≤ Z.of_nat n.
Proof.
  intros Hsteps Hrate Hnd.
  destruct (run_step cfg isMine default_timer Hsteps n tx rx ctl Hrate)
    as (s0 & s' & out & _ & _ & Hrun & _ & _ & _ & _ & _ & _ & _ & Hn & _).
  exists s'. split; [done|].
  pose proof (pacing_sensors_NoDup (SerialIO.sample_counter_id s')
                (settings.SENSORS cfg) Hnd).
  nia.
Qed.

Lemma counter_at_most_rounds_witness :
  ∃ s', SerialIO.SerialIO Fixtures.cfg_two Fixtures.isMine Fixtures.seconds 3
          (SerialIO.entry [] [] []) = (Ok tt, s') ∧
        0 ≤ SerialIO.counter s' ≤ 3.
Proof.
  apply (counter_at_most_rounds Fixtures.cfg_two Fixtures.isMine Fixtures.seconds 3
           [] [] []).
  - reflexivity.
  - apply (bool_decide_unpack _). vm_compute. reflexivity.
  - apply (bool_decide_unpack _). vm_compute. reflexivity.
Defined.

(** X12. Within a round the samples come in the order of the registry, at
    most one for each of its entries: the ids of the samples a round adds
    form a sublist of the ids of [settings.SENSORS]. *)
Theorem round_emits_in_registry_order (cfg : settings.t)
    (isMine : ControlData → Z → bool) (default_timer : nat → Qc) (n : nat) tx rx ctl :
  0 < settings.DEMO_STEPS cfg →
  Forall (λ x, refresh x ≠ Qc_of_Z 0) (settings.SENSORS cfg) →
  ∃ sn s' out,
    SerialIO.SerialIO cfg isMine default_timer n (SerialIO.entry tx rx ctl)
    = (Ok tt, sn) ∧
    SerialIO.tick cfg isMine default_timer sn = (Ok tt, s') ∧
    SerialIO.receiveQueue s' = SerialIO.receiveQueue sn ++ out ∧
    sublist (d1 <$> out) (sensorId <$> settings.SENSORS cfg).
Proof.
  intros Hsteps Hrate.
  destruct (run_step cfg isMine default_timer Hsteps n tx rx ctl Hrate)
    as (s0 & sn & _ & _ & _ & Hrun & Hr & _).
  destruct (tick_step cfg isMine default_timer Hsteps sn Hr)
    as (s' & out & Ht & _ & _ & _ & _ & _ & _ & Hq & _ & Hsub & _).
  by exists sn, s', out.
Qed.

Lemma round_emits_in_registry_order_witness :
  ∃ sn s' out,
    SerialIO.SerialIO Fixtures.cfg_two Fixtures.isMine Fixtures.seconds 1
      (SerialIO.entry [] [] []) = (Ok tt, sn) ∧
    SerialIO.tick Fixtures.cfg_two Fixtures.isMine Fixtures.seconds sn = (Ok tt, s') ∧
    SerialIO.receiveQueue s' = SerialIO.receiveQueue sn ++ out ∧
    sublist (d1 <$> out) ["ECT"; "RPM"].
Proof.
  apply (round_emits_in_registry_order Fixtures.cfg_two Fixtures.isMine
           Fixtures.seconds 1 [] [] []).
  - reflexivity.
  - apply (bool_decide_unpack _). vm_compute. reflexivity.
Defined.

(** * The coordinator over a run *)

Section Drain.
Context (cfg : settings.t).
Import PyCosworth.

Lemma store_sample_keys e d k :
  is_Some (data (store_sample cfg e d) !! k) ↔ is_Some (data e !! k).
Proof.
  unfold store_sample. cbn.
  destruct (decide (d0 d = settings.TYPE_ERROR cfg)); [done|].
  destruct (decide (d0 d = settings.TYPE_DATA cfg)); [|done].
  destruct (data e !! d1 d) as [current|] eqn:Hcur; [|done]. cbn.
  destruct (decide (d1 d = k)) as [<-|Hne].
  - rewrite lookup_insert_eq, Hcur. split; by eexists.
  - by rewrite lookup_insert_ne.
Qed.


Lemma foldl_store_sample_keys l : ∀ e k,
  is_Some (data (foldl (store_sample cfg) e l) !! k) ↔ is_Some (data e !! k).
Proof.
  induction l as [|d l IH]; intros e k; [done|].
  cbn [foldl]. by rewrite IH, store_sample_keys.
Qed.

(** Lines 180-202 for a sample that can be handed over. *)
Lemma receive_step_store s d rest :
  serialReceiveQueue s = d :: rest →
  accepted cfg (ecuData s) d →
  ∃ s', receive_step cfg s = (Ok tt, s') ∧
        ecuData s' = store_sample cfg (ecuData s) d ∧
        serialReceiveQueue s' = rest ∧ i s' = i s.
Proof.
  intros Hq Hd. rewrite (receive_step_cons cfg d rest s Hq). unfold store_sample.
  destruct (decide (d0 d = settings.TYPE_ERROR cfg)) as [He|He].
  { rewrite dispatch_error by done. by eexists. }
  destruct (decide (d0 d = settings.TYPE_DATA cfg)) as [Hdata|Hdata].
  - destruct Hd as [?|[?|[current Hcur]]]; [done..|].
    rewrite (dispatch_data cfg d _ current) by done. rewrite Hcur. by eexists.
  - rewrite dispatch_unknown by done. by eexists.
Qed.

Lemma put_all_is_Some m l qs q : is_Some (qs q) → is_Some (put_all m l qs q).
Proof.
  revert qs. induction l as [|x l IH]; intros qs Hq; [done|].
  unfold put_all. cbn [foldl]. apply IH.
  destruct (decide (x = q)) as [->|Hne].
  - rewrite fn_lookup_insert. by apply fmap_is_Some.
  - by rewrite fn_lookup_insert_ne.
Qed.

(** One round of the main loop, when the sample at the head of the receive
    queue can be handed over and the action queue exists. *)
Lemma tick_store s :
  Forall (accepted cfg (ecuData s)) (take 1 (serialReceiveQueue s)) →
  is_Some (queues s gpioActionQueue) →
  ∃ s', tick cfg s = (Ok tt, s') ∧
        ecuData s' = foldl (store_sample cfg) (ecuData s) (take 1 (serialReceiveQueue s)) ∧
        serialReceiveQueue s' = drop 1 (serialReceiveQueue s) ∧
        is_Some (queues s' gpioActionQueue) ∧
        i s' = next_i (i s).
Proof.
  intros Hacc [q Hq]. unfold tick.
  rewrite (bind_Ok _ _ s s s) by reflexivity.
  set (sa := if decide (i s = Some 10000)
             then set_i (Some 0)
                    (set_log (log s ++ [(info, "Still running [main process]")]) s)
             else s).
  assert (Ha : ecuData sa = ecuData s ∧ serialReceiveQueue sa = serialReceiveQueue s ∧
               queues sa = queues s ∧
               i sa = if decide (i s = Some 10000) then Some 0 else i s)
    by (unfold sa; by case_decide).
  destruct Ha as (Hea & Hra & Hqa & Hia).
  rewrite (bind_Ok _ _ s tt sa) by (unfold sa; by case_decide).
  assert (Hb : ∃ sb, receive_step cfg sa = (Ok tt, sb) ∧
                 ecuData sb = foldl (store_sample cfg) (ecuData s)
                                (take 1 (serialReceiveQueue s)) ∧
                 serialReceiveQueue sb = drop 1 (serialReceiveQueue s) ∧
                 i sb = i sa).
  { destruct (serialReceiveQueue s) as [|d rest] eqn:Hrq.
    - exists sa. rewrite receive_step_nil by congruence.
      split; [done|]. split; [exact Hea|]. split; [exact Hra|done].
    - apply Forall_cons_1 in Hacc as [Hd _].
      destruct (receive_step_store sa d rest) as (sb & Hb & He & Hr & Hi);
        [congruence|by rewrite Hea|].
      exists sb. rewrite Hea in He. done. }
  destruct Hb as (sb & Hb & Heb & Hrb & Hib).
  rewrite (bind_Ok _ _ _ _ _ Hb).
  apply receive_step_same_bus in Hb as (Hqb & _ & _).
  assert (Hq' : queues sb gpioActionQueue = Some q) by (by rewrite Hqb, Hqa).
  unfold next_i. rewrite <- Hia, <- Hib.
  destruct q as [|m rest].
  - rewrite (bind_Ok _ _ _ _ _ (button_step_nil sb Hq')).
    eexists. split; [done|]. cbn. rewrite Hq'. by repeat split.
  - rewrite (bind_Ok _ _ _ _ _ (button_step_cons sb m rest Hq')).
    eexists. split; [done|]. cbn. split; [done|]. split; [done|]. split; [|done].
    apply put_all_is_Some. destruct (decide (gpioActionQueue = gpioActionQueue)); [|done].
    rewrite fn_lookup_insert. by eexists.
Qed.

Lemma take_round {A} (q : list A) n : take 1 q ++ take n (drop 1 q) = take (S n) q.
Proof. destruct q as [|c q]; [by destruct n|done]. Qed.

(** [n] rounds, when the first [n] samples of the receive queue can be
    handed over. *)
Lemma loop_store n : ∀ s,
  Forall (accepted cfg (ecuData s)) (take n (serialReceiveQueue s)) →
  is_Some (queues s gpioActionQueue) →
  ∃ s', loop cfg n s = (Ok tt, s') ∧
        ecuData s' = foldl (store_sample cfg) (ecuData s) (take n (serialReceiveQueue s)) ∧
        serialReceiveQueue s' = drop n (serialReceiveQueue s) ∧
        is_Some (queues s' gpioActionQueue) ∧
        i s' = Nat.iter n next_i (i s).
Proof.
  induction n as [|n IH]; intros s Hacc Hq.
  - exists s. by rewrite take_0, drop_0.
  - rewrite <- take_round in Hacc. apply Forall_app in Hacc as [Hacc1 Hacc2].
    destruct (tick_store s Hacc1 Hq) as (s1 & Ht & He1 & Hr1 & Hq1 & Hi1).
    destruct (IH s1) as (s' & Hl & He & Hr & Hq' & Hi); [|done|].
    { rewrite Hr1. revert Hacc2. apply Forall_impl. intros d [?|[?|Hd]].
      - by left.
      - right. by left.
      - right. right. rewrite He1. by apply foldl_store_sample_keys. }
    exists s'. split.
    { cbn [loop]. erewrite bind_Ok by exact Ht. exact Hl. }
    split; [by rewrite He, He1, Hr1, <- foldl_app, take_round|].
    split; [by rewrite Hr, Hr1, drop_round|]. split; [done|].
    rewrite Hi, Hi1. by rewrite Nat.iter_succ_r.
Qed.

End Drain.

Section Main.
Context (cfg : settings.t).
Import PyCosworth.


(** The start-up with the console off, for every choice of the other
    three switches. *)
Lemma startup_run :
  settings.USE_CONSOLE cfg = false →
  ∃ s, startup cfg entry = (Ok tt, s) ∧
       started s = enabled_workers cfg ∧ workers s = enabled_workers cfg ∧
       messageQueues s = enabled_queues cfg ∧
       (∀ q, q ∈ enabled_queues cfg → queues s q = Some []) ∧
       queues s gpioActionQueue
       = (if settings.USE_BUTTONS cfg then Some [] else None) ∧
       queues s consoleControlQueue = None ∧
       serialReceiveQueue s = [] ∧ i s = Some 0 ∧ log s = [].
Proof.
  intros Hconsole.
  destruct (create_ecuData_run cfg entry) as [e He].
  unfold startup. erewrite bind_Ok by exact He. rewrite Hconsole.
  unfold enabled_workers, enabled_queues.
  destruct (settings.USE_MATRIX cfg), (settings.USE_BUTTONS cfg),
    (settings.USE_GRAPHICS cfg);
    (eexists; split; [vm_compute; reflexivity|]);
    cbn [started workers messageQueues queues serialReceiveQueue i log app];
    (split; [reflexivity|]); (split; [reflexivity|]); (split; [reflexivity|]);
    (split; [|by repeat split]);
    intros q Hq; repeat (apply elem_of_cons in Hq as [->|Hq]);
    try (by apply elem_of_nil in Hq); reflexivity.
Qed.

Lemma tick_unbound s r s' :
  queues s gpioActionQueue = None →
  tick cfg s = (r, s') → r ≠ Ok tt.
Proof.
  intros Hq Ht ->. destruct (tick_inv cfg s s' Ht) as (s1 & s2 & (Hq1 & _) & Hb & _).
  rewrite button_step_unbound in Hb by (by rewrite Hq1). done.
Qed.

Lemma reachable_unbound s :
  settings.USE_BUTTONS cfg = false →
  reachable cfg s → queues s gpioActionQueue = None.
Proof.
  intros Hb. induction 1 as [s H|s s' _ IH H|s s' _ IH H].
  - destruct (settings.USE_CONSOLE cfg) eqn:Hc.
    + destruct (startup_console_run cfg Hc) as [e He]. congruence.
    + destruct (startup_run Hc) as (s0 & Hs0 & _ & _ & _ & _ & Hg & _).
      rewrite Hb in Hg. congruence.
  - by destruct (tick_unbound s (Ok tt) s' IH H).
  - destruct H as [s q m Hq|s d|s w q m rest _ _ Hq]; cbn.
    + congruence.
    + done.
    + destruct (decide (q = gpioActionQueue)) as [->|Hne]; [congruence|].
      by rewrite fn_lookup_insert_ne.
Qed.

(** What a round does to [i] keeps it within the bounds. *)
Lemma next_i_bounded n :
  (∃ k, n = Some k ∧ 0 ≤ k ≤ 10000) →
  ∃ k, next_i n = Some k ∧ 1 ≤ k ≤ 10000.
Proof.
  intros (k & -> & Hk). unfold next_i. case_decide as H10.
  - exists 1. split; [done|lia].
  - exists (k + 1). split; [done|]. assert (k ≠ 10000) by congruence. lia.
Qed.

Lemma tick_i s s' : tick cfg s = (Ok tt, s') → i s' = next_i (i s).
Proof.
  unfold tick. intros H.
  apply bind_Ok_inv in H as (s0 & s0' & Hget & H).
  injection Hget as <- <-.
  apply bind_Ok_inv in H as ([] & sa & Ha & H).
  apply bind_Ok_inv in H as ([] & sb & Hb & H).
  apply bind_Ok_inv in H as ([] & sc & Hc & H).
  injection H as <-. cbn.
  assert (Hi : i sc = if decide (i s = Some 10000) then Some 0 else i s).
  { assert (Hsa : i sa = if decide (i s = Some 10000) then Some 0 else i s).
    { case_decide; [|by injection Ha as <-].
      apply bind_Ok_inv in Ha as ([] & ? & [= <-] & [= <-]). done. }
    assert (Hsb : i sb = i sa).
    { destruct (serialReceiveQueue sa) as [|d rest] eqn:Hq.
      - rewrite receive_step_nil in Hb by done. by injection Hb as <-.
      - rewrite (receive_step_cons cfg d rest sa Hq) in Hb.
        destruct (decide (d0 d = settings.TYPE_ERROR cfg)) as [He|He].
        { rewrite dispatch_error in Hb by done. by injection Hb as <-. }
        destruct (decide (d0 d = settings.TYPE_DATA cfg)) as [Hd|Hd].
        + destruct (data (ecuData sa) !! d1 d) as [current|] eqn:Hcur.
          * rewrite (dispatch_data cfg d _ current) in Hb by done. by injection Hb as <-.
          * by rewrite dispatch_data_unregistered in Hb.
        + rewrite dispatch_unknown in Hb by done. by injection Hb as <-. }
    assert (Hsc : i sc = i sb).
    { destruct (queues sb gpioActionQueue) as [[|m rest]|] eqn:Hq.
      - rewrite button_step_nil in Hc by done. by injection Hc as <-.
      - rewrite (button_step_cons sb m rest Hq) in Hc. by injection Hc as <-.
      - by rewrite button_step_unbound in Hc. }
    congruence. }
  unfold next_i. by rewrite Hi.
Qed.

End Main.

(** X13. The coordinator takes the samples off the receive queue in their
    order, one per round: when the first [n] samples can be handed over
    (none is a DATA sample of a sensor that [ecuData.data] lacks) and the
    action queue exists, [n] rounds return, the first [n] samples are gone
    and [ecuData] is the result of storing them one after the other. *)
Theorem coordinator_drains_in_order (cfg : settings.t) (s : PyCosworth.State) (n : nat) :
  Forall (PyCosworth.accepted cfg (PyCosworth.ecuData s))
         (take n (PyCosworth.serialReceiveQueue s)) →
  is_Some (PyCosworth.queues s PyCosworth.gpioActionQueue) →
  ∃ s', PyCosworth.loop cfg n s = (Ok tt, s') ∧
        PyCosworth.serialReceiveQueue s' = drop n (PyCosworth.serialReceiveQueue s) ∧
        PyCosworth.ecuData s'
        = foldl (PyCosworth.store_sample cfg) (PyCosworth.ecuData s)
                (take n (PyCosworth.serialReceiveQueue s)).
Proof.
  intros Hacc Hq.
  destruct (loop_store cfg n s Hacc Hq) as (s' & Hl & He & Hr & _).
  by exists s'.
Qed.

Lemma coordinator_drains_in_order_witness :
  let s := Fixtures.with_samples
             [Fixtures.sample 1 "RPM" 1000 1; Fixtures.sample 0 "RPM" 7 2;
              Fixtures.sample 1 "RPM" 2000 3]
             (Fixtures.running Fixtures.cfg_rpm) in
  ∃ s', PyCosworth.loop Fixtures.cfg_rpm 2 s = (Ok tt, s') ∧
        PyCosworth.serialReceiveQueue s' = [Fixtures.sample 1 "RPM" 2000 3] ∧
        PyCosworth.data (PyCosworth.ecuData s') !! "RPM" = Some (VFloat (Qc_of_Z 1000)) ∧
        PyCosworth.counter (PyCosworth.ecuData s') = 2.
Proof.
  intros s.
  destruct (coordinator_drains_in_order Fixtures.cfg_rpm s 2) as (s' & Hl & Hr & He).
  - apply Forall_cons_2; [right; right; eexists; vm_compute; reflexivity|].
    apply Forall_cons_2; [left; reflexivity|apply Forall_nil_2].
  - eexists. vm_compute. reflexivity.
  - exists s'. split; [exact Hl|]. split; [exact Hr|]. rewrite He.
    split; vm_compute; reflexivity.
Defined.



(** X15. A DATA sample for a sensor that [ecuData.data] does not hold
    stops the coordinator with a [KeyError]: the sample has been taken off
    the queue, [ecuData] is as before (the counter and the cycle time of
    the sample are not stored) and no queue of the bus has changed, so a
    button message waiting in that round is not passed on. *)
Theorem unregistered_sample_key_error (cfg : settings.t) (s : PyCosworth.State) d rest :
  settings.TYPE_DATA cfg ≠ settings.TYPE_ERROR cfg →
  PyCosworth.serialReceiveQueue s = d :: rest →
  d0 d = settings.TYPE_DATA cfg →
  PyCosworth.data (PyCosworth.ecuData s) !! d1 d = None →
  ∃ s', PyCosworth.tick cfg s = (Raise KeyError, s') ∧
        PyCosworth.serialReceiveQueue s' = rest ∧
        PyCosworth.ecuData s' = PyCosworth.ecuData s ∧
        PyCosworth.queues s' = PyCosworth.queues s.
Proof.
  intros Hne Hq Hd Hcur. unfold PyCosworth.tick.
  rewrite (bind_Ok _ _ s s s) by reflexivity.
  set (sa := if decide (PyCosworth.i s = Some 10000)
             then PyCosworth.set_i (Some 0)
                    (PyCosworth.set_log
                       (PyCosworth.log s
                        ++ [(PyCosworth.info, "Still running [main process]")]) s)
             else s).
  assert (Ha : PyCosworth.ecuData sa = PyCosworth.ecuData s ∧
               PyCosworth.serialReceiveQueue sa = PyCosworth.serialReceiveQueue s ∧
               PyCosworth.queues sa = PyCosworth.queues s)
    by (unfold sa; by case_decide).
  destruct Ha as (Hea & Hra & Hqa).
  rewrite (bind_Ok _ _ s tt sa) by (unfold sa; by case_decide).
  eexists. split.
  - erewrite bind_Raise; [reflexivity|].
    rewrite (receive_step_cons cfg d rest sa) by congruence.
    rewrite dispatch_data_unregistered; [reflexivity|congruence|done|].
    cbn. by rewrite Hea.
  - cbn. by rewrite Hea, Hqa.
Qed.

Lemma unregistered_sample_key_error_witness :
  let s := Fixtures.press Fixtures.short_press
             (Fixtures.with_samples [Fixtures.sample 1 "MAP" 5 1]
                (Fixtures.running Fixtures.cfg_rpm)) in
  ∃ s', PyCosworth.tick Fixtures.cfg_rpm s = (Raise KeyError, s') ∧
        PyCosworth.serialReceiveQueue s' = [] ∧
        PyCosworth.queues s' PyCosworth.serialControlQueue = Some [].
Proof.
  intros s.
  destruct (unregistered_sample_key_error Fixtures.cfg_rpm s
              (Fixtures.sample 1 "MAP" 5 1) [])
    as (s' & Ht & Hr & _ & Hq).
  - discriminate.
  - reflexivity.
  - reflexivity.
  - vm_compute. reflexivity.
  - exists s'. split; [exact Ht|]. split; [exact Hr|]. rewrite Hq. reflexivity.
Defined.

(** X16. With [USE_BUTTONS] off the name [gpioActionQueue] is never bound,
    but every round reads it: no round of the main loop ever completes,
    in any state of a run, and the first round ends the program with a
    [NameError]. *)
Theorem no_round_without_buttons (cfg : settings.t) :
  settings.USE_BUTTONS cfg = false →
  (∀ s, PyCosworth.reachable cfg s →
        PyCosworth.queues s PyCosworth.gpioActionQueue = None ∧
        ∀ s', PyCosworth.tick cfg s ≠ (Ok tt, s')) ∧
  (settings.USE_CONSOLE cfg = false →
   ∀ n, (PyCosworth.main cfg (S n) PyCosworth.entry).1
        = Raise (NameError "gpioActionQueue")).
Proof.
  intros Hb. split.
  - intros s Hs. pose proof (reachable_unbound cfg s Hb Hs) as Hq.
    split; [done|]. intros s' Ht. by destruct (tick_unbound cfg s _ s' Hq Ht).
  - intros Hc n.
    destruct (startup_run cfg Hc) as (s & Hs & _ & _ & _ & _ & Hg & _ & Hr & Hi & _).
    rewrite Hb in Hg.
    unfold PyCosworth.main. erewrite bind_Ok by exact Hs.
    cbn [PyCosworth.loop]. erewrite bind_Raise; [reflexivity|].
    unfold PyCosworth.tick. rewrite (bind_Ok _ _ s s s) by reflexivity.
    rewrite decide_False by (rewrite Hi; discriminate).
    rewrite (bind_Ok _ _ s tt s) by reflexivity.
    rewrite (bind_Ok _ _ s tt s) by (by apply receive_step_nil).
    erewrite bind_Raise; [reflexivity|]. by apply button_step_unbound.
Qed.

Lemma no_round_without_buttons_witness :
  (PyCosworth.main Fixtures.cfg_nobuttons 3 PyCosworth.entry).1
  = Raise (NameError "gpioActionQueue").
Proof.
  destruct (no_round_without_buttons Fixtures.cfg_nobuttons) as [_ Hmain].
  - reflexivity.
  - apply (Hmain eq_refl 2%nat).
Defined.

(** X17. The round counter [i] stays between 0 and 10000 in every state
    of a run: it starts at 0, a round that finds it at 10000 sets it back
    to 0 before counting, and nothing else writes it. *)
Theorem round_counter_bounded (cfg : settings.t) (s : PyCosworth.State) :
  PyCosworth.reachable cfg s →
  ∃ k, PyCosworth.i s = Some k ∧ 0 ≤ k ≤ 10000.
Proof.
  induction 1 as [s H|s s' _ IH H|s s' _ IH H].
  - destruct (settings.USE_CONSOLE cfg) eqn:Hc.
    + destruct (startup_console_run cfg Hc) as [e He]. congruence.
    + destruct (startup_run cfg Hc) as (s0 & Hs0 & _ & _ & _ & _ & _ & _ & _ & Hi & _).
      exists 0. split; [congruence|lia].
  - rewrite (tick_i cfg s s' H).
    destruct (next_i_bounded _ IH) as (k & Hk & Hb). exists k. split; [done|lia].
  - by destruct H.
Qed.

Lemma round_counter_bounded_witness :
  ∃ k, PyCosworth.i (PyCosworth.loop Fixtures.cfg_rpm 1
                        (Fixtures.running Fixtures.cfg_rpm)).2 = Some k ∧
       0 ≤ k ≤ 10000.
Proof.
  apply (round_counter_bounded Fixtures.cfg_rpm).
  eapply PyCosworth.reach_tick.
  - apply PyCosworth.reach_startup. vm_compute. reflexivity.
  - vm_compute. reflexivity.
Defined.

(** X18. With [USE_CONSOLE] off the start-up returns for every choice of
    the other switches: it has started the serial worker and the enabled
    ones, registered for the broadcast the control queue of each of them
    but the button worker, bound every such queue to an empty queue and
    set [i] to 0; the action queue exists exactly if [USE_BUTTONS] is
    on. *)
Theorem startup_without_console (cfg : settings.t) :
  settings.USE_CONSOLE cfg = false →
  ∃ s, PyCosworth.startup cfg PyCosworth.entry = (Ok tt, s) ∧
       PyCosworth.started s = PyCosworth.enabled_workers cfg ∧
       PyCosworth.workers s = PyCosworth.enabled_workers cfg ∧
       PyCosworth.messageQueues s = PyCosworth.enabled_queues cfg ∧
       (∀ q, q ∈ PyCosworth.enabled_queues cfg → PyCosworth.queues s q = Some []) ∧
       PyCosworth.queues s PyCosworth.gpioActionQueue
       = (if settings.USE_BUTTONS cfg then Some [] else None) ∧
       PyCosworth.queues s PyCosworth.consoleControlQueue = None ∧
       PyCosworth.i s = Some 0.
Proof.
  intros Hc.
  destruct (startup_run cfg Hc) as (s & Hs & H1 & H2 & H3 & H4 & H5 & H6 & _ & H8 & _).
  by exists s.
Qed.

Lemma startup_without_console_witness :
  ∃ s, PyCosworth.startup Fixtures.cfg_nobuttons PyCosworth.entry = (Ok tt, s) ∧
       PyCosworth.messageQueues s
       = [PyCosworth.serialControlQueue; PyCosworth.matrixControlQueue] ∧
       PyCosworth.queues s PyCosworth.gpioActionQueue = None.
Proof.
  destruct (startup_without_console Fixtures.cfg_nobuttons)
    as (s & Hs & _ & _ & Hm & _ & Hg & _).
  - reflexivity.
  - exists s. split; [exact Hs|]. split; [exact Hm|exact Hg].
Defined.

(** X19. A refresh interval of 0 stops [SerialIO] before its loop: when
    the first sensor with the least refresh interval has the interval 0,
    [SerialIO] raises [ZeroDivisionError] for any number of rounds asked
    for.  The search for the highest sample rate ends at 0 and the log
    line after it divides by that rate (if the demo generator has not
    already raised the same error for a [DEMO_STEPS] of 0). *)
Theorem zero_refresh_stops_init (cfg : settings.t) (isMine : ControlData → Z → bool)
    (default_timer : nat → Qc) pre p post (n : nat) tx rx ctl :
  settings.SENSORS cfg = pre ++ p :: post →
  (∀ x, x ∈ pre → refresh p < refresh x)%Qc →
  (∀ x, x ∈ post → refresh p ≤ refresh x)%Qc →
  refresh p = Qc_of_Z 0 →
  (SerialIO.SerialIO cfg isMine default_timer n (SerialIO.entry tx rx ctl)).1
  = Raise ZeroDivisionError.
Proof.
  intros HS Hpre Hpost H0.
  unfold SerialIO.SerialIO.
  assert (Hdemo : (∃ s1, SerialIO.init_demo cfg (SerialIO.entry tx rx ctl) = (Ok tt, s1)) ∨
                  (∃ s1, SerialIO.init_demo cfg (SerialIO.entry tx rx ctl)
                         = (Raise ZeroDivisionError, s1))).
  { unfold SerialIO.init_demo. destruct (settings.SERIALIO_DEMO cfg); [|left; by eexists].
    destruct (decide (settings.DEMO_STEPS cfg = 0)) as [Hz|Hnz].
    - right. eexists. erewrite bind_Ok by reflexivity.
      erewrite bind_Raise; [reflexivity|]. unfold lift, SerialIO.setupDemoSensors.
      rewrite HS. destruct pre; cbn [app]; by rewrite setup_sensors_zero.
    - left. eexists. erewrite bind_Ok by reflexivity.
      erewrite (bind_Ok (lift (SerialIO.setupDemoSensors cfg))); [reflexivity|].
      unfold lift, SerialIO.setupDemoSensors. by rewrite setup_sensors_Ok. }
  destruct Hdemo as [[s1 H1]|[s1 H1]].
  - erewrite bind_Raise; [reflexivity|].
    unfold SerialIO.init. erewrite bind_Ok by exact H1.
    erewrite bind_Ok by reflexivity.
    erewrite bind_Raise; [reflexivity|].
    rewrite find_highest_sample_rate_run. cbn zeta.
    rewrite HS, pick_first_min; [|done|done|].
    + cbn [fst]. by rewrite decide_True.
    + cbn [fst]. rewrite H0. apply (bool_decide_unpack _). vm_compute. reflexivity.
  - erewrite bind_Raise; [reflexivity|].
    unfold SerialIO.init. erewrite bind_Raise; [reflexivity|]. exact H1.
Qed.

Lemma zero_refresh_stops_init_witness :
  (SerialIO.SerialIO Fixtures.cfg_stuck Fixtures.isMine Fixtures.seconds 5
     (SerialIO.entry [] [] [])).1 = Raise ZeroDivisionError.
Proof.
  apply (zero_refresh_stops_init Fixtures.cfg_stuck Fixtures.isMine Fixtures.seconds
           [Fixtures.rpm] Fixtures.stuck []).
  - reflexivity.
  - intros x Hx. apply list_elem_of_singleton in Hx. rewrite Hx.
    apply (bool_decide_unpack _). vm_compute. reflexivity.
  - intros x Hx. by apply elem_of_nil in Hx.
  - reflexivity.
Defined.

(** X20. On a registry that has a sensor with a refresh interval below 99
    and none with the interval 0, the pacing sensor is the first sensor
    with the least interval, and it stays the pacing sensor: after the
    initialisation and after any number of rounds [sample_counter_id] is
    its id. *)
Theorem pacing_sensor_is_first_minimum (cfg : settings.t)
    (isMine : ControlData → Z → bool) (default_timer : nat → Qc)
    pre p post (n : nat) tx rx ctl :
  0 < settings.DEMO_STEPS cfg →
  Forall (λ x, refresh x ≠ Qc_of_Z 0) (settings.SENSORS cfg) →
  settings.SENSORS cfg = pre ++ p :: post →
  (∀ x, x ∈ pre → refresh p < refresh x)%Qc →
  (∀ x, x ∈ post → refresh p ≤ refresh x)%Qc →
  (refresh p < Qc_of_Z 99)%Qc →
  ∃ s', SerialIO.SerialIO cfg isMine default_timer n (SerialIO.entry tx rx ctl)
        = (Ok tt, s') ∧
        SerialIO.sample_counter_id s' = sensorId p.
Proof.
  intros Hsteps Hrate HS Hpre Hpost H99.
  destruct (run_step cfg isMine default_timer Hsteps n tx rx ctl Hrate)
    as (s0 & s' & out & _ & _ & Hrun & _ & _ & Hpick & _).
  exists s'. split; [done|].
  rewrite HS, pick_first_min in Hpick by done. congruence.
Qed.

Lemma pacing_sensor_is_first_minimum_witness :
  ∃ s', SerialIO.SerialIO Fixtures.cfg_two Fixtures.isMine Fixtures.seconds 2
          (SerialIO.entry [] [] []) = (Ok tt, s') ∧
        SerialIO.sample_counter_id s' = "RPM".
Proof.
  apply (pacing_sensor_is_first_minimum Fixtures.cfg_two Fixtures.isMine
           Fixtures.seconds [Fixtures.ect] Fixtures.rpm [] 2 [] [] []).
  - reflexivity.
  - apply (bool_decide_unpack _). vm_compute. reflexivity.
  - reflexivity.
  - intros x Hx. apply list_elem_of_singleton in Hx. rewrite Hx.
    apply (bool_decide_unpack _). vm_compute. reflexivity.
  - intros x Hx. by apply elem_of_nil in Hx.
  - apply (bool_decide_unpack _). vm_compute. reflexivity.
Defined.

(** X21. What [SerialIO] emits, the coordinator can take: when every
    sensor of the registry is a key of [ecuData.data] and the action queue
    exists, the coordinator drains the samples of any run of [SerialIO]
    without raising, one per round, and is left with an empty receive
    queue. *)
Theorem acquired_samples_are_accepted (cfg : settings.t)
    (isMine : ControlData → Z → bool) (default_timer : nat → Qc) (n : nat) tx ctl
    (s : PyCosworth.State) :
  0 < settings.DEMO_STEPS cfg →
  Forall (λ x, refresh x ≠ Qc_of_Z 0) (settings.SENSORS cfg) →
  (∀ x, x ∈ settings.SENSORS cfg →
        is_Some (PyCosworth.data (PyCosworth.ecuData s) !! sensorId x)) →
  is_Some (PyCosworth.queues s PyCosworth.gpioActionQueue) →
  ∃ sa s',
    SerialIO.SerialIO cfg isMine default_timer n (SerialIO.entry tx [] ctl)
    = (Ok tt, sa) ∧
    PyCosworth.loop cfg (length (SerialIO.receiveQueue sa))
      (PyCosworth.set_serialReceiveQueue (SerialIO.receiveQueue sa) s) = (Ok tt, s') ∧
    PyCosworth.serialReceiveQueue s' = [].
Proof.
  intros Hsteps Hrate Hkeys Hq.
  destruct (run_step cfg isMine default_timer Hsteps n tx [] ctl Hrate)
    as (s0 & sa & out & _ & _ & Hrun & _ & _ & _ & _ & _ & _ & Hout & _ & Hall).
  cbn [app] in Hout.
  destruct (loop_store cfg (length (SerialIO.receiveQueue sa))
              (PyCosworth.set_serialReceiveQueue (SerialIO.receiveQueue sa) s))
    as (s' & Hl & _ & Hr & _).
  - cbn. rewrite firstn_all, Hout. revert Hall. apply Forall_impl.
    intros d (_ & Hd & _). right. right.
    apply list_elem_of_fmap in Hd as (x & -> & Hx). by apply Hkeys.
  - done.
  - exists sa, s'. split; [done|]. split; [done|].
    cbn in Hr. by rewrite drop_all in Hr.
Qed.

Lemma acquired_samples_are_accepted_witness :
  ∃ sa s',
    SerialIO.SerialIO Fixtures.cfg_two Fixtures.isMine Fixtures.seconds 2
      (SerialIO.entry [] [] []) = (Ok tt, sa) ∧
    PyCosworth.loop Fixtures.cfg_two (length (SerialIO.receiveQueue sa))
      (PyCosworth.set_serialReceiveQueue (SerialIO.receiveQueue sa)
         (Fixtures.running Fixtures.cfg_two)) = (Ok tt, s') ∧
    PyCosworth.serialReceiveQueue s' = [].
Proof.
  apply (acquired_samples_are_accepted Fixtures.cfg_two Fixtures.isMine
           Fixtures.seconds 2 [] [] (Fixtures.running Fixtures.cfg_two)).
  - reflexivity.
  - apply (bool_decide_unpack _). vm_compute. reflexivity.
  - intros x Hx. apply elem_of_cons in Hx as [->|Hx];
      [|apply list_elem_of_singleton in Hx; rewrite Hx];
      eexists; vm_compute; reflexivity.
  - eexists. vm_compute. reflexivity.
Defined.

(** * Live mode without a connection *)

Section Idle.
Context (cfg : settings.t) (isMine : ControlData → Z → bool)
        (default_timer : nat → Qc).
Hypothesis Hsteps : 0 < settings.DEMO_STEPS cfg.
Import SerialIO Cursor Acquisition.
Local Open Scope Qc_scope.

(** Lines 94-96: one timer reading per sensor; the timers of the other
    ids are left alone. *)
Lemma reset_loop_frame l : ∀ s,
  ∃ m,
    for_each l (λ sensor,
      now ← read_timer default_timer ;
      s ← get ;
      modify (set_sensor_timer (<[sensorId sensor := now]> (sensor_timer s)))) s
    = (Ok tt, set_sensor_timer m (set_timer_reads (timer_reads s + length l) s)) ∧
    (∀ k, k ∉ sensorId <$> l → m !! k = sensor_timer s !! k).
Proof.
  induction l as [|x l IH]; intros s.
  - exists (sensor_timer s). split; [|done].
    destruct s. cbn. by rewrite Nat.add_0_r.
  - cbn [for_each].
    set (s1 := set_sensor_timer
                 (<[sensorId x := default_timer (timer_reads s)]> (sensor_timer s))
                 (set_timer_reads (S (timer_reads s)) s)).
    destruct (IH s1) as (m & Hrun & Hkeep).
    exists m. split.
    + rewrite (bind_Ok _ _ s tt s1) by reflexivity. rewrite Hrun.
      unfold s1, set_sensor_timer, set_timer_reads. destruct s. cbn.
      do 2 f_equal. lia.
    + intros k Hk. rewrite fmap_cons in Hk. apply not_elem_of_cons in Hk as [Hne Hk].
      rewrite Hkeep by done. cbn. by rewrite lookup_insert_ne.
Qed.

(** The timer the initialisation gives a sensor whose id does not come
    again later in the registry is the reading taken at its position. *)
Lemma init_stamp pre p post tx rx ctl s0 :
  settings.SENSORS cfg = pre ++ p :: post →
  sensorId p ∉ sensorId <$> post →
  init cfg default_timer (entry tx rx ctl) = (Ok tt, s0) →
  sensor_timer s0 !! sensorId p = Some (default_timer (length pre)) ∧
  timer_reads s0 = length (settings.SENSORS cfg).
Proof.
  intros HS Hpost H. unfold init in H.
  apply bind_Ok_inv in H as ([] & s1 & H1 & H).
  apply bind_Ok_inv in H as ([] & s2 & [= <-] & H).
  apply bind_Ok_inv in H as ([] & s3 & H3 & H).
  apply bind_Ok_inv in H as ([] & s4 & H4 & [= <-]).
  rewrite find_highest_sample_rate_run in H3. cbn zeta in H3.
  injection H3 as _ <-.
  unfold reset_timers in H4. apply bind_Ok_inv in H4 as ([] & s5 & [= <-] & H4).
  assert (Hr1 : timer_reads s1 = 0%nat).
  { unfold init_demo in H1. destruct (settings.SERIALIO_DEMO cfg).
    - apply bind_Ok_inv in H1 as ([] & sa & [= <-] & H1).
      apply bind_Ok_inv in H1 as (ds & sb & Hds & [= <-]).
      unfold lift in Hds. destruct (setupDemoSensors cfg); [|done].
      by injection Hds as _ <-.
    - by injection H1 as <-. }
  rewrite HS in H4. rewrite for_each_app in H4.
  match type of H4 with context [for_each pre _ ?s] =>
    destruct (reset_loop_frame pre s) as (m1 & Hrun1 & _); set (sA := s) in *
  end.
  rewrite Hrun1 in H4. cbn [for_each] in H4.
  set (sB := set_sensor_timer m1 (set_timer_reads (timer_reads sA + length pre) sA)) in H4.
  set (sC := set_sensor_timer
               (<[sensorId p := default_timer (timer_reads sB)]> (sensor_timer sB))
               (set_timer_reads (S (timer_reads sB)) sB)).
  rewrite (bind_Ok _ _ sB tt sC) in H4 by reflexivity.
  destruct (reset_loop_frame post sC) as (m3 & Hrun3 & Hkeep3).
  rewrite Hrun3 in H4. injection H4 as <-. cbn.
  rewrite Hkeep3 by done. cbn. rewrite lookup_insert_eq, Hr1. cbn.
  split; [done|]. rewrite HS, length_app. cbn. lia.
Qed.

(** Polling a sensor with demo mode and the connection flag off leaves
    the timers alone. *)
Lemma poll_sensor_idle y s s' :
  SERIALIO_DEMO s = false → connected s = false →
  poll_sensor cfg default_timer y s = (Ok tt, s') →
  sensor_timer s' = sensor_timer s ∧ (timer_reads s ≤ timer_reads s')%nat.
Proof.
  intros Hd Hk.
  destruct (sensor_timer s !! sensorId y) as [last|] eqn:Hlast;
    [|by rewrite poll_sensor_KeyError].
  rewrite (poll_sensor_run cfg default_timer y s last Hlast). cbn zeta.
  case_decide as Hdue.
  2:{ intros [= <-]. cbn. split; [done|lia]. }
  rewrite count_sample_run. cbn [snd sample_counter_id set_timer_reads].
  case_decide as Hid; cbn [SERIALIO_DEMO set_sample_time set_timer_reads set_counter];
    rewrite Hd, send_live_run; cbn [connected set_sample_time set_timer_reads set_counter];
    rewrite Hk; intros [= <-]; cbn; split; (done || lia).
Qed.

Lemma poll_sensors_idle l : ∀ s s',
  SERIALIO_DEMO s = false → connected s = false →
  for_each l (poll_sensor cfg default_timer) s = (Ok tt, s') →
  sensor_timer s' = sensor_timer s ∧ (timer_reads s ≤ timer_reads s')%nat.
Proof.
  induction l as [|y l IH]; intros s s' Hd Hk Hrun.
  - by injection Hrun as <-.
  - cbn [for_each] in Hrun. apply bind_Ok_inv in Hrun as ([] & s1 & Hy & Hl).
    destruct (poll_sensor_idle y s s1 Hd Hk Hy) as [Ht1 Hr1].
    destruct (poll_sensor_counter cfg default_timer y s s1 Hy) as (_ & Hd1 & Hk1 & _).
    destruct (IH s1 s') as [Ht Hr]; [congruence|congruence|done|].
    split; [congruence|lia].
Qed.

(** A round in live mode without a connection, the pacing sensor due. *)
Lemma tick_idle pre p post s last :
  settings.SENSORS cfg = pre ++ p :: post →
  NoDup (sensorId <$> settings.SENSORS cfg) →
  ready cfg s → SERIALIO_DEMO s = false → connected s = false →
  Forall (λ c, toggles cfg isMine c = false) (take 1 (controlQueue s)) →
  sample_counter_id s = sensorId p →
  sensor_timer s !! sensorId p = Some last →
  (∀ k, (timer_reads s ≤ k)%nat → refresh p ≤ default_timer k - last) →
  ∃ s', tick cfg isMine default_timer s = (Ok tt, s') ∧ ready cfg s' ∧
        SERIALIO_DEMO s' = false ∧ connected s' = false ∧
        sample_counter_id s' = sensorId p ∧
        sensor_timer s' = sensor_timer s ∧
        (timer_reads s ≤ timer_reads s')%nat ∧
        counter s' = (counter s + 1)%Z ∧
        receiveQueue s' = receiveQueue s ∧
        controlQueue s' = drop 1 (controlQueue s).
Proof.
  intros HS Hnd Hr Hd Hk Hctl Hid Hlast Hclock.
  destruct (tick_step cfg isMine default_timer Hsteps s Hr)
    as (s' & out & Ht & Hr' & Hk' & Hid' & Hcq & _ & Hm & Hq & _ & _ & Hall).
  assert (Hd' : SERIALIO_DEMO s' = false).
  { rewrite Hm, Hd. destruct (controlQueue s) as [|c q]; [done|].
    cbn in *. apply Forall_cons_1 in Hctl as [-> _]. done. }
  assert (Hout : out = []).
  { destruct out as [|d out]; [done|].
    apply Forall_cons_1 in Hall as [[_ [[H _]|(_ & H & _)]] _]; congruence. }
  destruct (round_counter cfg isMine default_timer pre p post s s' HS Hnd)
    as (s0 & s1 & last' & Hl & Hpre & Hlast' & Hcount); [done|done|].
  pose proof (listen_same_sampling cfg isMine default_timer s (Ok tt) s0 Hl)
    as ((_ & _ & Ht0 & Hk0 & _) & Hr0).
  assert (Hd0 : SERIALIO_DEMO s0 = false).
  { destruct (listen_step cfg isMine default_timer Hsteps s Hr)
      as (s0' & Hl' & _ & _ & _ & _ & Hm0).
    rewrite Hl in Hl'. injection Hl' as <-. rewrite Hm0, Hd.
    destruct (controlQueue s) as [|c q]; [done|].
    cbn in *. apply Forall_cons_1 in Hctl as [-> _]. done. }
  destruct (poll_sensors_idle pre s0 s1) as [_ Hr1]; [done|congruence|done|].
  pose proof Ht as Ht'. unfold tick in Ht'. rewrite (bind_Ok _ _ _ _ _ Hl) in Ht'.
  destruct (poll_sensors_idle (settings.SENSORS cfg) s0 s') as [Hts Hrs];
    [done|congruence|done|].
  exists s'. split; [done|]. split; [done|]. split; [done|]. split; [congruence|].
  split; [congruence|]. split; [congruence|]. split; [lia|].
  split; [|split; [by rewrite Hq, Hout, app_nil_r|done]].
  rewrite Hcount. rewrite decide_True; [done|].
  rewrite Hlast in Hlast'. injection Hlast' as <-. apply Hclock. lia.
Qed.

Lemma loop_idle pre p post last n : ∀ s,
  settings.SENSORS cfg = pre ++ p :: post →
  NoDup (sensorId <$> settings.SENSORS cfg) →
  ready cfg s → SERIALIO_DEMO s = false → connected s = false →
  Forall (λ c, toggles cfg isMine c = false) (take n (controlQueue s)) →
  sample_counter_id s = sensorId p →
  sensor_timer s !! sensorId p = Some last →
  (∀ k, (timer_reads s ≤ k)%nat → refresh p ≤ default_timer k - last) →
  ∃ s', loop cfg isMine default_timer n s = (Ok tt, s') ∧
        counter s' = (counter s + Z.of_nat n)%Z ∧
        receiveQueue s' = receiveQueue s.
Proof.
  induction n as [|n IH]; intros s HS Hnd Hr Hd Hk Hctl Hid Hlast Hclock.
  - exists s. split; [done|]. split; [lia|done].
  - rewrite <- take_round in Hctl. apply Forall_app in Hctl as [Hctl1 Hctl2].
    destruct (tick_idle pre p post s last)
      as (s1 & Ht & Hr1 & Hd1 & Hk1 & Hid1 & Ht1 & Hrd1 & Hc1 & Hq1 & Hcq1); [done..|].
    destruct (IH s1) as (s' & Hl & Hc & Hq); [done..| | | | |].
    + by rewrite Hcq1.
    + done.
    + by rewrite Ht1.
    + intros k Hk'. apply Hclock. lia.
    + exists s'. split.
      { cbn [loop]. erewrite bind_Ok by exact Ht. exact Hl. }
      split; [lia|congruence].
Qed.

End Idle.

(** One second after the first reading, a twentieth of a second has
    gone by. *)
Lemma seconds_elapsed (k : nat) :
  (1 ≤ k)%nat →
  (Q2Qc (1 # 20) ≤ Fixtures.seconds k - Fixtures.seconds 0)%Qc.
Proof.
  intros Hk. unfold Fixtures.seconds. change (Z.of_nat 0) with 0.
  rewrite Z2Qc_inj_0.
  replace (Qc_of_Z (Z.of_nat k) - Q2Qc 0)%Qc with (Qc_of_Z (Z.of_nat k)) by ring.
  apply Qcle_trans with (Qc_of_Z 1).
  - apply (bool_decide_unpack _). vm_compute. reflexivity.
  - apply (proj1 (Z2Qc_inj_le _ _)). lia.
Qed.

(** X22. In live mode the counter counts rounds, not samples: with demo
    mode off and never switched on, no sample is ever sent and no timer
    is ever reset, so once the interval of the pacing sensor has elapsed
    since the initialisation the counter goes up by one in every round. *)
Theorem live_counter_counts_rounds (cfg : settings.t) (isMine : ControlData → Z → bool)
    (default_timer : nat → Qc) pre p post (n : nat) tx rx ctl :
  0 < settings.DEMO_STEPS cfg →
  Forall (λ x, refresh x ≠ Qc_of_Z 0) (settings.SENSORS cfg) →
  NoDup (sensorId <$> settings.SENSORS cfg) →
  settings.SENSORS cfg = pre ++ p :: post →
  (∀ x, x ∈ pre → refresh p < refresh x)%Qc →
  (∀ x, x ∈ post → refresh p ≤ refresh x)%Qc →
  (refresh p < Qc_of_Z 99)%Qc →
  settings.SERIALIO_DEMO cfg = false →
  Forall (λ c, Acquisition.toggles cfg isMine c = false) (take n ctl) →
  (∀ k, (length (settings.SENSORS cfg) ≤ k)%nat →
        (refresh p ≤ default_timer k - default_timer (length pre))%Qc) →
  ∃ s', SerialIO.SerialIO cfg isMine default_timer n (SerialIO.entry tx rx ctl)
        = (Ok tt, s') ∧
        SerialIO.counter s' = Z.of_nat n ∧
        SerialIO.receiveQueue s' = rx.
Proof.
  intros Hsteps Hrate Hnd HS Hpre Hpost H99 Hoff Hctl Hclock.
  destruct (run_step cfg isMine default_timer Hsteps 0 tx rx ctl Hrate)
    as (s0 & s0' & _ & Hinit & Hr0 & Hrun0 & _ & _ & Hpick & _).
  unfold SerialIO.SerialIO in Hrun0. erewrite bind_Ok in Hrun0 by exact Hinit.
  injection Hrun0 as <-.
  destruct (init_inv cfg default_timer _ _ Hinit)
    as (Hd0 & Hk0 & Hn0 & Hrq0 & Hcq0 & _).
  rewrite HS, pick_first_min in Hpick by done. injection Hpick as _ Hid.
  assert (Hp : sensorId p ∉ sensorId <$> post).
  { rewrite HS, fmap_app, fmap_cons in Hnd.
    apply list.NoDup_app in Hnd as (_ & _ & Hnd). by apply NoDup_cons_1_1 in Hnd. }
  destruct (init_stamp cfg default_timer pre p post tx rx ctl s0 HS Hp Hinit)
    as [Hlast Hreads].
  destruct (loop_idle cfg isMine default_timer Hsteps pre p post
              (default_timer (length pre)) n s0)
    as (s' & Hl & Hc & Hq); [done|done|done|congruence|done|by rewrite Hcq0|done|done| |].
  { intros k Hk. apply Hclock. lia. }
  exists s'. split.
  { unfold SerialIO.SerialIO. erewrite bind_Ok by exact Hinit. exact Hl. }
  split; [lia|by rewrite Hq, Hrq0].
Qed.

Lemma live_counter_counts_rounds_witness :
  ∃ s', SerialIO.SerialIO Fixtures.cfg_live Fixtures.isMine Fixtures.seconds 3
          (SerialIO.entry [] [] [Fixtures.long_press]) = (Ok tt, s') ∧
        SerialIO.counter s' = 3 ∧
        SerialIO.receiveQueue s' = [].
Proof.
  apply (live_counter_counts_rounds Fixtures.cfg_live Fixtures.isMine Fixtures.seconds
           [] Fixtures.rpm [] 3 [] [] [Fixtures.long_press]).
  - reflexivity.
  - apply (bool_decide_unpack _). vm_compute. reflexivity.
  - apply (bool_decide_unpack _). vm_compute. reflexivity.
  - reflexivity.
  - intros x Hx. by apply elem_of_nil in Hx.
  - intros x Hx. by apply elem_of_nil in Hx.
  - apply (bool_decide_unpack _). vm_compute. reflexivity.
  - reflexivity.
  - apply (bool_decide_unpack _). vm_compute. reflexivity.
  - intros k Hk. apply seconds_elapsed. exact Hk.
Defined.

(** * Demo mode with every sensor due *)

Section Wave.
Context (cfg : settings.t) (isMine : ControlData → Z → bool)
        (default_timer : nat → Qc).
Hypothesis Hsteps : 0 < settings.DEMO_STEPS cfg.
Hypothesis Hclock : ∀ x, x ∈ settings.SENSORS cfg → ∀ j k : nat,
  (j < k)%nat → (refresh x ≤ default_timer k - default_timer j)%Qc.
Import SerialIO Cursor Acquisition.
Local Open Scope Qc_scope.

Lemma advance_idx_mod (r : nat) :
  advance_idx cfg (Z.of_nat r `mod` (settings.DEMO_STEPS cfg * 2))
  = (Z.of_nat (S r) `mod` (settings.DEMO_STEPS cfg * 2))%Z.
Proof.
  unfold advance_idx. set (M := (settings.DEMO_STEPS cfg * 2)%Z).
  assert (HM : (0 < M)%Z) by (unfold M; lia).
  pose proof (Z.mod_pos_bound (Z.of_nat r) M HM) as Hb.
  rewrite Nat2Z.inj_succ, <- Z.add_1_r, <- Zplus_mod_idemp_l.
  case_decide as Hlt.
  - rewrite (Z.mod_small (Z.of_nat r `mod` M + 1)) by lia. done.
  - replace (Z.of_nat r `mod` M + 1)%Z with M by lia. by rewrite Z_mod_same_full.
Qed.

Lemma getitem_entry_at x r :
  py_getitem (demo_data (entry_at cfg x r)) (demo_data_idx (entry_at cfg x r))
  = Ok (demo_value cfg x r).
Proof.
  unfold entry_at, demo_value. cbn [demo_data demo_data_idx].
  set (M := (settings.DEMO_STEPS cfg * 2)%Z).
  assert (HM : (0 < M)%Z) by (unfold M; lia).
  pose proof (Z.mod_pos_bound (Z.of_nat r) M HM) as Hb.
  destruct (py_getitem_in_range (demo_data (Ramp.demo_entry_of cfg x))
              (Z.of_nat r `mod` M)) as (v & Hv & Hget).
  { rewrite length_demo_entry_of. unfold M in *. lia. }
  by rewrite Hget, Hv.
Qed.

(** One sensor's turn in round [r]. *)
Lemma poll_sensor_wave y r s ds j :
  y ∈ settings.SENSORS cfg →
  SERIALIO_DEMO s = true → demo_sensor s = Some ds →
  ds !! sensorId y = Some (entry_at cfg y r) →
  sensor_timer s !! sensorId y = Some (default_timer j) → (j < timer_reads s)%nat →
  ∃ s' d j',
    poll_sensor cfg default_timer y s = (Ok tt, s') ∧
    receiveQueue s' = receiveQueue s ++ [d] ∧
    d1 d = sensorId y ∧ d2 d = VFloat (demo_value cfg y r) ∧
    SERIALIO_DEMO s' = true ∧
    demo_sensor s' = Some (<[sensorId y := entry_at cfg y (S r)]> ds) ∧
    sensor_timer s' = <[sensorId y := default_timer j']> (sensor_timer s) ∧
    (j' < timer_reads s')%nat ∧ (timer_reads s ≤ timer_reads s')%nat ∧
    controlQueue s' = controlQueue s.
Proof.
  intros Hy Hd Hds He Hlast Hj.
  rewrite (poll_sensor_run cfg default_timer y s _ Hlast). cbn zeta.
  rewrite decide_True by (by apply Hclock).
  rewrite count_sample_run. cbn [snd sample_counter_id set_timer_reads].
  set (s2 := if decide (sensorId y = sample_counter_id s) then _ else _).
  assert (Hs2 : SERIALIO_DEMO s2 = SERIALIO_DEMO s ∧ demo_sensor s2 = demo_sensor s ∧
                sensor_timer s2 = sensor_timer s ∧
                controlQueue s2 = controlQueue s ∧
                receiveQueue s2 = receiveQueue s ∧
                (timer_reads s ≤ timer_reads s2)%nat).
  { unfold s2. case_decide; cbn; repeat split; try done; lia. }
  clearbody s2. destruct Hs2 as (Hd2 & Hds2 & Ht2 & Hcq2 & Hrq2 & Hr2).
  rewrite Hd2, Hd.
  erewrite send_demo_run; [|by rewrite Hds2|exact He|apply getitem_entry_at].
  eexists _, _, (timer_reads s2). split; [done|]. cbn.
  rewrite Hrq2, Ht2. split; [done|]. split; [done|]. split; [done|].
  split; [by rewrite Hd2|]. split.
  { do 2 f_equal. unfold set_demo_data_idx, entry_at. cbn. f_equal.
    apply advance_idx_mod. }
  split; [done|]. split; [lia|]. split; [lia|done].
Qed.

(** The sensor loop in round [r] over a part of the registry. *)
Lemma poll_sensors_wave r l : ∀ s ds,
  (∀ y, y ∈ l → y ∈ settings.SENSORS cfg) → NoDup (sensorId <$> l) →
  SERIALIO_DEMO s = true → demo_sensor s = Some ds →
  (∀ y, y ∈ l → ds !! sensorId y = Some (entry_at cfg y r)) →
  (∀ y, y ∈ l → ∃ j, sensor_timer s !! sensorId y = Some (default_timer j) ∧
                     (j < timer_reads s)%nat) →
  ∃ s' out ds',
    for_each l (poll_sensor cfg default_timer) s = (Ok tt, s') ∧
    receiveQueue s' = receiveQueue s ++ out ∧
    (λ d, (d1 d, d2 d)) <$> out
    = (λ x, (sensorId x, VFloat (demo_value cfg x r))) <$> l ∧
    SERIALIO_DEMO s' = true ∧ demo_sensor s' = Some ds' ∧
    (∀ y, y ∈ l → ds' !! sensorId y = Some (entry_at cfg y (S r))) ∧
    (∀ k, k ∉ sensorId <$> l → ds' !! k = ds !! k) ∧
    (∀ y, y ∈ l → ∃ j, sensor_timer s' !! sensorId y = Some (default_timer j) ∧
                       (j < timer_reads s')%nat) ∧
    (∀ k, k ∉ sensorId <$> l → sensor_timer s' !! k = sensor_timer s !! k) ∧
    (timer_reads s ≤ timer_reads s')%nat ∧
    controlQueue s' = controlQueue s.
Proof.
  induction l as [|y l IH]; intros s ds Hl Hnd Hd Hds He Ht.
  - exists s, [], ds. rewrite app_nil_r. split; [done|]. split; [done|].
    split; [done|]. split; [done|]. split; [done|].
    split; [intros y Hy; by apply elem_of_nil in Hy|]. split; [done|].
    split; [intros y Hy; by apply elem_of_nil in Hy|]. done.
  - rewrite fmap_cons in Hnd.
    pose proof (NoDup_cons_1_1 _ _ Hnd) as Hy. apply NoDup_cons_1_2 in Hnd.
    destruct (Ht y) as (j & Hlast & Hj); [apply list_elem_of_here|].
    destruct (poll_sensor_wave y r s ds j)
      as (s1 & d & j1 & Hrun1 & Hq1 & Hd1 & Hv1 & Hon1 & Hds1 & Ht1 & Hj1 & Hr1 & Hcq1);
      [apply Hl, list_elem_of_here|done|done|apply He, list_elem_of_here|done|done|].
    assert (Hne : ∀ z, z ∈ l → sensorId y ≠ sensorId z).
    { intros z Hz Heq. apply Hy. rewrite Heq. by apply list_elem_of_fmap_2. }
    destruct (IH s1 (<[sensorId y := entry_at cfg y (S r)]> ds))
      as (s' & out & ds' & Hrun & Hq & Hout & Hon & Hds' & He' & Hk' & Ht' & Hkt' & Hr' & Hcq');
      [intros z Hz; by apply Hl, list_elem_of_further|done|done|done| | |].
    { intros z Hz. rewrite lookup_insert_ne by (by apply Hne).
      by apply He, list_elem_of_further. }
    { intros z Hz. rewrite Ht1, lookup_insert_ne by (by apply Hne).
      destruct (Ht z) as (jz & Hz1 & Hz2); [by apply list_elem_of_further|].
      exists jz. split; [done|lia]. }
    exists s', (d :: out), ds'. split.
    { cbn [for_each]. erewrite bind_Ok by exact Hrun1. exact Hrun. }
    split; [by rewrite Hq, Hq1, <- app_assoc|].
    split; [by rewrite !fmap_cons, Hout, Hd1, Hv1|].
    split; [done|]. split; [done|]. split.
    { intros z Hz. apply elem_of_cons in Hz as [->|Hz]; [|by apply He'].
      rewrite Hk' by done. by rewrite lookup_insert_eq. }
    split.
    { intros k Hk. rewrite fmap_cons in Hk. apply not_elem_of_cons in Hk as [Hk1 Hk2].
      rewrite Hk' by done. by rewrite lookup_insert_ne. }
    split.
    { intros z Hz. apply elem_of_cons in Hz as [->|Hz]; [|by apply Ht'].
      rewrite Hkt' by done. rewrite Ht1, lookup_insert_eq.
      exists j1. split; [done|lia]. }
    split.
    { intros k Hk. rewrite fmap_cons in Hk. apply not_elem_of_cons in Hk as [Hk1 Hk2].
      rewrite Hkt' by done. by rewrite Ht1, lookup_insert_ne. }
    split; [lia|congruence].
Qed.

(** The first part of a round that finds no toggling message. *)
Lemma listen_wave r s :
  at_round cfg default_timer r s →
  Forall (λ c, toggles cfg isMine c = false) (take 1 (controlQueue s)) →
  ∃ s0, listen cfg isMine default_timer s = (Ok tt, s0) ∧
        at_round cfg default_timer r s0 ∧
        receiveQueue s0 = receiveQueue s ∧
        controlQueue s0 = drop 1 (controlQueue s).
Proof.
  intros (Hd & (ds & Hds & He) & Ht) Hctl.
  set (s3 := set_sample_start (default_timer (timer_reads s))
               (set_timer_reads (S (timer_reads s))
                  (set_sample_time (Qc_of_Z 0) s))).
  assert (Hrun : listen cfg isMine default_timer s
                 = (control_step cfg isMine ;; transmit_step) s3) by reflexivity.
  rewrite Hrun. clear Hrun.
  assert (Hc : ∃ s4, control_step cfg isMine s3 = (Ok tt, s4) ∧
                 SERIALIO_DEMO s4 = SERIALIO_DEMO s ∧ demo_sensor s4 = demo_sensor s ∧
                 sensor_timer s4 = sensor_timer s ∧
                 timer_reads s4 = S (timer_reads s) ∧
                 receiveQueue s4 = receiveQueue s ∧
                 controlQueue s4 = drop 1 (controlQueue s)).
  { destruct (controlQueue s) as [|cdata rest] eqn:Hq.
    - exists s3. rewrite control_step_nil by done. by repeat split.
    - rewrite (control_step_cons cfg isMine s3 cdata rest Hq). cbn zeta.
      cbn in Hctl. apply Forall_cons_1 in Hctl as [Hno _]. unfold toggles in Hno.
      rewrite Hno. eexists. split; [done|]. by repeat split. }
  destruct Hc as (s4 & Hc & Hd4 & Hds4 & Ht4 & Hr4 & Hq4 & Hcq4).
  exists (set_transmitQueue (drop 1 (transmitQueue s4)) s4).
  split; [erewrite bind_Ok by exact Hc; apply transmit_step_run|].
  split; [|by cbn]. split; [cbn; congruence|]. split.
  - exists ds. split; [cbn; congruence|done].
  - intros y Hy. destruct (Ht y Hy) as (j & Hj1 & Hj2). exists j. cbn.
    rewrite Ht4, Hr4. split; [done|lia].
Qed.

(** A round in which every sensor is sampled. *)
Lemma tick_wave r s :
  NoDup (sensorId <$> settings.SENSORS cfg) →
  at_round cfg default_timer r s →
  Forall (λ c, toggles cfg isMine c = false) (take 1 (controlQueue s)) →
  ∃ s' out,
    tick cfg isMine default_timer s = (Ok tt, s') ∧
    at_round cfg default_timer (S r) s' ∧
    receiveQueue s' = receiveQueue s ++ out ∧
    (λ d, (d1 d, d2 d)) <$> out
    = (λ x, (sensorId x, VFloat (demo_value cfg x r))) <$> settings.SENSORS cfg ∧
    controlQueue s' = drop 1 (controlQueue s).
Proof.
  intros Hnd Hat Hctl.
  destruct (listen_wave r s Hat Hctl) as (s0 & Hl & (Hd & (ds & Hds & He) & Ht) & Hq0 & Hcq0).
  destruct (poll_sensors_wave r (settings.SENSORS cfg) s0 ds)
    as (s' & out & ds' & Hrun & Hq & Hout & Hon & Hds' & He' & _ & Ht' & _ & _ & Hcq);
    [done..|].
  exists s', out. split.
  { unfold tick. erewrite bind_Ok by exact Hl. exact Hrun. }
  split; [|split; [congruence|split; [done|congruence]]].
  split; [done|]. split; [by exists ds'|done].
Qed.

Lemma wave_round r n :
  wave cfg r (S n)
  = ((λ x, (sensorId x, VFloat (demo_value cfg x r))) <$> settings.SENSORS cfg)
    ++ wave cfg (S r) n.
Proof. done. Qed.

Lemma loop_wave n : ∀ r s,
  NoDup (sensorId <$> settings.SENSORS cfg) →
  at_round cfg default_timer r s →
  Forall (λ c, toggles cfg isMine c = false) (take n (controlQueue s)) →
  ∃ s' out,
    loop cfg isMine default_timer n s = (Ok tt, s') ∧
    receiveQueue s' = receiveQueue s ++ out ∧
    (λ d, (d1 d, d2 d)) <$> out = wave cfg r n.
Proof.
  induction n as [|n IH]; intros r s Hnd Hat Hctl.
  - exists s, []. by rewrite app_nil_r.
  - rewrite <- take_round in Hctl. apply Forall_app in Hctl as [Hctl1 Hctl2].
    destruct (tick_wave r s Hnd Hat Hctl1) as (s1 & out1 & Ht & Hat1 & Hq1 & Hout1 & Hcq1).
    destruct (IH (S r) s1 Hnd Hat1) as (s' & out2 & Hl & Hq & Hout2);
      [by rewrite Hcq1|].
    exists s', (out1 ++ out2). split.
    { cbn [loop]. erewrite bind_Ok by exact Ht. exact Hl. }
    split; [by rewrite Hq, Hq1, app_assoc|].
    by rewrite fmap_app, Hout1, Hout2, wave_round.
Qed.

Lemma entry_at_0 x : entry_at cfg x 0 = Ramp.demo_entry_of cfg x.
Proof. unfold entry_at. cbn. by rewrite Z.mod_0_l by lia. Qed.

(** The initialisation in demo mode leaves the loop at round 0. *)
Lemma init_wave tx rx ctl s0 :
  NoDup (sensorId <$> settings.SENSORS cfg) →
  settings.SERIALIO_DEMO cfg = true →
  init cfg default_timer (entry tx rx ctl) = (Ok tt, s0) →
  at_round cfg default_timer 0 s0.
Proof.
  intros Hnd Hon Hinit.
  destruct (init_inv cfg default_timer _ _ Hinit) as (Hd & _ & _ & _ & _ & _ & _ & Hds).
  destruct (Hds Hon) as (ds & Hgen & Hs).
  split; [congruence|]. split.
  - exists ds. split; [done|]. intros y Hy. rewrite entry_at_0.
    destruct (setupDemoSensors_lookup cfg y) as (ds' & Hgen' & He); [lia|done|done|].
    congruence.
  - intros y Hy. apply list_elem_of_split in Hy as (pre & post & HS).
    assert (Hp : sensorId y ∉ sensorId <$> post).
    { rewrite HS, fmap_app, fmap_cons in Hnd.
      apply list.NoDup_app in Hnd as (_ & _ & Hnd). by apply NoDup_cons_1_1 in Hnd. }
    destruct (init_stamp cfg default_timer pre y post tx rx ctl s0 HS Hp Hinit)
      as [Hlast Hreads].
    exists (length pre). split; [done|]. rewrite Hreads, HS, length_app. cbn. lia.
Qed.

End Wave.

(** Any two readings of this clock are at least a second apart. *)
Lemma seconds_apart (j k : nat) :
  (j < k)%nat →
  (Q2Qc (1 # 20) ≤ Fixtures.seconds k - Fixtures.seconds j)%Qc.
Proof.
  intros Hk. unfold Fixtures.seconds.
  rewrite <- Z2Qc_inj_sub.
  apply Qcle_trans with (Qc_of_Z 1).
  - apply (bool_decide_unpack _). vm_compute. reflexivity.
  - apply (proj1 (Z2Qc_inj_le _ _)). lia.
Qed.

(** X23. Demo mode end to end: when it is configured on and not switched
    off, the ids are distinct and the clock advances by at least every
    refresh interval between any two readings, each round emits one
    sample for every sensor, in registry order, and the values of a sensor
    run through its generated sequence cyclically: round [r] carries the
    value at index [r mod (2 * DEMO_STEPS)]. *)
Theorem demo_wave (cfg : settings.t) (isMine : ControlData → Z → bool)
    (default_timer : nat → Qc) (n : nat) tx rx ctl :
  0 < settings.DEMO_STEPS cfg →
  Forall (λ x, refresh x ≠ Qc_of_Z 0) (settings.SENSORS cfg) →
  NoDup (sensorId <$> settings.SENSORS cfg) →
  settings.SERIALIO_DEMO cfg = true →
  Forall (λ c, Acquisition.toggles cfg isMine c = false) (take n ctl) →
  (∀ x, x ∈ settings.SENSORS cfg → ∀ j k : nat,
        (j < k)%nat → (refresh x ≤ default_timer k - default_timer j)%Qc) →
  ∃ s' out,
    SerialIO.SerialIO cfg isMine default_timer n (SerialIO.entry tx rx ctl)
    = (Ok tt, s') ∧
    SerialIO.receiveQueue s' = rx ++ out ∧
    (λ d, (d1 d, d2 d)) <$> out = Acquisition.wave cfg 0 n.
Proof.
  intros Hsteps Hrate Hnd Hon Hctl Hclock.
  destruct (init_step cfg default_timer Hsteps (SerialIO.entry tx rx ctl) Hrate)
    as (s0 & Hinit & _ & _).
  destruct (init_inv cfg default_timer _ _ Hinit) as (_ & _ & _ & Hrq0 & Hcq0 & _).
  pose proof (init_wave cfg default_timer Hsteps tx rx ctl s0 Hnd Hon Hinit) as Hat.
  destruct (loop_wave cfg isMine default_timer Hsteps Hclock n 0 s0 Hnd Hat)
    as (s' & out & Hl & Hq & Hout); [by rewrite Hcq0|].
  exists s', out. split.
  { unfold SerialIO.SerialIO. erewrite bind_Ok by exact Hinit. exact Hl. }
  split; [by rewrite Hq, Hrq0|done].
Qed.

Lemma demo_wave_witness :
  ∃ s' out,
    SerialIO.SerialIO Fixtures.cfg_rpm Fixtures.isMine Fixtures.seconds 9
      (SerialIO.entry [] [] []) = (Ok tt, s') ∧
    SerialIO.receiveQueue s' = [] ++ out ∧
    (λ d, (d1 d, d2 d)) <$> out = Acquisition.wave Fixtures.cfg_rpm 0 9.
Proof.
  apply (demo_wave Fixtures.cfg_rpm Fixtures.isMine Fixtures.seconds 9 [] [] []).
  - reflexivity.
  - apply (bool_decide_unpack _). vm_compute. reflexivity.
  - apply (bool_decide_unpack _). vm_compute. reflexivity.
  - reflexivity.
  - apply (bool_decide_unpack _). vm_compute. reflexivity.
  - intros x Hx j k Hjk. apply list_elem_of_singleton in Hx. rewrite Hx.
    apply seconds_apart. exact Hjk.
Defined.

(** * The counter and cycle time a sample carries *)

Section Stamp.
Context (cfg : settings.t) (isMine : ControlData → Z → bool)
        (default_timer : nat → Qc).
Import SerialIO Cursor Acquisition.
Local Open Scope Qc_scope.

(** A sample carries the counter and the cycle time as they are when it is
    put; a sensor other than the pacing one leaves both as they were. *)
Lemma poll_sensor_stamp y s s' :
  poll_sensor cfg default_timer y s = (Ok tt, s') →
  sample_counter_id s' = sample_counter_id s ∧
  (sensorId y ≠ sample_counter_id s →
   counter s' = counter s ∧ sample_time s' = sample_time s) ∧
  ∃ out, receiveQueue s' = receiveQueue s ++ out ∧
         Forall (λ d, d1 d = sensorId y ∧ d3 d = counter s' ∧
                      d4 d = sample_time s') out.
Proof.
  destruct (sensor_timer s !! sensorId y) as [last|] eqn:Hlast;
    [|by rewrite poll_sensor_KeyError].
  rewrite (poll_sensor_run cfg default_timer y s last Hlast). cbn zeta.
  case_decide.
  2:{ intros [= <-]. split; [done|]. split; [done|]. exists [].
      by rewrite app_nil_r. }
  rewrite count_sample_run. cbn [snd sample_counter_id set_timer_reads].
  set (s2 := if decide (sensorId y = sample_counter_id s) then _ else _).
  assert (Hs2 : sample_counter_id s2 = sample_counter_id s ∧
                receiveQueue s2 = receiveQueue s ∧
                (sensorId y ≠ sample_counter_id s →
                 counter s2 = counter s ∧ sample_time s2 = sample_time s)).
  { unfold s2. by case_decide. }
  destruct Hs2 as (Hi2 & Hq2 & Hc2). clearbody s2.
  destruct (SERIALIO_DEMO s2) eqn:Hdemo.
  - intros Hrun. destruct (send_demo_inv _ _ _ _ _ Hrun) as (ds & e & rxb & Hds & He & Hrxb).
    erewrite send_demo_run in Hrun by done. injection Hrun as <-. cbn.
    split; [done|]. split; [done|]. eexists [_]. split; [by rewrite Hq2|].
    by apply Forall_singleton.
  - rewrite send_live_run. intros [= <-]. destruct (connected s2); cbn.
    + split; [done|]. split; [done|]. eexists [_]. split; [by rewrite Hq2|].
      by apply Forall_singleton.
    + split; [done|]. split; [done|]. exists []. by rewrite app_nil_r.
Qed.

(** The sensors polled before the pacing sensor. *)
Lemma poll_early_stamp l : ∀ s s',
  for_each l (poll_sensor cfg default_timer) s = (Ok tt, s') →
  sample_counter_id s ∉ sensorId <$> l →
  sample_counter_id s' = sample_counter_id s ∧
  counter s' = counter s ∧ sample_time s' = sample_time s ∧
  ∃ out, receiveQueue s' = receiveQueue s ++ out ∧
         Forall (λ d, d3 d = counter s ∧ d4 d = sample_time s) out.
Proof.
  induction l as [|y l IH]; intros s s' Hrun Hnotin.
  - injection Hrun as <-. repeat split; try done. exists []. by rewrite app_nil_r.
  - cbn [for_each] in Hrun. apply bind_Ok_inv in Hrun as ([] & s1 & Hy & Hl).
    rewrite fmap_cons in Hnotin. apply not_elem_of_cons in Hnotin as [Hne Hnotin].
    destruct (poll_sensor_stamp y s s1 Hy) as (Hi1 & Hsame & out1 & Hq1 & Hall1).
    destruct Hsame as [Hc1 Ht1]; [done|].
    destruct (IH s1 s' Hl) as (Hi & Hc & Ht & out2 & Hq2 & Hall2); [by rewrite Hi1|].
    split; [congruence|]. split; [congruence|]. split; [congruence|].
    exists (out1 ++ out2). split; [by rewrite Hq2, Hq1, app_assoc|].
    apply Forall_app. split.
    + revert Hall1. apply Forall_impl. intros d (_ & H3 & H4). split; congruence.
    + revert Hall2. apply Forall_impl. intros d (H3 & H4). split; congruence.
Qed.

(** The ids of what a part of the registry emits. *)
Lemma poll_sensors_ids l : ∀ s s',
  for_each l (poll_sensor cfg default_timer) s = (Ok tt, s') →
  ∃ out, receiveQueue s' = receiveQueue s ++ out ∧
         Forall (λ d, d1 d ∈ sensorId <$> l) out.
Proof.
  induction l as [|y l IH]; intros s s' Hrun.
  - injection Hrun as <-. exists []. by rewrite app_nil_r.
  - cbn [for_each] in Hrun. apply bind_Ok_inv in Hrun as ([] & s1 & Hy & Hl).
    destruct (poll_sensor_stamp y s s1 Hy) as (_ & _ & out1 & Hq1 & Hall1).
    destruct (IH s1 s' Hl) as (out2 & Hq2 & Hall2).
    exists (out1 ++ out2). split; [by rewrite Hq2, Hq1, app_assoc|].
    rewrite fmap_cons. apply Forall_app. split.
    + revert Hall1. apply Forall_impl. intros d (-> & _). apply list_elem_of_here.
    + revert Hall2. apply Forall_impl. intros d Hd. by apply list_elem_of_further.
Qed.

(** A round starts with a cycle time of 0. *)
Lemma listen_sample_time s s0 :
  listen cfg isMine default_timer s = (Ok tt, s0) → sample_time s0 = Qc_of_Z 0.
Proof.
  unfold listen.
  unfold mbind at 1, M_bind at 1, bind at 1. cbn [modify].
  unfold mbind at 1, M_bind at 1, bind at 1. rewrite read_timer_run.
  unfold mbind at 1, M_bind at 1, bind at 1. cbn [modify].
  unfold mbind at 1, M_bind at 1, bind at 1.
  destruct (control_step _ _ _) as [[[]|e] s1] eqn:Hc; [|done].
  assert (Hs1 : sample_time s1 = Qc_of_Z 0).
  { match type of Hc with control_step _ _ ?s3 = _ =>
      destruct (controlQueue s3) as [|cdata rest] eqn:Hq
    end.
    - rewrite control_step_nil in Hc by done. by injection Hc as <-.
    - rewrite (control_step_cons _ _ _ cdata rest Hq) in Hc. cbn zeta in Hc.
      repeat case_match; simplify_eq; done. }
  rewrite transmit_step_run. by intros [= <-].
Qed.

End Stamp.

(** X24. The cycle time is set back to 0 at the start of every round and
    measured when the pacing sensor is polled, so with distinct ids every
    sample a round emits for a sensor that stands before the pacing
    sensor in the registry carries a cycle time of 0 and the counter as
    it stood when the round began. *)
Theorem early_samples_carry_no_cycle_time (cfg : settings.t)
    (isMine : ControlData → Z → bool) (default_timer : nat → Qc)
    pre p post (n : nat) tx rx ctl :
  0 < settings.DEMO_STEPS cfg →
  Forall (λ x, refresh x ≠ Qc_of_Z 0) (settings.SENSORS cfg) →
  NoDup (sensorId <$> settings.SENSORS cfg) →
  settings.SENSORS cfg = pre ++ p :: post →
  (∀ x, x ∈ pre → refresh p < refresh x)%Qc →
  (∀ x, x ∈ post → refresh p ≤ refresh x)%Qc →
  (refresh p < Qc_of_Z 99)%Qc →
  ∃ sn s' out,
    SerialIO.SerialIO cfg isMine default_timer n (SerialIO.entry tx rx ctl)
    = (Ok tt, sn) ∧
    SerialIO.tick cfg isMine default_timer sn = (Ok tt, s') ∧
    SerialIO.receiveQueue s' = SerialIO.receiveQueue sn ++ out ∧
    ∀ d, d ∈ out → d1 d ∈ sensorId <$> pre →
         d3 d = SerialIO.counter sn ∧ d4 d = Qc_of_Z 0.
Proof.
  intros Hsteps Hrate Hnd HS Hpre Hpost H99.
  destruct (run_step cfg isMine default_timer Hsteps n tx rx ctl Hrate)
    as (s0 & sn & _ & _ & _ & Hrun & Hr & _ & Hpick & _).
  rewrite HS, pick_first_min in Hpick by done. injection Hpick as _ Hid.
  destruct (tick_step cfg isMine default_timer Hsteps sn Hr) as (s' & _ & Ht & _).
  pose proof Ht as Ht'. unfold SerialIO.tick in Ht'.
  apply bind_Ok_inv in Ht' as ([] & sl & Hl & Hp).
  pose proof (listen_same_sampling _ _ _ _ _ _ Hl) as ((Hc0 & Hi0 & _ & _ & Hq0) & _).
  pose proof (listen_sample_time _ _ _ _ _ Hl) as Ht0.
  unfold SerialIO.poll_sensors in Hp. rewrite HS, for_each_app in Hp.
  destruct (for_each pre _ sl) as [[[]|e] s1] eqn:Hpre_run; [|done].
  rewrite HS, fmap_app, fmap_cons in Hnd.
  apply list.NoDup_app in Hnd as (_ & Hdisj & _).
  destruct (poll_early_stamp cfg default_timer pre sl s1 Hpre_run)
    as (_ & _ & _ & out1 & Hq1 & Hall1).
  { rewrite Hi0, Hid. intros Hin. apply (Hdisj _ Hin), list_elem_of_here. }
  destruct (poll_sensors_ids cfg default_timer (p :: post) s1 s' Hp)
    as (out2 & Hq2 & Hall2).
  exists sn, s', (out1 ++ out2). split; [done|]. split; [done|].
  split; [by rewrite Hq2, Hq1, Hq0, app_assoc|].
  intros d Hd Hin. apply elem_of_app in Hd as [Hd|Hd].
  - pose proof (proj1 (list.Forall_forall _ _) Hall1 d Hd) as [H3 H4].
    split; congruence.
  - pose proof (proj1 (list.Forall_forall _ _) Hall2 d Hd) as Hin2.
    by destruct (Hdisj _ Hin Hin2).
Qed.

Lemma early_samples_carry_no_cycle_time_witness :
  ∃ sn s' out,
    SerialIO.SerialIO Fixtures.cfg_two Fixtures.isMine Fixtures.seconds 2
      (SerialIO.entry [] [] []) = (Ok tt, sn) ∧
    SerialIO.tick Fixtures.cfg_two Fixtures.isMine Fixtures.seconds sn = (Ok tt, s') ∧
    SerialIO.receiveQueue s' = SerialIO.receiveQueue sn ++ out ∧
    ∀ d, d ∈ out → d1 d ∈ ["ECT"] →
         d3 d = SerialIO.counter sn ∧ d4 d = Qc_of_Z 0.
Proof.
  apply (early_samples_carry_no_cycle_time Fixtures.cfg_two Fixtures.isMine
           Fixtures.seconds [Fixtures.ect] Fixtures.rpm [] 2 [] [] []).
  - reflexivity.
  - apply (bool_decide_unpack _). vm_compute. reflexivity.
  - apply (bool_decide_unpack _). vm_compute. reflexivity.
  - reflexivity.
  - intros x Hx. apply list_elem_of_singleton in Hx. rewrite Hx.
    apply (bool_decide_unpack _). vm_compute. reflexivity.
  - intros x Hx. by apply elem_of_nil in Hx.
  - apply (bool_decide_unpack _). vm_compute. reflexivity.
Defined.
